(** * PayVoice policy service: budget ledger, trust registry, alerts and
      the approval decision

    A shallow embedding of [src/services/policy.js] together with the parts
    of the SQL migration (tables [user_policies], [trusted_contacts],
    [daily_spending], [alerts] and their UNIQUE constraints) and of the
    [/send] route that the service depends on.

    Conventions of the embedding.
    - A JavaScript number is a binary64 float ([PrimFloat.float]); [+], [-],
      [*], [/], [>], [<=] are the IEEE operations, so NaN, the infinities and
      the signed zeros behave as in the program.
    - A numeric column that may hold SQL NULL is an [option number]: the
      number a read returns.  A write to a DECIMAL(10,2) column rounds to
      cents and refuses what does not fit ([DECIMAL_10_2]); a write to an
      INTEGER column refuses what is out of range ([INTEGER]).
    - A UUID is an opaque key, here a natural number; a row id handed out by
      [gen_random_uuid()] is the next unused number.  The users and contacts
      that rows refer to exist (foreign keys are not modelled).
    - An instant is a number of milliseconds since the epoch, a calendar
      date ('YYYY-MM-DD') the number of days since 1970-01-01.  The time
      zone of the server is part of the environment ([LocalTZA]); the
      database session runs in UTC.
    - A value of a request body that the code reads as a number is a
      number, a string or another JSON value ([JS.value]); a string is
      its sequence of code units, each below 256.
    - A Supabase query answers with [{ data, error }]; whether a query on a
      table fails with a storage error is decided by the environment
      ([fault]).  An [async] function is a computation over the database
      that returns a value or throws. *)

From Stdlib Require Import ZArith List Lia Bool Ascii String.
From Stdlib Require Import Floats.PrimFloat Floats.FloatOps Floats.SpecFloat Floats.FloatAxioms.
From Stdlib Require Numbers.Cyclic.Int63.Uint63.
From Stdlib Require Import Sorting.Sorted Sorting.Permutation.
Import ListNotations.

(** A decimal literal denotes the nearest binary64 value, as it does in
    JavaScript. *)
Set Warnings "-inexact-float".

(* ================================================================== *)
(** * JavaScript numbers                                               *)
(* ================================================================== *)

Module JS.

Definition number : Set := float.

Definition NaN : number := nan.
Definition Infinity : number := infinity.

Definition add (a b : number) : number := PrimFloat.add a b.
Definition sub (a b : number) : number := PrimFloat.sub a b.
Definition mul (a b : number) : number := PrimFloat.mul a b.
Definition div (a b : number) : number := PrimFloat.div a b.

(** [a > b], [a <= b], [a < b] on numbers; every comparison with NaN is
    false. *)
Definition gt (a b : number) : bool := PrimFloat.ltb b a.
Definition le (a b : number) : bool := PrimFloat.leb a b.
Definition lt (a b : number) : bool := PrimFloat.ltb a b.

(** The numbers that count as false: [0], [-0] and [NaN]. *)
Definition falsy (x : number) : bool := is_zero x || is_nan x.

(** [x || d] where [x] is a number or [null]. *)
Definition or (x : option number) (d : number) : number :=
  match x with
  | Some v => if falsy v then d else v
  | None => d
  end.

(** A value that the code reads as a number: a number, a string, or
    any other value (a boolean, [null], an array, an object), of which
    the code uses the truth value and the string that [ToString] gives. *)
Inductive value : Set :=
| Num (x : float)
| Str (s : string)
| Other (truthy : bool) (text : string).

(** [!v] *)
Definition falsy_value (v : value) : bool :=
  match v with
  | Num x => falsy x
  | Str EmptyString => true
  | Str _ => false
  | Other truthy _ => negb truthy
  end.

(** *** [parseFloat] of a string

    Leading white space is dropped; the longest prefix that is a
    StrDecimalLiteral is read: an optional sign, then [Infinity], or
    digits with an optional fraction, or a fraction, and an optional
    exponent; NaN when there is no such prefix.  The result is the number
    nearest to the decimal, a tie going to the even neighbour. *)

(** White space and line terminators among the code units below 256. *)
Definition is_white_space (c : ascii) : bool :=
  let n := N_of_ascii c in
  ((9 <=? n) && (n <=? 13) || (n =? 32) || (n =? 160))%N.

Fixpoint trim_start (s : string) : string :=
  match s with
  | String c rest => if is_white_space c then trim_start rest else s
  | EmptyString => s
  end.

Definition digit_of (c : ascii) : option Z :=
  let n := Z.of_N (N_of_ascii c) in
  if ((48 <=? n) && (n <=? 57))%Z then Some (n - 48)%Z else None.

(** The decimal digits at the start of [s]: the digits read so far
    ([acc]) continued, how many were read, and the rest of [s]. *)
Fixpoint read_digits (s : string) (acc n : Z) : Z * Z * string :=
  match s with
  | String c rest =>
      match digit_of c with
      | Some d => read_digits rest (10 * acc + d)%Z (n + 1)%Z
      | None => (acc, n, s)
      end
  | EmptyString => (acc, n, s)
  end.

Definition read_sign (s : string) : bool * string :=
  match s with
  | String "+" rest => (false, rest)
  | String "-" rest => (true, rest)
  | _ => (false, s)
  end.

(** The exponent part at the start of [s]: [e] or [E], an optional sign
    and at least one digit; 0 when there is none. *)
Definition read_exponent (s : string) : Z :=
  match s with
  | String c rest =>
      if (c =? "e")%char || (c =? "E")%char then
        let '(neg, rest') := read_sign rest in
        let '(x, n, _) := read_digits rest' 0%Z 0%Z in
        if (n =? 0)%Z then 0%Z else if neg then (- x)%Z else x
      else 0%Z
  | EmptyString => 0%Z
  end.

(** The number nearest to [m * 10^k], for [0 <= m], negated when [neg]. *)
Definition decimal (neg : bool) (m k : Z) : number :=
  match m with
  | Zpos p =>
      SF2Prim
        (if (0 <=? k)%Z
         then binary_normalize prec emax
                (if neg then (- (m * 10 ^ k))%Z else (m * 10 ^ k)%Z) 0%Z false
         else SFdiv prec emax (S754_finite neg p 0%Z)
                (S754_finite false (Z.to_pos (10 ^ (- k))) 0%Z))
  | _ => if neg then neg_zero else zero
  end.

Definition parseFloat_string (s : string) : number :=
  let '(neg, s1) := read_sign (trim_start s) in
  if String.prefix "Infinity" s1 then (if neg then neg_infinity else Infinity)
  else
    let '(i, ni, r1) := read_digits s1 0%Z 0%Z in
    match r1 with
    | String "." r =>
        let '(m, nf, r2) := read_digits r i 0%Z in
        if (ni + nf =? 0)%Z then NaN
        else decimal neg m (read_exponent r2 - nf)%Z
    | _ =>
        if (ni =? 0)%Z then NaN else decimal neg i (read_exponent r1)
    end.

(** [parseFloat]: a string is read as above, any other value through
    its string; a number is printed and read back, which only changes
    [-0] into [0]. *)
Definition parseFloat (v : value) : number :=
  match v with
  | Num x => if is_zero x then zero else x
  | Str s => parseFloat_string s
  | Other _ text => parseFloat_string text
  end.

(** [parseFloat] applied to a number of the database or to [null], which
    gives NaN. *)
Definition parseFloat_nullable (x : option number) : number :=
  match x with
  | Some v => parseFloat (Num v)
  | None => NaN
  end.

(** [JSON.stringify] of a number, as sent to the database: NaN and the
    infinities become [null]. *)
Definition to_json (x : number) : option number :=
  if is_finite x then Some x else None.

Definition of_Z (z : Z) : number :=
  match z with
  | Z0 => zero
  | Zpos _ => of_uint63 (Uint63.of_Z z)
  | Zneg p => opp (of_uint63 (Uint63.of_Z (Zpos p)))
  end.

(** [Math.round]: a NaN, an infinity, a zero or an integral number is
    returned as it is; otherwise the nearest integer, a tie going towards
    +Infinity, with [-0] for [-0.5 <= x < 0]. *)
Definition Math_round (x : number) : number :=
  match Prim2SF x with
  | S754_finite s m e =>
      if (0 <=? e)%Z then x
      else
        let d := (2 ^ (- e))%Z in
        let n := if s then Zneg m else Zpos m in
        let r := ((2 * n + d) / (2 * d))%Z in
        if (r =? 0)%Z then (if s then neg_zero else zero) else of_Z r
  | _ => x
  end.

(** [Math.max(a, b)]: NaN if either is NaN; [+0] is larger than [-0]. *)
Definition Math_max (a b : number) : number :=
  if is_nan a || is_nan b then NaN
  else if PrimFloat.ltb a b then b
  else if PrimFloat.ltb b a then a
  else if get_sign a then b else a.

End JS.

Abbreviation number := JS.number.

(** A number is used where a value is expected. *)
Coercion JS.Num : float >-> JS.value.

(* ================================================================== *)
(** * The store: tables, queries, failures                             *)
(* ================================================================== *)

Definition uuid : Set := nat.
Definition timestamp : Set := Z.
Definition date : Set := Z.

Definition MS_PER_DAY : Z := 86400000.

(** [new Date(t).toISOString().split('T')[0]] *)
Definition utc_date (t : timestamp) : date := (t / MS_PER_DAY)%Z.

(** The instant at which the date [d] starts, what a TIMESTAMPTZ column
    is compared with when the bound is the date string. *)
Definition start_of_day (d : date) : timestamp := (d * MS_PER_DAY)%Z.

(** [Date.prototype.getDay]: 0 is Sunday; 1970-01-01 was a Thursday. *)
Definition getDay (d : date) : Z := ((d + 4) mod 7)%Z.

Module Supabase.

Inductive Table : Set :=
| UserPolicies | TrustedContacts | DailySpending | Alerts | Transactions.

Inductive Op : Set := Select | Insert | Update | Delete.

(** [PGRST116]: [.single()] found no row, or several.
    [UniqueViolation]: Postgres error 23505.
    [NumericValueOutOfRange]: Postgres error 22003, a value that does not
    fit its column.
    [StorageError]: anything else (network, timeout, server). *)
Inductive pg_error : Set :=
| PGRST116 | UniqueViolation | NumericValueOutOfRange | StorageError.

Inductive response (A : Type) : Type :=
| Data (a : A)
| Error (e : pg_error).
Arguments Data {A} a.
Arguments Error {A} e.

Definition data {A} (r : response A) : option A :=
  match r with Data a => Some a | Error _ => None end.

Definition error {A} (r : response A) : option pg_error :=
  match r with Data _ => None | Error e => Some e end.

(** The environment of a call: the instant, the queries that fail, and
    the time zone of the server, [LocalTZA t isUTC] being the offset of
    local time from UTC, in milliseconds, at the instant [t] (given in UTC
    when [isUTC], else in local time). *)
Record Env : Set := mkEnv {
  now : timestamp;
  fault : Table -> Op -> bool;
  LocalTZA : timestamp -> bool -> Z
}.

Definition no_fault : Table -> Op -> bool := fun _ _ => false.

(** A server in UTC, and one in a zone at a fixed offset. *)
Definition utc : timestamp -> bool -> Z := fun _ _ => 0%Z.
Definition fixed_offset (ms : Z) : timestamp -> bool -> Z := fun _ _ => ms.

(** [LocalTime(t)] and [UTC(t)] of the language specification. *)
Definition LocalTime (env : Env) (t : timestamp) : timestamp :=
  (t + LocalTZA env t true)%Z.
Definition UTC (env : Env) (t : timestamp) : timestamp :=
  (t - LocalTZA env t false)%Z.

(** ** Column types

    A value reaches the database as JSON.  [JSON.stringify] writes a
    finite number as the shortest decimal that reads back as the same
    number, and NaN and the infinities as [null].  A DECIMAL(10,2) column
    rounds the decimal to two places, a half away from zero, and refuses
    (22003) a rounded value of 10^8 or more in magnitude; it is read back
    as the number nearest to the stored decimal.

    The cents are computed from the exact value [m * 2^e] of the number.
    The decimal that is sent rounds like the exact value unless it is
    itself a half cent [c + 0.5]: below 10^8 two decimals of three places
    never read back as the same number, so the decimal sent is the half
    cent exactly when the half cent reads back as the number. *)

Definition MAX_CENTS : Z := 10 ^ 10.

(** [|x| * 100] rounded down, for [|x| = m * 2^e]. *)
Definition cents_floor (m : positive) (e : Z) : Z :=
  if (0 <=? e)%Z then (Zpos m * 2 ^ e * 100)%Z
  else (Zpos m * 100 / 2 ^ (- e))%Z.

(** Is [|x| = m * 2^e] at or above [c + 0.5] cents? *)
Definition at_least_half (m : positive) (e : Z) (c : Z) : bool :=
  if (0 <=? e)%Z then false
  else ((2 * c + 1) * 2 ^ (- e) <=? Zpos m * 200)%Z.

(** Is [c + 0.5] cents, the decimal [(2c + 1) / 200], read back as [|x|]? *)
Definition prints_as_half (x : number) (c : Z) : bool :=
  PrimFloat.eqb (JS.div (JS.of_Z (2 * c + 1)) 200%float) (abs x).

(** The cents a DECIMAL(_,2) column makes of a finite number. *)
Definition to_cents (x : number) : option Z :=
  match Prim2SF x with
  | S754_zero _ => Some 0%Z
  | S754_finite s m e =>
      let c := cents_floor m e in
      let c' :=
        if (MAX_CENTS <=? c)%Z then c
        else if at_least_half m e c || prints_as_half x c then (c + 1)%Z
        else c in
      Some (if s then (- c')%Z else c')
  | _ => None
  end.

(** The number read back from a column that holds [c] cents. *)
Definition of_cents (c : Z) : number := JS.div (JS.of_Z c) 100%float.

(** What a DECIMAL(10,2) column stores of a value, as it is read back,
    or the error of the write. *)
Definition DECIMAL_10_2 (v : option number) : response (option number) :=
  match v with
  | None => Data None
  | Some x =>
      match to_cents x with
      | None => Data None
      | Some c =>
          if (MAX_CENTS <=? Z.abs c)%Z then Error NumericValueOutOfRange
          else Data (Some (of_cents c))
      end
  end.

(** What an INTEGER column stores of a number. *)
Definition INTEGER (n : Z) : response Z :=
  if ((- 2 ^ 31 <=? n) && (n <=? 2 ^ 31 - 1))%Z then Data n
  else Error NumericValueOutOfRange.

(** ** Rows *)

Record user_policy : Set := mkPolicy {
  up_user_id : uuid;
  auto_approve_limit : number;
  daily_spending_limit : number;
  weekly_spending_limit : number;
  low_balance_alert_threshold : number;
  auto_save_percentage : number
}.

Record trusted_contact : Set := mkTrusted {
  tc_user_id : uuid;
  tc_contact_id : uuid;
  tc_auto_approve_limit : option number
}.

Record daily_spending_row : Set := mkSpending {
  ds_id : uuid;
  ds_user_id : uuid;
  ds_date : date;
  total_spent : option number;
  transaction_count : Z
}.

(** The text of an alert, with the values the template interpolates. *)
Inductive alert_message : Set :=
| LowBalanceMessage (balance threshold : number)
| Text (s : string).

Record alert : Set := mkAlert {
  al_id : uuid;
  al_user_id : uuid;
  alert_type : string;
  title : string;
  message : alert_message;
  is_read : bool;
  created_at : timestamp
}.

Record Db : Set := mkDb {
  user_policies : list user_policy;
  trusted_contacts : list trusted_contact;
  daily_spending : list daily_spending_row;
  alerts : list alert;
  next_id : uuid
}.

Definition empty_db : Db := mkDb [] [] [] [] 0.

Definition set_user_policies (db : Db) (l : list user_policy) : Db :=
  mkDb l (trusted_contacts db) (daily_spending db) (alerts db) (next_id db).
Definition set_trusted_contacts (db : Db) (l : list trusted_contact) : Db :=
  mkDb (user_policies db) l (daily_spending db) (alerts db) (next_id db).
Definition set_daily_spending (db : Db) (l : list daily_spending_row) (n : uuid) : Db :=
  mkDb (user_policies db) (trusted_contacts db) l (alerts db) n.
Definition set_alerts (db : Db) (l : list alert) (n : uuid) : Db :=
  mkDb (user_policies db) (trusted_contacts db) (daily_spending db) l n.

(** ** Computations: an [async] function body *)

Inductive result (A : Type) : Type :=
| Ok (a : A)
| Throw (e : pg_error).
Arguments Ok {A} a.
Arguments Throw {A} e.

Definition M (A : Type) : Type := Env -> Db -> result A * Db.

Definition ret {A} (a : A) : M A := fun _ db => (Ok a, db).

Definition throw {A} (e : pg_error) : M A := fun _ db => (Throw e, db).

Definition bind {A B} (m : M A) (k : A -> M B) : M B :=
  fun env db =>
    match m env db with
    | (Ok a, db') => k a env db'
    | (Throw e, db') => (Throw e, db')
    end.

(** [try { m } catch (error) { h error }] *)
Definition try_catch {A} (m : M A) (h : pg_error -> M A) : M A :=
  fun env db =>
    match m env db with
    | (Ok a, db') => (Ok a, db')
    | (Throw e, db') => h e env db'
    end.

Definition ask : M Env := fun env db => (Ok env, db).

(** ** Queries *)

(** [.from(t).select(..)] with the filters [p]. *)
Definition select {R} (t : Table) (tbl : Db -> list R) (p : R -> bool)
  : M (response (list R)) :=
  fun env db =>
    if fault env t Select then (Ok (Error StorageError), db)
    else (Ok (Data (filter p (tbl db))), db).

(** [.single()]: exactly one row, or the error PGRST116. *)
Definition single {R} (r : response (list R)) : response R :=
  match r with
  | Error e => Error e
  | Data [x] => Data x
  | Data _ => Error PGRST116
  end.

(** Column defaults of [user_policies]. *)
Definition default_policy (userId : uuid) : user_policy :=
  mkPolicy userId 5%float 100%float 500%float 10%float 0%float.

(** [.from('user_policies').insert({ user_id }).select().single()];
    [user_id] is UNIQUE. *)
Definition insert_user_policy (userId : uuid) : M (response user_policy) :=
  fun env db =>
    if fault env UserPolicies Insert then (Ok (Error StorageError), db)
    else if existsb (fun p => up_user_id p =? userId) (user_policies db)
    then (Ok (Error UniqueViolation), db)
    else
      let row := default_policy userId in
      (Ok (Data row), set_user_policies db (user_policies db ++ [row])).

(** [.from('trusted_contacts').insert({..}).select().single()];
    [auto_approve_limit] is DECIMAL(10,2) and [(user_id, contact_id)] is
    UNIQUE.  The values are converted to their columns before the row is
    checked against the constraint; the answer is the row as stored. *)
Definition insert_trusted_contact (row : trusted_contact)
  : M (response trusted_contact) :=
  fun env db =>
    if fault env TrustedContacts Insert then (Ok (Error StorageError), db)
    else
      match DECIMAL_10_2 (tc_auto_approve_limit row) with
      | Error e => (Ok (Error e), db)
      | Data limit =>
          if existsb (fun t => (tc_user_id t =? tc_user_id row)
                               && (tc_contact_id t =? tc_contact_id row))
                     (trusted_contacts db)
          then (Ok (Error UniqueViolation), db)
          else
            let stored := mkTrusted (tc_user_id row) (tc_contact_id row) limit in
            (Ok (Data stored),
             set_trusted_contacts db (trusted_contacts db ++ [stored]))
      end.

(** The values of [total_spent], DECIMAL(10,2), and [transaction_count],
    INTEGER, as their columns store them. *)
Definition spending_columns (total : option number) (count : Z)
    : response (option number * Z) :=
  match DECIMAL_10_2 total, INTEGER count with
  | Data t, Data c => Data (t, c)
  | Error e, _ => Error e
  | _, Error e => Error e
  end.

(** [.from('daily_spending').insert({..})]; [(user_id, date)] is UNIQUE. *)
Definition insert_daily_spending (userId : uuid) (d : date)
    (total : option number) (count : Z) : M (response unit) :=
  fun env db =>
    if fault env DailySpending Insert then (Ok (Error StorageError), db)
    else
      match spending_columns total count with
      | Error e => (Ok (Error e), db)
      | Data (total', count') =>
          if existsb (fun r => (ds_user_id r =? userId) && (ds_date r =? d)%Z)
                     (daily_spending db)
          then (Ok (Error UniqueViolation), db)
          else
            let row := mkSpending (next_id db) userId d total' count' in
            (Ok (Data tt),
             set_daily_spending db (daily_spending db ++ [row]) (S (next_id db)))
      end.

(** [.from('daily_spending').update({ total_spent, transaction_count })
     .eq('id', id)] *)
Definition update_daily_spending (id : uuid) (total : option number)
    (count : Z) : M (response unit) :=
  fun env db =>
    if fault env DailySpending Update then (Ok (Error StorageError), db)
    else
      match spending_columns total count with
      | Error e => (Ok (Error e), db)
      | Data (total', count') =>
          let upd r :=
            if ds_id r =? id
            then mkSpending (ds_id r) (ds_user_id r) (ds_date r) total' count'
            else r in
          (Ok (Data tt),
           set_daily_spending db (map upd (daily_spending db)) (next_id db))
      end.

(** [.from('alerts').insert({..}).select().single()]; [created_at]
    defaults to NOW(), [is_read] to FALSE. *)
Definition insert_alert (userId : uuid) (type ttl : string)
    (msg : alert_message) : M (response alert) :=
  fun env db =>
    if fault env Alerts Insert then (Ok (Error StorageError), db)
    else
      let row := mkAlert (next_id db) userId type ttl msg false (now env) in
      (Ok (Data row), set_alerts db (alerts db ++ [row]) (S (next_id db))).

End Supabase.

Import Supabase.

Declare Scope async_scope.
Delimit Scope async_scope with async.
Notation "x <- c1 ;; c2" := (bind c1 (fun x => c2))
  (at level 61, c1 at next level, right associativity) : async_scope.
Open Scope async_scope.

(* ================================================================== *)
(** * src/services/policy.js                                           *)
(* ================================================================== *)

(** ** Pillar 2: policies *)

(** Get the user's policy settings, creating the default row when none
    exists; every storage error is logged and thrown again. *)
Definition getUserPolicy (userId : uuid) : M user_policy :=
  try_catch
    (r <- select UserPolicies user_policies (fun p => up_user_id p =? userId) ;;
     match single r with
     | Error PGRST116 =>
         r' <- insert_user_policy userId ;;
         match r' with
         | Error insertError => throw insertError
         | Data newPolicy => ret newPolicy
         end
     | Error e => throw e
     | Data policy => ret policy
     end)
    (fun e => throw e).

(** Is the contact trusted: the row, or [null]; a storage error is logged
    and answered with [null]. *)
Definition isTrustedContact (userId contactId : uuid) : M (option trusted_contact) :=
  try_catch
    (r <- select TrustedContacts trusted_contacts
            (fun t => (tc_user_id t =? userId) && (tc_contact_id t =? contactId)) ;;
     match single r with
     | Error PGRST116 => ret None
     | Error e => throw e
     | Data d => ret (Some d)
     end)
    (fun _ => ret None).

(** Add a trusted contact: a plain insert; every error is thrown again. *)
Definition addTrustedContact (userId contactId : uuid)
    (autoApproveLimit : option number) : M trusted_contact :=
  try_catch
    (r <- insert_trusted_contact (mkTrusted userId contactId autoApproveLimit) ;;
     match r with
     | Error e => throw e
     | Data d => ret d
     end)
    (fun e => throw e).

(** All trusted contacts of a user; [[]] on a storage error. *)
Definition getTrustedContacts (userId : uuid) : M (list trusted_contact) :=
  try_catch
    (r <- select TrustedContacts trusted_contacts (fun t => tc_user_id t =? userId) ;;
     match r with
     | Error e => throw e
     | Data d => ret d
     end)
    (fun _ => ret []).

(** ** Pillar 3: guardrails *)

(** Today's total spending; 0 when there is no row, and 0 on a storage
    error. *)
Definition getTodaySpending (userId : uuid) : M number :=
  try_catch
    (env <- ask ;;
     let today := utc_date (now env) in
     r <- select DailySpending daily_spending
            (fun d => (ds_user_id d =? userId) && (ds_date d =? today)%Z) ;;
     match single r with
     | Error PGRST116 => ret zero
     | Error e => throw e
     | Data d => ret (JS.parseFloat (JS.or (total_spent d) zero))
     end)
    (fun _ => ret zero).

(** [(data || []).reduce((sum, d) => sum + parseFloat(d.total_spent || 0), 0)] *)
Definition sum_total_spent (rows : list daily_spending_row) : number :=
  fold_left (fun sum d => JS.add sum (JS.parseFloat (JS.or (total_spent d) zero)))
            rows zero.

(** The date the week is counted from.  [now.getDay()] and
    [now.getDate()] read the local time;
    [diff = now.getDate() - dayOfWeek + (dayOfWeek === 0 ? -6 : 1)] and
    [now.setDate(diff)] move the local time by [diff - now.getDate()]
    days; [toISOString()] gives the date of the result in UTC. *)
Definition weekStart (env : Env) : date :=
  let local := LocalTime env (now env) in
  let dayOfWeek := getDay (utc_date local) in
  let diff_minus_getDate := (- dayOfWeek + (if dayOfWeek =? 0 then -6 else 1))%Z in
  utc_date (UTC env (local + diff_minus_getDate * MS_PER_DAY))%Z.

(** This week's total spending: the rows dated on or after the Monday;
    0 on a storage error. *)
Definition getWeekSpending (userId : uuid) : M number :=
  try_catch
    (env <- ask ;;
     let ws := weekStart env in
     r <- select DailySpending daily_spending
            (fun d => (ds_user_id d =? userId) && (ws <=? ds_date d)%Z) ;;
     match r with
     | Error e => throw e
     | Data rows => ret (sum_total_spent rows)
     end)
    (fun _ => ret zero).

Record BudgetStatus : Set := mkBudgetStatus {
  todaySpent : number;
  weekSpent : number;
  dailyLimit : number;
  weeklyLimit : number;
  remainingToday : number;
  remainingWeek : number
}.

Inductive Window : Set := daily | weekly.

(** The [reason] strings, with the values their templates interpolate:
    - [ExceedsDaily l s]: 'This would exceed your daily limit of $l. You've spent $s today.'
    - [ExceedsWeekly l s]: 'This would exceed your weekly limit of $l. You've spent $s this week.'
    - [NotTrusted]: 'This contact is not in your trusted list.'
    - [WithinLimit a l]: 'Auto-approved: $a is within your $l limit for trusted contacts.'
    - [ExceedsAutoApprove a l]: 'Amount $a exceeds your auto-approve limit of $l.'
    - [CouldNotVerify]: 'Could not verify policies. Please confirm manually.' *)
Inductive Reason : Set :=
| ExceedsDaily (limit spent : number)
| ExceedsWeekly (limit spent : number)
| NotTrusted
| WithinLimit (amount : JS.value) (limit : number)
| ExceedsAutoApprove (amount : JS.value) (limit : number)
| CouldNotVerify.

Record Approval : Set := mkApproval {
  canAutoApprove : bool;
  requiresConfirmation : bool;
  reason : Reason;
  budgetStatus : option BudgetStatus;
  budgetExceeded : option Window
}.

(** [trustedContact.auto_approve_limit || policy.auto_approve_limit] *)
Definition effectiveLimit (tc : trusted_contact) (policy : user_policy) : number :=
  JS.or (tc_auto_approve_limit tc) (auto_approve_limit policy).

(** The decision logic of [checkAutoApproval] once policy, trust entry and
    spending have been read. *)
Definition decisionLogic (policy : user_policy)
    (trustedContact : option trusted_contact)
    (todaySpent weekSpent amountNum : number) (amount : JS.value) : Approval :=
  let status :=
    mkBudgetStatus todaySpent weekSpent
      (daily_spending_limit policy) (weekly_spending_limit policy)
      (JS.sub (daily_spending_limit policy) todaySpent)
      (JS.sub (weekly_spending_limit policy) weekSpent) in
  let result r exceeded := mkApproval false true r (Some status) exceeded in
  (* Check 1: would this exceed the daily limit? *)
  if JS.gt (JS.add todaySpent amountNum) (daily_spending_limit policy) then
    result (ExceedsDaily (daily_spending_limit policy) todaySpent) (Some daily)
  (* Check 2: would this exceed the weekly limit? *)
  else if JS.gt (JS.add weekSpent amountNum) (weekly_spending_limit policy) then
    result (ExceedsWeekly (weekly_spending_limit policy) weekSpent) (Some weekly)
  else
    (* Check 3: is the contact trusted? *)
    match trustedContact with
    | None => result NotTrusted None
    | Some tc =>
        (* Check 4: is the amount within the auto-approve limit? *)
        let effectiveLimit := effectiveLimit tc policy in
        if JS.le amountNum effectiveLimit then
          mkApproval true false (WithinLimit amount effectiveLimit) (Some status) None
        else
          result (ExceedsAutoApprove amount effectiveLimit) None
    end.

(** What the [catch] of [checkAutoApproval] returns. *)
Definition failClosed : Approval :=
  mkApproval false true CouldNotVerify None None.

(** Can the payment be auto-approved under the user's policies? *)
Definition checkAutoApproval (userId contactId : uuid) (amount : JS.value) : M Approval :=
  try_catch
    (let amountNum := JS.parseFloat amount in
     policy <- getUserPolicy userId ;;
     trustedContact <- isTrustedContact userId contactId ;;
     todaySpent <- getTodaySpending userId ;;
     weekSpent <- getWeekSpending userId ;;
     ret (decisionLogic policy trustedContact todaySpent weekSpent amountNum amount))
    (fun _ => ret failClosed).

(** The three outcomes of a proposed transfer, as the [/send] route reads
    the result: [budgetExceeded] blocks the transfer; otherwise
    [requiresConfirmation] asks the user first; otherwise the transfer is
    executed at once. *)
Inductive Decision : Set := Blocked | RequiresConfirmation | AutoApproved.

Definition decision_of (a : Approval) : Decision :=
  match budgetExceeded a with
  | Some _ => Blocked
  | None => if requiresConfirmation a then RequiresConfirmation else AutoApproved
  end.

(** ** Daily spending after a transaction *)

(** First await of [updateDailySpending]: the row of today, [null] when
    there is none or when the query fails (its error is not looked at). *)
Definition readExisting (userId : uuid) : M (option daily_spending_row) :=
  env <- ask ;;
  let today := utc_date (now env) in
  r <- select DailySpending daily_spending
         (fun d => (ds_user_id d =? userId) && (ds_date d =? today)%Z) ;;
  ret (data (single r)).

(** Second await: update the row that was read, or insert a first row; the
    answer of the query is dropped. *)
Definition writeSpending (userId : uuid) (amountNum : number)
    (existing : option daily_spending_row) : M unit :=
  env <- ask ;;
  let today := utc_date (now env) in
  match existing with
  | Some e =>
      _ <- update_daily_spending (ds_id e)
             (JS.to_json (JS.add (JS.parseFloat_nullable (total_spent e)) amountNum))
             (transaction_count e + 1)%Z ;;
      ret tt
  | None =>
      _ <- insert_daily_spending userId today (JS.to_json amountNum) 1%Z ;;
      ret tt
  end.

Definition updateDailySpending (userId : uuid) (amount : JS.value) : M unit :=
  try_catch
    (let amountNum := JS.parseFloat amount in
     existing <- readExisting userId ;;
     writeSpending userId amountNum existing)
    (fun _ => ret tt).

(** *** Calls that overlap

    An [async] call runs up to its next [await] without interruption; at an
    [await] another call may run.  A call of [updateDailySpending] is at
    its read, at its write (holding the row it read), or finished. *)
Inductive Call : Set :=
| AtRead
| AtWrite (existing : option daily_spending_row)
| Finished.

Definition call_step (env : Env) (userId : uuid) (amount : JS.value)
    (c : Call) (db : Db) : Call * Db :=
  match c with
  | AtRead =>
      match readExisting userId env db with
      | (Ok existing, db') => (AtWrite existing, db')
      | (Throw _, db') => (Finished, db')
      end
  | AtWrite existing =>
      (Finished, snd (writeSpending userId (JS.parseFloat amount) existing env db))
  | Finished => (Finished, db)
  end.

Fixpoint set_nth {A} (i : nat) (x : A) (l : list A) : list A :=
  match l, i with
  | [], _ => []
  | _ :: t, O => x :: t
  | h :: t, S j => h :: set_nth j x t
  end.

(** Run the calls in the order of the schedule: each entry names the call
    that makes its next step. *)
Fixpoint run_schedule (env : Env) (userId : uuid) (amount : JS.value)
    (schedule : list nat) (calls : list Call) (db : Db) : list Call * Db :=
  match schedule with
  | [] => (calls, db)
  | i :: rest =>
      match nth_error calls i with
      | Some c =>
          let '(c', db') := call_step env userId amount c db in
          run_schedule env userId amount rest (set_nth i c' calls) db'
      | None => run_schedule env userId amount rest calls db
      end
  end.

(** The ledger row of a user and date. *)
Definition spending_rows (db : Db) (userId : uuid) (d : date) : list daily_spending_row :=
  filter (fun r => (ds_user_id r =? userId) && (ds_date r =? d)%Z) (daily_spending db).

(** ** Pillar 3: alerts *)

Definition createAlert (userId : uuid) (alertType ttl : string)
    (msg : alert_message) : M alert :=
  try_catch
    (r <- insert_alert userId alertType ttl msg ;;
     match r with
     | Error e => throw e
     | Data d => ret d
     end)
    (fun e => throw e).

(** The low-balance alerts of a user created on or after the date. *)
Definition low_balance_since (userId : uuid) (today : date) (a : alert) : bool :=
  (al_user_id a =? userId) && (alert_type a =? "low_balance")%string
  && (start_of_day today <=? created_at a)%Z.

(** Create a low-balance alert when the balance is at or below the
    threshold and none was sent today; [null] otherwise and on an error. *)
Definition checkLowBalanceAlert (userId : uuid) (currentBalance : JS.value)
    : M (option alert) :=
  try_catch
    (policy <- getUserPolicy userId ;;
     let balance := JS.parseFloat currentBalance in
     let threshold := JS.parseFloat (low_balance_alert_threshold policy) in
     if JS.le balance threshold then
       env <- ask ;;
       let today := utc_date (now env) in
       r <- select Alerts alerts (low_balance_since userId today) ;;
       match data (single r) with
       | None =>
           a <- createAlert userId "low_balance" "Low Balance Alert"
                  (LowBalanceMessage balance threshold) ;;
           ret (Some a)
       | Some _ => ret None
       end
     else ret None)
    (fun _ => ret None).

(** *** Checks that overlap

    A call of [checkLowBalanceAlert] is before its query for an alert of
    the day, at the insert (the query gave none), or has answered. *)
Inductive Check : Set :=
| AtQuery
| AtCreate (balance threshold : number)
| Answered (r : option alert).

Definition check_step (env : Env) (userId : uuid) (currentBalance : JS.value)
    (c : Check) (db : Db) : Check * Db :=
  match c with
  | AtQuery =>
      match getUserPolicy userId env db with
      | (Throw _, db') => (Answered None, db')
      | (Ok policy, db') =>
          let balance := JS.parseFloat currentBalance in
          let threshold := JS.parseFloat (low_balance_alert_threshold policy) in
          if JS.le balance threshold then
            let today := utc_date (now env) in
            match select Alerts alerts (low_balance_since userId today) env db' with
            | (Throw _, db'') => (Answered None, db'')
            | (Ok r, db'') =>
                match data (single r) with
                | None => (AtCreate balance threshold, db'')
                | Some _ => (Answered None, db'')
                end
            end
          else (Answered None, db')
      end
  | AtCreate balance threshold =>
      match createAlert userId "low_balance" "Low Balance Alert"
              (LowBalanceMessage balance threshold) env db with
      | (Throw _, db') => (Answered None, db')
      | (Ok a, db') => (Answered (Some a), db')
      end
  | Answered r => (Answered r, db)
  end.

(** Run the checks in the order of the schedule: each entry names the
    call that makes its next step. *)
Fixpoint run_checks (env : Env) (userId : uuid) (currentBalance : JS.value)
    (schedule : list nat) (checks : list Check) (db : Db) : list Check * Db :=
  match schedule with
  | [] => (checks, db)
  | i :: rest =>
      match nth_error checks i with
      | Some c =>
          let '(c', db') := check_step env userId currentBalance c db in
          run_checks env userId currentBalance rest (set_nth i c' checks) db'
      | None => run_checks env userId currentBalance rest checks db
      end
  end.

(** ** Pillar 4: treasury *)

Record BudgetUse : Set := mkBudgetUse {
  limit : number;
  spent : number;
  remaining : number;
  percentUsed : number
}.

Record Summary : Set := mkSummary {
  totalSpent : number;
  totalTransactions : Z;
  budget_daily : BudgetUse;
  budget_weekly : BudgetUse
}.

(** One entry of [budget] in the summary. *)
Definition budgetUse (lim spent : number) : BudgetUse :=
  mkBudgetUse lim spent
    (JS.Math_max zero (JS.sub lim spent))
    (JS.Math_round (JS.mul (JS.div spent lim) 100%float)).

(** The share of a recipient in [topRecipients]. *)
Definition percentage (total totalSpent : number) : number :=
  if JS.gt totalSpent zero
  then JS.Math_round (JS.mul (JS.div total totalSpent) 100%float)
  else zero.

(** The spending summary: totals of the ledger rows of the last [days]
    days and the budget context.  The breakdown by recipient is read from
    the transaction log, of which only the failure of the query is kept
    here; the formatted fields are left out. *)
Definition getSpendingSummary (userId : uuid) (days : Z) : M Summary :=
  try_catch
    (env <- ask ;;
     let startDate := utc_date (now env - days * MS_PER_DAY)%Z in
     r <- select DailySpending daily_spending
            (fun d => (ds_user_id d =? userId) && (startDate <=? ds_date d)%Z) ;;
     match r with
     | Error dailyError => throw dailyError
     | Data dailyData =>
         if fault env Transactions Select then throw StorageError
         else
           let totalSpent := sum_total_spent dailyData in
           let totalTransactions :=
             fold_left (fun sum d => (sum + transaction_count d)%Z) dailyData 0%Z in
           policy <- getUserPolicy userId ;;
           todaySpent <- getTodaySpending userId ;;
           weekSpent <- getWeekSpending userId ;;
           ret (mkSummary totalSpent totalTransactions
                  (budgetUse (daily_spending_limit policy) todaySpent)
                  (budgetUse (weekly_spending_limit policy) weekSpent))
     end)
    (fun e => throw e).

(** ** Tactics for running the computations *)

(** Case analysis on the rows a query finds: none, one, several. *)
Ltac case_rows :=
  match goal with
  | |- context [filter ?p ?l] =>
      let r := fresh "r" in
      let r' := fresh "r" in
      let rs := fresh "rs" in
      let E := fresh "Erows" in
      destruct (filter p l) as [|r [|r' rs]] eqn:E
  end.

Ltac run_async :=
  unfold try_catch, bind, ask, select, ret, throw.

(* ================================================================== *)
(** * The specification's wording, and sample states                   *)
(* ================================================================== *)

(** The effective limit as the specification words it: the override of
    the trust entry when it has one, else the policy's limit. *)
Definition spec_effectiveLimit (tc : trusted_contact) (policy : user_policy) : number :=
  match tc_auto_approve_limit tc with
  | Some overrideLimit => overrideLimit
  | None => auto_approve_limit policy
  end.

(** The trust rules as the specification states them, at one input. *)
Definition trust_rules_as_stated (policy : user_policy)
    (trustedContact : option trusted_contact)
    (today week amount : number) : Prop :=
  JS.gt (JS.add today amount) (daily_spending_limit policy) = false ->
  JS.gt (JS.add week amount) (weekly_spending_limit policy) = false ->
  let r := decisionLogic policy trustedContact today week amount amount in
  match trustedContact with
  | None => decision_of r = RequiresConfirmation /\ reason r = NotTrusted
  | Some tc =>
      let lim := spec_effectiveLimit tc policy in
      (JS.le amount lim = true -> decision_of r = AutoApproved) /\
      (JS.gt amount lim = true ->
       decision_of r = RequiresConfirmation /\
       reason r = ExceedsAutoApprove amount lim)
  end.

(** Failing closed as the specification states it, at one input: a storage
    error on the policy read or on the trust read is answered with
    'Could not verify policies. Please confirm manually.' *)
Definition fails_closed_as_stated (env : Env) (db : Db)
    (userId contactId : uuid) (amount : number) : Prop :=
  fault env UserPolicies Select = true \/ fault env TrustedContacts Select = true ->
  exists r db',
    checkAutoApproval userId contactId amount env db = (Ok r, db') /\
    decision_of r = RequiresConfirmation /\ reason r = CouldNotVerify.

(** Recording a spend as the specification states it, at one input: a
    negative or non-finite amount makes the call fail. *)
Definition recordSpend_as_stated (env : Env) (db : Db)
    (userId : uuid) (amount : number) : Prop :=
  JS.lt amount zero = true \/ is_finite amount = false ->
  exists e db', updateDailySpending userId amount env db = (Throw e, db').

(** Adding a trusted counterparty as the specification states it, at one
    input: a second add for the pair succeeds and replaces the override
    limit. *)
Definition add_as_stated (env : Env) (db : Db) (userId contactId : uuid)
    (limit1 limit2 : option number) : Prop :=
  forall t1 db1,
    addTrustedContact userId contactId limit1 env db = (Ok t1, db1) ->
    exists t2 db2,
      addTrustedContact userId contactId limit2 env db1 = (Ok t2, db2) /\
      filter (fun t => (tc_user_id t =? userId) && (tc_contact_id t =? contactId))
             (trusted_contacts db2)
      = [mkTrusted userId contactId limit2].

(** The deduplication of the low-balance alert as the specification
    states it: a user has at most one low-balance alert of a day. *)
Definition one_alert_a_day_as_stated (db : Db) (userId : uuid) (day : date) : Prop :=
  List.length (filter (low_balance_since userId day) (alerts db)) <= 1.

(** A run of calls of [checkLowBalanceAlert] one after the other, each at
    its instant and with the balance of that moment. *)
Fixpoint checkLowBalance_calls (flt : Table -> Op -> bool)
    (tz : timestamp -> bool -> Z) (userId : uuid)
    (calls : list (timestamp * JS.value)) (db : Db)
    : list (result (option alert)) * Db :=
  match calls with
  | [] => ([], db)
  | (t, balance) :: rest =>
      let '(r, db') := checkLowBalanceAlert userId balance (mkEnv t flt tz) db in
      let '(rs, db'') := checkLowBalance_calls flt tz userId rest db' in
      (r :: rs, db'')
  end.

(** A call made on the day, with the balance at or below the threshold of
    the policy. *)
Definition low_call (day : date) (policy : user_policy)
    (c : timestamp * JS.value) : Prop :=
  utc_date (fst c) = day /\
  JS.le (JS.parseFloat (snd c))
        (JS.parseFloat (low_balance_alert_threshold policy)) = true.

(** The policy a user has: the one row of the table, or the column
    defaults when there is no row yet. *)
Definition policy_of (db : Db) (userId : uuid) (policy : user_policy) : Prop :=
  filter (fun p => up_user_id p =? userId) (user_policies db) = [policy] \/
  (filter (fun p => up_user_id p =? userId) (user_policies db) = [] /\
   policy = default_policy userId).

Definition alice : uuid := 1.
Definition bob : uuid := 2.

(** Wednesday 2026-11-04, 12:00 UTC. *)
Definition wednesday : date := 20761%Z.
Definition wednesday_noon : timestamp := 1793793600000%Z.

Definition env_ok : Env := mkEnv wednesday_noon no_fault utc.

(** Only the queries [o] on the table [t] fail. *)
Definition fault_on (t : Table) (o : Op) : Table -> Op -> bool :=
  fun t' o' =>
    match t, t' with
    | UserPolicies, UserPolicies | TrustedContacts, TrustedContacts
    | DailySpending, DailySpending | Alerts, Alerts
    | Transactions, Transactions =>
        match o, o' with
        | Select, Select | Insert, Insert | Update, Update | Delete, Delete => true
        | _, _ => false
        end
    | _, _ => false
    end.

(** The same instant with the trust registry, or the ledger, unreadable. *)
Definition env_trust_down : Env :=
  mkEnv wednesday_noon (fault_on TrustedContacts Select) utc.
Definition env_ledger_down : Env :=
  mkEnv wednesday_noon (fault_on DailySpending Select) utc.

(** Default policy; Bob trusted with an override of 20; 90 spent today. *)
Definition db_scenarioB : Db :=
  mkDb [default_policy alice]
       [mkTrusted alice bob (Some 20%float)]
       [mkSpending 0 alice wednesday (Some 90%float) 3%Z]
       [] 1.

(** Daily and weekly limit set to 0; 5 spent today. *)
Definition db_zero_limits : Db :=
  mkDb [mkPolicy alice 5%float 0%float 0%float 10%float 0%float]
       []
       [mkSpending 0 alice wednesday (Some 5%float) 1%Z]
       [] 1.

(** Daily and weekly limit set to 0; nothing spent. *)
Definition db_zero_limits_unspent : Db :=
  mkDb [mkPolicy alice 5%float 0%float 0%float 10%float 0%float] [] [] [] 0.

(** A ledger over two weeks and two users: Alice spent 40 on Sunday
    2026-11-01, 10 on Monday, 2.5 today; Bob spent 7 today. *)
Definition db_two_weeks : Db :=
  mkDb [] []
       [mkSpending 0 alice 20758%Z (Some 40%float) 2%Z;
        mkSpending 1 alice 20759%Z (Some 10%float) 1%Z;
        mkSpending 2 bob wednesday (Some 7%float) 1%Z;
        mkSpending 3 alice wednesday (Some 2.5%float) 1%Z]
       [] 4.

(** The Monday that starts the week of a date. *)
Definition monday_of (today : date) : date :=
  (today - (getDay today + 6) mod 7)%Z.

(** The week's spending as the specification words it: the sum of
    [total_spent] over the rows of the user dated from the Monday that
    starts the current week to today. *)
Definition weekSpend_as_stated (db : Db) (userId : uuid) (today : date) : number :=
  sum_total_spent
    (filter (fun r => (ds_user_id r =? userId)
                      && ((monday_of today <=? ds_date r)%Z && (ds_date r <=? today)%Z))
            (daily_spending db)).

(** Sunday 2026-11-08, 23:30 UTC, on a server one hour east of UTC, where
    it is Monday 2026-11-09, 00:30. *)
Definition sunday_night : timestamp := (20765 * MS_PER_DAY + 84600000)%Z.
Definition env_east : Env := mkEnv sunday_night no_fault (fixed_offset 3600000).

(** Alice spent 40 on Tuesday 2026-11-03 and 10 on Sunday 2026-11-08. *)
Definition db_one_week : Db :=
  mkDb [] []
       [mkSpending 0 alice 20760%Z (Some 40%float) 2%Z;
        mkSpending 1 alice 20765%Z (Some 10%float) 1%Z]
       [] 2.

(** Five balance checks on Wednesday, from noon on, the balance never
    above the default threshold of 10. *)
Definition five_checks : list (timestamp * JS.value) :=
  [(wednesday_noon, JS.Num 8);
   ((wednesday_noon + 60000)%Z, JS.Num 8);
   ((wednesday_noon + 3600000)%Z, JS.Num 7.5);
   ((wednesday_noon + 7200000)%Z, JS.Num 3);
   ((wednesday_noon + 36000000)%Z, JS.Num 10)].

(** Default policy; Bob trusted without an override; nothing spent. *)
Definition db_scenarioC : Db :=
  mkDb [default_policy alice] [mkTrusted alice bob None] [] [] 0.

(** Default policy; Bob trusted with an override of 0; nothing spent. *)
Definition db_zero_override : Db :=
  mkDb [default_policy alice] [mkTrusted alice bob (Some 0%float)] [] [] 0.

(** Auto-approve limit of the policy set to 0; Bob trusted without an
    override; nothing spent. *)
Definition db_zero_policy_limit : Db :=
  mkDb [mkPolicy alice 0%float 100%float 500%float 10%float 0%float]
       [mkTrusted alice bob None] [] [] 0.

(* ================================================================== *)
(** * The rest of the policy service                                   *)
(* ================================================================== *)

(** ** Trust registry: removal *)

(** [.from('trusted_contacts').delete().eq('user_id', userId)
     .eq('contact_id', contactId)] *)
Definition delete_trusted_contact (userId contactId : uuid) : M (response unit) :=
  fun env db =>
    if fault env TrustedContacts Delete then (Ok (Error StorageError), db)
    else
      (Ok (Data tt),
       set_trusted_contacts db
         (filter (fun t => negb ((tc_user_id t =? userId) && (tc_contact_id t =? contactId)))
                 (trusted_contacts db))).

(** Remove a trusted contact; [true], or the storage error thrown again. *)
Definition removeTrustedContact (userId contactId : uuid) : M bool :=
  try_catch
    (r <- delete_trusted_contact userId contactId ;;
     match r with
     | Error e => throw e
     | Data _ => ret true
     end)
    (fun e => throw e).

(** ** Alerts: reading and marking *)

(** [.order('created_at', { ascending: false })]: newest first. *)
Fixpoint insert_newest_first (a : alert) (l : list alert) : list alert :=
  match l with
  | [] => [a]
  | b :: t =>
      if (created_at b <? created_at a)%Z then a :: b :: t
      else b :: insert_newest_first a t
  end.

Definition order_newest_first (l : list alert) : list alert :=
  fold_right insert_newest_first [] l.

(** The unread alerts of a user, newest first; [[]] on a storage error. *)
Definition getUnreadAlerts (userId : uuid) : M (list alert) :=
  try_catch
    (r <- select Alerts alerts
            (fun a => (al_user_id a =? userId) && negb (is_read a)) ;;
     match r with
     | Error e => throw e
     | Data d => ret (order_newest_first d)
     end)
    (fun _ => ret []).

Definition mark_read (a : alert) : alert :=
  mkAlert (al_id a) (al_user_id a) (alert_type a) (title a) (message a)
          true (created_at a).

(** The rows an update of [markAlertsAsRead] reaches: the alerts of the
    user, narrowed by [.in('id', alertIds)] when ids are given. *)
Definition reached (userId : uuid) (ids : option (list uuid)) (a : alert) : bool :=
  (al_user_id a =? userId)
  && match ids with
     | Some l => existsb (Nat.eqb (al_id a)) l
     | None => true
     end.

(** [.from('alerts').update({ is_read: true }).eq('user_id', userId)],
    with [.in('id', ids)] when ids are given. *)
Definition update_alerts_read (userId : uuid) (ids : option (list uuid))
    : M (response unit) :=
  fun env db =>
    if fault env Alerts Update then (Ok (Error StorageError), db)
    else
      (Ok (Data tt),
       set_alerts db
         (map (fun a => if reached userId ids a then mark_read a else a) (alerts db))
         (next_id db)).

(** Mark alerts as read: all of the user's when [alertIds] is [null] or
    empty, else the listed ones; the answer of the query is dropped and
    nothing is thrown. *)
Definition markAlertsAsRead (userId : uuid) (alertIds : option (list uuid)) : M unit :=
  try_catch
    (let ids :=
       match alertIds with
       | Some (_ :: _) => alertIds
       | _ => None
       end in
     _ <- update_alerts_read userId ids ;;
     ret tt)
    (fun _ => ret tt).

(** ** Invariants of the tables *)

(** UNIQUE(user_id, contact_id) on [trusted_contacts]. *)
Definition trust_unique (db : Db) : Prop :=
  NoDup (map (fun t => (tc_user_id t, tc_contact_id t)) (trusted_contacts db)).

(** PRIMARY KEY (id) on [daily_spending]. *)
Definition spending_ids_unique (db : Db) : Prop :=
  NoDup (map ds_id (daily_spending db)).

(** Newest first: no alert comes before a more recent one. *)
Definition newest_first (l : list alert) : Prop :=
  StronglySorted (fun a b => (created_at b <= created_at a)%Z) l.

(** UNIQUE(user_id, date) on [daily_spending]. *)
Definition ledger_unique (db : Db) : Prop :=
  NoDup (map (fun r => (ds_user_id r, ds_date r)) (daily_spending db)).

(** An unread alert of the user. *)
Definition unread_of (userId : uuid) (a : alert) : bool :=
  (al_user_id a =? userId) && negb (is_read a).

(** Two alerts of Alice and one of Bob, all unread. *)
Definition db_three_alerts : Db :=
  mkDb [default_policy alice] [] []
       [mkAlert 0 alice "low_balance" "Low Balance Alert"
          (LowBalanceMessage 8%float 10%float) false wednesday_noon;
        mkAlert 1 alice "deposit_received" "Funds Received!"
          (Text "You received 5 USDC.") false (wednesday_noon + 5)%Z;
        mkAlert 2 bob "deposit_received" "Funds Received!"
          (Text "You received 9 USDC.") false (wednesday_noon + 7)%Z]
       3.

(* ================================================================== *)
(** * The middleware of the tool endpoints (middleware/auth.js)         *)
(* ================================================================== *)

(** A string is its sequence of code units.  [charCodeAt] past the end
    gives NaN, which the bit operators read as 0; the loop below stays
    within both strings. *)
Definition charCodeAt (s : string) (i : nat) : Z :=
  match String.get i s with
  | Some c => Z.of_N (N_of_ascii c)
  | None => 0%Z
  end.

(** Constant-time string comparison: different lengths are unequal; else
    [result |= a.charCodeAt(i) ^ b.charCodeAt(i)] over every index, and
    [result === 0]. *)
Definition secureCompare (a b : string) : bool :=
  if negb (String.length a =? String.length b) then false
  else
    let result :=
      fold_left (fun result i => Z.lor result (Z.lxor (charCodeAt a i) (charCodeAt b i)))
                (seq 0 (String.length a)) 0%Z in
    (result =? 0)%Z.

Inductive AuthOutcome : Set :=
| AuthNext                  (* next() *)
| MissingAuthorization      (* 401 *)
| InvalidAuthorizationFormat (* 401 *)
| InvalidApiKey.            (* 403 *)

(** Verify the Bearer token of a tool call; [PAYVOICE_API_KEY] is the
    environment variable, absent or empty when not configured. *)
Definition authenticateToolRequest (authHeader PAYVOICE_API_KEY : option string)
    : AuthOutcome :=
  match authHeader with
  | None | Some EmptyString => MissingAuthorization
  | Some header =>
      if negb (String.prefix "Bearer " header) then InvalidAuthorizationFormat
      else
        let token := String.substring 7 (String.length header - 7) header in
        match PAYVOICE_API_KEY with
        | None | Some EmptyString => AuthNext
        | Some expectedToken =>
            if negb (secureCompare token expectedToken) then InvalidApiKey
            else AuthNext
        end
  end.

(** ** Rate limiting by phone *)

Record RateRecord : Set := mkRate {
  rate_count : Z;
  windowStart : Z
}.

(** [requestCounts], the map from phone to its record. *)
Definition RequestCounts : Set := string -> option RateRecord.

Definition no_requests : RequestCounts := fun _ => None.

Definition counts_set (key : string) (r : RateRecord) (m : RequestCounts)
    : RequestCounts :=
  fun k => if String.eqb k key then Some r else m k.

Definition RATE_LIMIT_WINDOW : Z := 60 * 1000.
Definition MAX_REQUESTS_PER_WINDOW : Z := 30.

(** Whether the request goes on ([next()]) or is answered 429, and the
    map afterwards; [now] is [Date.now()]. *)
Definition rateLimitByPhone (phone : option string) (now : Z)
    (requestCounts : RequestCounts) : bool * RequestCounts :=
  match phone with
  | None | Some EmptyString => (true, requestCounts)
  | Some key =>
      match requestCounts key with
      | None => (true, counts_set key (mkRate 1 now) requestCounts)
      | Some record =>
          if (now - windowStart record >? RATE_LIMIT_WINDOW)%Z
          then (true, counts_set key (mkRate 1 now) requestCounts)
          else if (rate_count record >=? MAX_REQUESTS_PER_WINDOW)%Z
          then (false, requestCounts)
          else (true,
                counts_set key (mkRate (rate_count record + 1) (windowStart record))
                           requestCounts)
      end
  end.

(** Requests of one phone, one after the other, at the given instants. *)
Fixpoint rate_requests (phone : option string) (times : list Z)
    (requestCounts : RequestCounts) : list bool * RequestCounts :=
  match times with
  | [] => ([], requestCounts)
  | t :: rest =>
      let '(passed, m) := rateLimitByPhone phone t requestCounts in
      let '(results, m') := rate_requests phone rest m in
      (passed :: results, m')
  end.

Definition DAILY_LIMIT_DEFAULT : number := 1000%float.

(** Transaction amount limit: [true] when the request goes on; an absent
    or falsy amount goes on, an amount above 1000 is answered 400. *)
Definition validateTransactionLimits (amount : option JS.value) : bool :=
  match amount with
  | None => true
  | Some a =>
      if JS.falsy_value a then true
      else negb (JS.gt (JS.parseFloat a) DAILY_LIMIT_DEFAULT)
  end.

(* ================================================================== *)
(** * POST /api/send (routes/webhooks.js)                               *)
(* ================================================================== *)

(** [validateRequiredFields]: the fields whose value in the body is
    missing or falsy.  [body field] is the truth value of [body[field]]. *)
Definition validateRequiredFields (body : string -> bool)
    (requiredFields : list string) : bool * list string :=
  let missing := filter (fun field => negb (body field)) requiredFields in
  (match missing with [] => true | _ => false end, missing).

(** The request body of the route: [phone] and [recipientName] are
    strings, [amount] is documented as a string and may be any value,
    [confirmed] is read for its truth value; [None] is an absent field. *)
Record SendRequest : Set := mkSendRequest {
  req_phone : option string;
  req_recipientName : option string;
  req_amount : option JS.value;
  req_confirmed : bool
}.

Definition truthy_string (s : option string) : bool :=
  match s with
  | Some (String _ _) => true
  | _ => false
  end.

Definition send_body (req : SendRequest) (field : string) : bool :=
  if (field =? "phone")%string then truthy_string (req_phone req)
  else if (field =? "recipientName")%string then truthy_string (req_recipientName req)
  else if (field =? "amount")%string then
    match req_amount req with
    | Some a => negb (JS.falsy_value a)
    | None => false
    end
  else false.

(** What the route uses of the rows of its collaborators. *)
Record User : Set := mkUser { user_id : uuid; wallet_id : option string }.
Record Contact : Set := mkContact { contact_id : uuid; wallet_address : string }.
Record TxResult : Set := mkTxResult { tx_success : bool }.

(** The answers of the user directory, the contact directory, the wallet
    service and the transaction log to the calls of one request; [None]
    is a call that throws.  The transfer function of the wallet service,
    [sendUSDCWithConfirmation], gets the amount as the body has it; only
    its answer is used here. *)
Record Collaborators : Set := mkCollaborators {
  getUserByPhone : option (option User);
  getContactByName : option (option Contact);
  getBalance : option JS.value;
  sendUSDCWithConfirmation : option TxResult;
  logTransactionWithDetails : option unit;
  getBalance_after : option JS.value
}.

(** The answers of the route, with their status codes. *)
Inductive SendResponse : Set :=
| TransactionLimitExceeded                          (* 400, from the middleware *)
| MissingFields (missing : list string)             (* 400 *)
| InvalidAmount                                     (* 400 *)
| SenderNotFound                                    (* 404 *)
| NoWallet                                          (* 400 *)
| ContactNotFound                                   (* 404 *)
| InsufficientBalance                               (* 400 *)
| BudgetLimitExceeded (r : Reason) (s : option BudgetStatus)   (* 400, blocked *)
| ConfirmationNeeded (r : Reason) (s : option BudgetStatus)    (* 200, success: false *)
| TransactionFailed                                 (* 500 *)
| Sent (autoApproved : bool) (dailyRemaining weeklyRemaining : number)
       (lowBalanceWarning : option alert_message)   (* 200, success: true *)
| FailedToSend.                                     (* 500, from the catch *)

Definition http_status (r : SendResponse) : Z :=
  match r with
  | SenderNotFound | ContactNotFound => 404
  | ConfirmationNeeded _ _ | Sent _ _ _ _ => 200
  | TransactionFailed | FailedToSend => 500
  | _ => 400
  end.

(** The route after authentication and rate limiting: the amount limit
    of the middleware, then the handler.  The result is the response,
    whether the wallet service was asked to transfer, and the store. *)
Definition sendRoute (req : SendRequest) (ext : Collaborators) (env : Env) (db : Db)
    : SendResponse * bool * Db :=
  if negb (validateTransactionLimits (req_amount req))
  then (TransactionLimitExceeded, false, db)
  else
  let validation :=
    validateRequiredFields (send_body req) ["phone"; "recipientName"; "amount"]%string in
  if negb (fst validation) then (MissingFields (snd validation), false, db)
  else
  match req_amount req with
  | None => (InvalidAmount, false, db)
  | Some amount =>
  let amountNum := JS.parseFloat amount in
  if is_nan amountNum || JS.le amountNum zero then (InvalidAmount, false, db)
  else
  match getUserByPhone ext with
  | None => (FailedToSend, false, db)
  | Some None => (SenderNotFound, false, db)
  | Some (Some sender) =>
  if negb (truthy_string (wallet_id sender)) then (NoWallet, false, db)
  else
  match getContactByName ext with
  | None => (FailedToSend, false, db)
  | Some None => (ContactNotFound, false, db)
  | Some (Some contact) =>
  match getBalance ext with
  | None => (FailedToSend, false, db)
  | Some currentBalance =>
  if JS.lt (JS.parseFloat currentBalance) amountNum
  then (InsufficientBalance, false, db)
  else
  match checkAutoApproval (user_id sender) (contact_id contact) amount env db with
  | (Throw _, db1) => (FailedToSend, false, db1)
  | (Ok approvalCheck, db1) =>
  match budgetExceeded approvalCheck with
  | Some _ =>
      (BudgetLimitExceeded (reason approvalCheck) (budgetStatus approvalCheck), false, db1)
  | None =>
  if requiresConfirmation approvalCheck && negb (req_confirmed req)
  then (ConfirmationNeeded (reason approvalCheck) (budgetStatus approvalCheck), false, db1)
  else
  let wasAutoApproved := canAutoApprove approvalCheck in
  match sendUSDCWithConfirmation ext with
  | None => (FailedToSend, true, db1)
  | Some txResult =>
  if negb (tx_success txResult) then
    match logTransactionWithDetails ext with
    | None => (FailedToSend, true, db1)
    | Some _ => (TransactionFailed, true, db1)
    end
  else
  let db2 := snd (updateDailySpending (user_id sender) amountNum env db1) in
  match logTransactionWithDetails ext with
  | None => (FailedToSend, true, db2)
  | Some _ =>
  match getBalance_after ext with
  | None => (FailedToSend, true, db2)
  | Some newBalance =>
  match checkLowBalanceAlert (user_id sender) newBalance env db2 with
  | (Throw _, db3) => (FailedToSend, true, db3)
  | (Ok lowBalanceAlert, db3) =>
  match budgetStatus approvalCheck with
  | None => (FailedToSend, true, db3)
  | Some status =>
      (Sent wasAutoApproved
            (JS.sub (remainingToday status) amountNum)
            (JS.sub (remainingWeek status) amountNum)
            (option_map message lowBalanceAlert),
       true, db3)
  end end end end end end end end end end end.

(** A request of Alice to send to Bob, and collaborators that all answer:
    both are known, the wallet holds 45, the transfer succeeds and leaves
    the balance given. *)
Definition send_request (amount : JS.value) (confirmed : bool) : SendRequest :=
  mkSendRequest (Some "+2348104916815"%string) (Some "Bob"%string) (Some amount) confirmed.

Definition all_answer (newBalance : JS.value) : Collaborators :=
  mkCollaborators (Some (Some (mkUser alice (Some "wallet-1"%string))))
                  (Some (Some (mkContact bob "0xb0b"%string)))
                  (Some (JS.Str "45"))
                  (Some (mkTxResult true))
                  (Some tt)
                  (Some newBalance).

Definition env_policy_down : Env :=
  mkEnv wednesday_noon (fault_on UserPolicies Select) utc.

(** Case analysis on the next test of a route whose outcome is known. *)
Ltac route_step H :=
  match type of H with
  | context [if ?c then _ else _] => destruct c eqn:?; try discriminate H
  | context [match ?x with _ => _ end] => destruct x eqn:?; try discriminate H
  end.

(* ================================================================== *)
(** * Properties                                                       *)
(* ================================================================== *)

(** ** Comparisons of numbers *)

Lemma SFcompare_antisym (x y : spec_float) :
  SFcompare y x = option_map CompOpp (SFcompare x y).
Proof.
  destruct x as [sx|sx| |sx mx ex], y as [sy|sy| |sy my ey];
    try destruct sx; try destruct sy; try reflexivity; cbn [SFcompare option_map];
    f_equal; rewrite (Z.compare_antisym ex ey);
    destruct (ex ?= ey)%Z; cbn [CompOpp]; try reflexivity;
    change (Pos.compare_cont Eq my mx) with (Pos.compare my mx);
    change (Pos.compare_cont Eq mx my) with (Pos.compare mx my);
    rewrite (Pos.compare_antisym mx my); destruct (mx ?= my)%positive; reflexivity.
Qed.

(** [a > b] excludes [a <= b]. *)
Lemma gt_not_le (a b : number) : JS.gt a b = true -> JS.le a b = false.
Proof.
  unfold JS.gt, JS.le. rewrite ltb_spec, leb_spec. unfold SFltb, SFleb.
  rewrite (SFcompare_antisym (Prim2SF b) (Prim2SF a)).
  destruct (SFcompare (Prim2SF b) (Prim2SF a)) as [[ | | ]|]; cbn; congruence.
Qed.

(** ** Sample values *)

Example Math_round_values :
  map JS.Math_round
      [2.5; 3.5; (-2.5); (-0.5); 0.4; 0.5; 33.333; (-7.6); 90; 0.49999999999999994]%float
  = [3; 4; (-2); (-0); 0; 1; 33; (-8); 90; 0]%float.
Proof. vm_compute. reflexivity. Qed.

Example weekStart_values :
  map (fun d => weekStart (mkEnv (start_of_day d + 1)%Z no_fault utc))
      [20758; 20759; 20761; 20765; 20766]%Z
  = [20752; 20759; 20759; 20759; 20766]%Z.
Proof. vm_compute. reflexivity. Qed.

Example parseFloat_values :
  map JS.parseFloat
      [JS.Str "12.50"; JS.Str "0.1"; JS.Str " 7"; JS.Str "1,500"; JS.Str "1e3";
       JS.Str "5."; JS.Str ".5"; JS.Str "-3"; JS.Str "0x10"; JS.Str "1000.01abc";
       JS.Num (-0); JS.Num 2.5]
  = [12.5; 0.1; 7; 1; 1000; 5; 0.5; -3; 0; 1000.01; 0; 2.5]%float /\
  map (fun s => is_nan (JS.parseFloat (JS.Str s)))
      [""; "abc"; "."; "-"; "$5"; "e5"; "Infinity"]%string
  = [true; true; true; true; true; true; false].
Proof. split; vm_compute; reflexivity. Qed.

Example DECIMAL_10_2_values :
  map (fun x => DECIMAL_10_2 (Some x))
      [90; 0.30000000000000004; 0.001; 0.005; 1.005; 5.555; (-5); 99999999.99;
       99999999.995; 1e9]%float
  = [Data (Some 90); Data (Some 0.3); Data (Some 0); Data (Some 0.01);
     Data (Some 1.01); Data (Some 5.56); Data (Some (-5)); Data (Some 99999999.99);
     Error NumericValueOutOfRange; Error NumericValueOutOfRange]%float /\
  DECIMAL_10_2 (Some nan) = Data None /\
  DECIMAL_10_2 None = Data None.
Proof. repeat split; vm_compute; reflexivity. Qed.

(** ** The reads of the decision engine *)

Lemma isTrustedContact_reads userId contactId env db :
  exists tc, isTrustedContact userId contactId env db = (Ok tc, db).
Proof.
  unfold isTrustedContact; run_async.
  destruct (fault env TrustedContacts Select); cbn; eauto.
  case_rows; cbn; eauto.
Qed.

Lemma getTodaySpending_reads userId env db :
  exists x, getTodaySpending userId env db = (Ok x, db).
Proof.
  unfold getTodaySpending; run_async.
  destruct (fault env DailySpending Select); cbn; eauto.
  case_rows; cbn; eauto.
Qed.

Lemma getWeekSpending_reads userId env db :
  exists x, getWeekSpending userId env db = (Ok x, db).
Proof.
  unfold getWeekSpending; run_async.
  destruct (fault env DailySpending Select); cbn; eauto.
Qed.

Lemma getUserPolicy_fault userId env db :
  fault env UserPolicies Select = true ->
  getUserPolicy userId env db = (Throw StorageError, db).
Proof.
  intros H. unfold getUserPolicy, try_catch, bind, select. rewrite H. reflexivity.
Qed.

Lemma isTrustedContact_fault userId contactId env db :
  fault env TrustedContacts Select = true ->
  isTrustedContact userId contactId env db = (Ok None, db).
Proof.
  intros H. unfold isTrustedContact, try_catch, bind, select. rewrite H. reflexivity.
Qed.

Lemma getTodaySpending_fault userId env db :
  fault env DailySpending Select = true ->
  getTodaySpending userId env db = (Ok zero, db).
Proof.
  intros H. unfold getTodaySpending, try_catch, bind, ask, select. rewrite H. reflexivity.
Qed.

Lemma getWeekSpending_fault userId env db :
  fault env DailySpending Select = true ->
  getWeekSpending userId env db = (Ok zero, db).
Proof.
  intros H. unfold getWeekSpending, try_catch, bind, ask, select. rewrite H. reflexivity.
Qed.

(** When the policy cannot be read, the [catch] answers. *)
Lemma checkAutoApproval_policy_throws userId contactId amount env db e db1 :
  getUserPolicy userId env db = (Throw e, db1) ->
  checkAutoApproval userId contactId amount env db = (Ok failClosed, db1).
Proof.
  intros H. unfold checkAutoApproval, try_catch, bind. rewrite H. reflexivity.
Qed.

(** When the policy is read, the answer is the decision logic applied to
    what the three other reads give, none of which throws or writes. *)
Lemma checkAutoApproval_policy_read userId contactId amount env db policy db1 :
  getUserPolicy userId env db = (Ok policy, db1) ->
  exists tc today week,
    isTrustedContact userId contactId env db1 = (Ok tc, db1) /\
    getTodaySpending userId env db1 = (Ok today, db1) /\
    getWeekSpending userId env db1 = (Ok week, db1) /\
    checkAutoApproval userId contactId amount env db
    = (Ok (decisionLogic policy tc today week (JS.parseFloat amount) amount), db1).
Proof.
  intros H.
  destruct (isTrustedContact_reads userId contactId env db1) as [tc Htc].
  destruct (getTodaySpending_reads userId env db1) as [today Htoday].
  destruct (getWeekSpending_reads userId env db1) as [week Hweek].
  exists tc, today, week. repeat split; trivial.
  unfold checkAutoApproval, try_catch, bind.
  rewrite H, Htc, Htoday, Hweek. reflexivity.
Qed.

Lemma getUserPolicy_cases userId env db :
  (exists policy db1, getUserPolicy userId env db = (Ok policy, db1)) \/
  (exists e db1, getUserPolicy userId env db = (Throw e, db1)).
Proof.
  destruct (getUserPolicy userId env db) as [[p|e] db1]; eauto.
Qed.

Section ApprovalDecision.

Variables (env : Env) (db db1 db2 db3 db4 : Db).
Variables (userId contactId : uuid) (amount : JS.value).
Variables (policy : user_policy) (trustedContact : option trusted_contact).
Variables (today week : number).

Hypothesis read_policy : getUserPolicy userId env db = (Ok policy, db1).
Hypothesis read_trust :
  isTrustedContact userId contactId env db1 = (Ok trustedContact, db2).
Hypothesis read_today : getTodaySpending userId env db2 = (Ok today, db3).
Hypothesis read_week : getWeekSpending userId env db3 = (Ok week, db4).

Lemma checkAutoApproval_decides :
  checkAutoApproval userId contactId amount env db
  = (Ok (decisionLogic policy trustedContact today week
           (JS.parseFloat amount) amount), db4).
Proof.
  unfold checkAutoApproval, try_catch, bind.
  rewrite read_policy, read_trust, read_today, read_week. reflexivity.
Qed.

(** C1. Rule 1 dominates.  Whatever the trust entry and its override
    limit, when today's spending plus the amount is above the daily
    spending limit the transfer is blocked, the reason is the daily
    limit, and the result carries the figures of both budget windows. *)
Theorem daily_limit_blocks :
  JS.gt (JS.add today (JS.parseFloat amount)) (daily_spending_limit policy) = true ->
  exists r,
    checkAutoApproval userId contactId amount env db = (Ok r, db4) /\
    decision_of r = Blocked /\
    budgetExceeded r = Some daily /\
    reason r = ExceedsDaily (daily_spending_limit policy) today /\
    canAutoApprove r = false /\
    budgetStatus r
    = Some (mkBudgetStatus today week
              (daily_spending_limit policy) (weekly_spending_limit policy)
              (JS.sub (daily_spending_limit policy) today)
              (JS.sub (weekly_spending_limit policy) week)).
Proof.
  intros Hover. eexists. split; [apply checkAutoApproval_decides|].
  unfold decisionLogic. rewrite Hover. cbn. repeat split.
Qed.

(** The trust rules of the code.  When neither budget limit would be
    exceeded: without a trust entry the transfer requires confirmation,
    reason not-trusted; with one, the limit applied is
    [override || policy limit], that is the override unless it is null,
    zero or NaN, and the transfer is auto-approved when the amount is at
    most that limit and requires confirmation, reason
    exceeds-auto-approve-limit, when it is not. *)
Theorem trust_rules :
  JS.gt (JS.add today (JS.parseFloat amount)) (daily_spending_limit policy) = false ->
  JS.gt (JS.add week (JS.parseFloat amount)) (weekly_spending_limit policy) = false ->
  exists r,
    checkAutoApproval userId contactId amount env db = (Ok r, db4) /\
    match trustedContact with
    | None =>
        decision_of r = RequiresConfirmation /\ reason r = NotTrusted
    | Some tc =>
        let lim := effectiveLimit tc policy in
        lim = match tc_auto_approve_limit tc with
              | Some v => if JS.falsy v then auto_approve_limit policy else v
              | None => auto_approve_limit policy
              end /\
        (JS.le (JS.parseFloat amount) lim = true ->
         decision_of r = AutoApproved /\ reason r = WithinLimit amount lim) /\
        (JS.le (JS.parseFloat amount) lim = false ->
         decision_of r = RequiresConfirmation /\
         reason r = ExceedsAutoApprove amount lim) /\
        (JS.gt (JS.parseFloat amount) lim = true ->
         decision_of r = RequiresConfirmation /\
         reason r = ExceedsAutoApprove amount lim)
    end.
Proof.
  intros Hday Hweek. eexists. split; [apply checkAutoApproval_decides|].
  unfold decisionLogic. rewrite Hday, Hweek.
  destruct trustedContact as [tc|]; [|split; reflexivity].
  cbn zeta. split; [reflexivity|].
  split; [|split].
  - intros H. rewrite H. split; reflexivity.
  - intros H. rewrite H. split; reflexivity.
  - intros H. rewrite (gt_not_le _ _ H). split; reflexivity.
Qed.

End ApprovalDecision.

Lemma daily_limit_blocks_witness :
  JS.gt (JS.add 90%float (JS.parseFloat 15%float))
        (daily_spending_limit (default_policy alice)) = true /\
  exists r,
    checkAutoApproval alice bob 15%float env_ok db_scenarioB = (Ok r, db_scenarioB) /\
    decision_of r = Blocked /\
    budgetExceeded r = Some daily /\
    reason r = ExceedsDaily 100%float 90%float /\
    canAutoApprove r = false /\
    budgetStatus r
    = Some (mkBudgetStatus 90%float 90%float 100%float 500%float
              (JS.sub 100%float 90%float) (JS.sub 500%float 90%float)).
Proof.
  split; [vm_compute; reflexivity|].
  apply (@daily_limit_blocks env_ok db_scenarioB db_scenarioB db_scenarioB
           db_scenarioB db_scenarioB alice bob 15%float (default_policy alice)
           (Some (mkTrusted alice bob (Some 20%float))) 90%float 90%float);
    vm_compute; reflexivity.
Defined.

Lemma trust_rules_witness :
  exists r,
    checkAutoApproval alice bob 5%float env_ok db_scenarioC = (Ok r, db_scenarioC) /\
    decision_of r = AutoApproved /\ reason r = WithinLimit 5%float 5%float.
Proof.
  destruct (@trust_rules env_ok db_scenarioC db_scenarioC db_scenarioC
              db_scenarioC db_scenarioC alice bob 5%float (default_policy alice)
              (Some (mkTrusted alice bob None)) 0%float 0%float)
    as [r [Hr [_ [Hle _]]]]; try (vm_compute; reflexivity).
  exists r. split; [exact Hr|]. apply Hle. vm_compute; reflexivity.
Defined.

(** C5 (the code does not have the property). An override limit of 0 is
    stored as it is given and is present in the trust entry, but
    [override || policy limit] takes the policy's limit in its place:
    with an override of 0, the default policy limit of 5 and nothing
    spent, an amount of 3 is above the effective limit of the
    specification and is auto-approved, 'within your $5 limit'.  A
    policy limit of 0 without an override is applied: there the same
    amount requires confirmation. *)
Theorem zero_override_auto_approves :
  addTrustedContact alice bob (Some 0%float) env_ok
    (mkDb [default_policy alice] [] [] [] 0)
  = (Ok (mkTrusted alice bob (Some 0%float)), db_zero_override) /\
  (exists r,
     checkAutoApproval alice bob 3%float env_ok db_zero_override
     = (Ok r, db_zero_override) /\
     decision_of r = AutoApproved /\ reason r = WithinLimit 3%float 5%float) /\
  JS.gt 3%float (spec_effectiveLimit (mkTrusted alice bob (Some 0%float))
                   (default_policy alice)) = true /\
  ~ trust_rules_as_stated (default_policy alice)
      (Some (mkTrusted alice bob (Some 0%float))) 0%float 0%float 3%float /\
  (exists r,
     checkAutoApproval alice bob 3%float env_ok db_zero_policy_limit
     = (Ok r, db_zero_policy_limit) /\
     decision_of r = RequiresConfirmation /\
     reason r = ExceedsAutoApprove 3%float 0%float).
Proof.
  split; [vm_compute; reflexivity|]. split; [|split; [|split]].
  - eexists. split; [vm_compute; reflexivity|]. split; reflexivity.
  - vm_compute; reflexivity.
  - intros H. unfold trust_rules_as_stated in H.
    destruct H as [_ H]; try (vm_compute; reflexivity).
    destruct H as [H _]; [vm_compute; reflexivity|].
    vm_compute in H. discriminate H.
  - eexists. split; [vm_compute; reflexivity|]. split; reflexivity.
Qed.

(** ** Failing closed *)

Lemma decisionLogic_untrusted policy today week amountNum amount :
  let r := decisionLogic policy None today week amountNum amount in
  canAutoApprove r = false /\
  (decision_of r = Blocked \/
   (decision_of r = RequiresConfirmation /\ reason r = NotTrusted)).
Proof.
  unfold decisionLogic.
  destruct (JS.gt (JS.add today amountNum) (daily_spending_limit policy));
    [cbn; auto|].
  destruct (JS.gt (JS.add week amountNum) (weekly_spending_limit policy));
    cbn; auto.
Qed.

(** C2 (amended). A storage error on the policy read is answered with
    'Could not verify policies. Please confirm manually.' and requires
    confirmation.  A storage error on the trust read makes the
    counterparty count as not trusted: the answer is the decision for an
    untrusted counterparty on the policy and the spending that were read,
    blocked when a budget limit would be exceeded and otherwise requiring
    confirmation with reason not-trusted.  In neither case is the
    transfer auto-approved. *)
Theorem storage_failure_never_auto_approves env db userId contactId amount :
  fault env UserPolicies Select = true \/ fault env TrustedContacts Select = true ->
  exists r db',
    checkAutoApproval userId contactId amount env db = (Ok r, db') /\
    canAutoApprove r = false /\
    decision_of r <> AutoApproved /\
    (fault env UserPolicies Select = true ->
     r = failClosed /\ decision_of r = RequiresConfirmation /\
     reason r = CouldNotVerify) /\
    (forall e db1,
       getUserPolicy userId env db = (Throw e, db1) ->
       r = failClosed /\ decision_of r = RequiresConfirmation /\
       reason r = CouldNotVerify) /\
    (forall policy db1,
       getUserPolicy userId env db = (Ok policy, db1) ->
       fault env TrustedContacts Select = true /\
       exists today week,
         getTodaySpending userId env db1 = (Ok today, db1) /\
         getWeekSpending userId env db1 = (Ok week, db1) /\
         r = decisionLogic policy None today week (JS.parseFloat amount) amount /\
         if JS.gt (JS.add today (JS.parseFloat amount)) (daily_spending_limit policy)
            || JS.gt (JS.add week (JS.parseFloat amount)) (weekly_spending_limit policy)
         then decision_of r = Blocked
         else decision_of r = RequiresConfirmation /\ reason r = NotTrusted).
Proof.
  intros Hfault.
  destruct (getUserPolicy_cases userId env db) as [[policy [db1 Hp]]|[e [db1 Hp]]].
  - assert (Htrust : fault env TrustedContacts Select = true).
    { destruct Hfault as [Hpol|Htrust]; [|exact Htrust].
      rewrite (getUserPolicy_fault userId env db Hpol) in Hp. discriminate Hp. }
    destruct (checkAutoApproval_policy_read userId contactId amount env db policy db1 Hp)
      as [tc [today [week [Htc [Htoday [Hweek Hcheck]]]]]].
    rewrite (isTrustedContact_fault userId contactId env db1 Htrust) in Htc.
    injection Htc as <-.
    destruct (decisionLogic_untrusted policy today week (JS.parseFloat amount) amount)
      as [Hno Hdec].
    eexists. exists db1. split; [exact Hcheck|].
    split; [exact Hno|]. split; [|split; [|split]].
    + destruct Hdec as [Hd|[Hd _]]; rewrite Hd; discriminate.
    + intros Hpol. rewrite (getUserPolicy_fault userId env db Hpol) in Hp.
      discriminate Hp.
    + intros e d He. rewrite Hp in He. discriminate He.
    + intros policy' d Hp'. rewrite Hp in Hp'. injection Hp' as <- <-.
      split; [exact Htrust|]. exists today, week.
      split; [exact Htoday|]. split; [exact Hweek|]. split; [reflexivity|].
      unfold decisionLogic.
      destruct (JS.gt (JS.add today _) (daily_spending_limit policy));
        [reflexivity|].
      destruct (JS.gt (JS.add week _) (weekly_spending_limit policy));
        [reflexivity|].
      split; reflexivity.
  - exists failClosed, db1. split.
    + apply checkAutoApproval_policy_throws with (e := e). exact Hp.
    + split; [reflexivity|]. split; [discriminate|].
      split; [auto|]. split; [auto|].
      intros policy d Hp'. rewrite Hp in Hp'. discriminate Hp'.
Qed.

Lemma storage_failure_never_auto_approves_witness :
  exists r db',
    checkAutoApproval alice bob 5%float env_trust_down db_scenarioC = (Ok r, db') /\
    canAutoApprove r = false /\
    decision_of r = RequiresConfirmation /\ reason r = NotTrusted.
Proof.
  destruct (storage_failure_never_auto_approves env_trust_down db_scenarioC
              alice bob 5%float) as [r [db' [H1 [H2 [_ [_ [_ H3]]]]]]].
  - right. reflexivity.
  - destruct (H3 (default_policy alice) db_scenarioC)
      as [_ [today [week [Htoday [Hweek [_ Hdec]]]]]]; [reflexivity|].
    vm_compute in Htoday. injection Htoday as <-.
    vm_compute in Hweek. injection Hweek as <-.
    exists r, db'. split; [exact H1|]. split; [exact H2|]. exact Hdec.
Defined.

(** C2, counterexample. The trust registry cannot be read; the policy can.
    The answer is not 'Could not verify policies': it is 'This contact is
    not in your trusted list', and with 90 already spent and an amount of
    15 the transfer is blocked rather than put up for confirmation. *)
Lemma trust_read_failure_is_not_trusted :
  fault env_trust_down TrustedContacts Select = true /\
  (exists r,
     checkAutoApproval alice bob 3%float env_trust_down db_scenarioC
     = (Ok r, db_scenarioC) /\
     decision_of r = RequiresConfirmation /\ reason r = NotTrusted) /\
  (exists r,
     checkAutoApproval alice bob 15%float env_trust_down db_scenarioB
     = (Ok r, db_scenarioB) /\
     decision_of r = Blocked) /\
  ~ fails_closed_as_stated env_trust_down db_scenarioC alice bob 3%float.
Proof.
  split; [reflexivity|]. split; [|split].
  - eexists. split; [vm_compute; reflexivity|]. split; reflexivity.
  - eexists. split; [vm_compute; reflexivity|]. reflexivity.
  - intros H. destruct H as [r [db' [Hr [_ Hreason]]]]; [right; reflexivity|].
    vm_compute in Hr. injection Hr as <- _. discriminate Hreason.
Qed.

(** ** Ledger reads that fail *)

Lemma decisionLogic_reason policy tc today week amountNum amount :
  reason (decisionLogic policy tc today week amountNum amount) <> CouldNotVerify.
Proof.
  unfold decisionLogic.
  destruct (JS.gt (JS.add today amountNum) (daily_spending_limit policy));
    [cbn; discriminate|].
  destruct (JS.gt (JS.add week amountNum) (weekly_spending_limit policy));
    [cbn; discriminate|].
  destruct tc as [t|]; [|cbn; discriminate].
  cbn zeta. destruct (JS.le amountNum (effectiveLimit t policy)); cbn; discriminate.
Qed.

(** C10. When the spending ledger cannot be read, [getTodaySpending] and
    [getWeekSpending] each return 0 and do not throw; [checkAutoApproval]
    then applies its rules to a spending of 0, which is never the answer
    'Could not verify policies', and it auto-approves a transfer to a
    trusted counterparty whose amount is within the limits counted from
    0, whatever the ledger holds. *)
Theorem ledger_failure_counts_as_no_spending
    env db userId contactId amount policy db1 :
  fault env DailySpending Select = true ->
  getUserPolicy userId env db = (Ok policy, db1) ->
  (forall d, getTodaySpending userId env d = (Ok zero, d)) /\
  (forall d, getWeekSpending userId env d = (Ok zero, d)) /\
  exists tc,
    isTrustedContact userId contactId env db1 = (Ok tc, db1) /\
    let r := decisionLogic policy tc zero zero (JS.parseFloat amount) amount in
    checkAutoApproval userId contactId amount env db = (Ok r, db1) /\
    r <> failClosed /\
    reason r <> CouldNotVerify /\
    (forall t,
       tc = Some t ->
       JS.gt (JS.add zero (JS.parseFloat amount)) (daily_spending_limit policy) = false ->
       JS.gt (JS.add zero (JS.parseFloat amount)) (weekly_spending_limit policy) = false ->
       JS.le (JS.parseFloat amount) (effectiveLimit t policy) = true ->
       canAutoApprove r = true /\ decision_of r = AutoApproved).
Proof.
  intros Hfault Hp.
  split; [intros d; apply getTodaySpending_fault, Hfault|].
  split; [intros d; apply getWeekSpending_fault, Hfault|].
  destruct (isTrustedContact_reads userId contactId env db1) as [tc Htc].
  exists tc. split; [exact Htc|]. cbn zeta.
  split; [|split; [|split]].
  - apply (checkAutoApproval_decides env db db1 db1 db1 db1 userId contactId amount
             policy tc zero zero Hp Htc).
    + apply getTodaySpending_fault, Hfault.
    + apply getWeekSpending_fault, Hfault.
  - intros H.
    apply (decisionLogic_reason policy tc zero zero (JS.parseFloat amount) amount).
    rewrite H. reflexivity.
  - apply decisionLogic_reason.
  - intros t -> Hday Hweek Hle. unfold decisionLogic.
    rewrite Hday, Hweek. cbn zeta. rewrite Hle. split; reflexivity.
Qed.

Lemma ledger_failure_counts_as_no_spending_witness :
  fault env_ledger_down DailySpending Select = true /\
  map total_spent (spending_rows db_scenarioB alice wednesday) = [Some 90%float] /\
  exists r,
    checkAutoApproval alice bob 15%float env_ledger_down db_scenarioB
    = (Ok r, db_scenarioB) /\
    canAutoApprove r = true /\ decision_of r = AutoApproved.
Proof.
  split; [reflexivity|]. split; [reflexivity|].
  destruct (ledger_failure_counts_as_no_spending env_ledger_down db_scenarioB
              alice bob 15%float (default_policy alice) db_scenarioB)
    as [_ [_ [tc [Htc [Hcheck [_ [_ Hauto]]]]]]];
    try (vm_compute; reflexivity).
  vm_compute in Htc. injection Htc as <-.
  eexists. split; [exact Hcheck|].
  apply (Hauto (mkTrusted alice bob (Some 20%float)));
    try reflexivity; vm_compute; reflexivity.
Defined.

(** ** The ledger write *)

Lemma readExisting_reads userId env db :
  exists existing, readExisting userId env db = (Ok existing, db).
Proof.
  unfold readExisting; run_async.
  destruct (fault env DailySpending Select); cbn; eauto.
Qed.

Lemma writeSpending_returns userId amountNum existing env db :
  exists db', writeSpending userId amountNum existing env db = (Ok tt, db').
Proof.
  unfold writeSpending; run_async.
  destruct existing as [e|].
  - unfold update_daily_spending.
    destruct (fault env DailySpending Update); cbn; eauto.
    destruct (spending_columns _ _) as [[total count]|err]; cbn; eauto.
  - unfold insert_daily_spending.
    destruct (fault env DailySpending Insert); cbn; eauto.
    destruct (spending_columns _ _) as [[total count]|err]; cbn; eauto.
    destruct (existsb _ (daily_spending db)); cbn; eauto.
Qed.

(** A call that runs its two steps without another call in between is the
    function itself. *)
Lemma call_steps_are_updateDailySpending env userId amount db :
  let '(c1, db1) := call_step env userId amount AtRead db in
  let '(c2, db2) := call_step env userId amount c1 db1 in
  c2 = Finished /\ updateDailySpending userId amount env db = (Ok tt, db2).
Proof.
  unfold call_step, updateDailySpending, try_catch, bind.
  destruct (readExisting_reads userId env db) as [existing ->].
  destruct (writeSpending_returns userId (JS.parseFloat amount) existing env db)
    as [db2 ->].
  cbn. split; reflexivity.
Qed.

(** C3 (the code does not have the property). Two calls of 1.00 for the
    same user and day, the second reading before the first has written:
    both finish, and the ledger holds a total of 1 and a count of 1, on an
    empty ledger (the second insert is refused by the UNIQUE constraint)
    as well as on a ledger that holds 90 in 3 transactions (both write 91
    and 4).  Run one after the other the same two calls give 2 and 2. *)
Theorem overlapping_calls_lose_an_update :
  let totals db :=
    map (fun r => (total_spent r, transaction_count r))
        (spending_rows db alice wednesday) in
  let overlapped := [0; 1; 0; 1] in
  let in_turn := [0; 0; 1; 1] in
  (let '(calls, db') :=
     run_schedule env_ok alice 1%float overlapped [AtRead; AtRead] empty_db in
   calls = [Finished; Finished] /\ totals db' = [(Some 1%float, 1%Z)]) /\
  (let '(calls, db') :=
     run_schedule env_ok alice 1%float overlapped [AtRead; AtRead] db_scenarioB in
   calls = [Finished; Finished] /\ totals db' = [(Some 91%float, 4%Z)]) /\
  (let '(calls, db') :=
     run_schedule env_ok alice 1%float in_turn [AtRead; AtRead] empty_db in
   calls = [Finished; Finished] /\ totals db' = [(Some 2%float, 2%Z)]).
Proof.
  cbn zeta. repeat split; vm_compute; reflexivity.
Qed.

(** When no row passes a filter, no row satisfies it. *)
Lemma filter_nil_existsb {A} (p : A -> bool) (l : list A) :
  filter p l = [] -> existsb p l = false.
Proof.
  induction l as [|x l IH]; cbn; [reflexivity|].
  destruct (p x); cbn; [discriminate|exact IH].
Qed.

Lemma filter_cons_existsb {A} (p : A -> bool) (l : list A) x rest :
  filter p l = x :: rest -> existsb p l = true.
Proof.
  intros H. apply existsb_exists. exists x.
  assert (Hin : In x (filter p l)) by (rewrite H; left; reflexivity).
  apply filter_In in Hin. exact Hin.
Qed.

(** C4 (amended). [updateDailySpending] does not validate the amount and
    has no invalid-amount failure: with the storage working it returns
    normally for every amount, negative and non-finite ones included,
    and records it as the columns store it, the total rounded to cents.
    Without a row for the day it inserts one holding the amount (null
    when the amount is not finite) and a count of 1; with a row it adds
    the amount to the total, which a negative amount lowers, and adds 1
    to the count.  A total or count that does not fit its column is
    refused by the database and the ledger stays as it was. *)
Theorem updateDailySpending_takes_any_amount userId amount env db :
  fault env DailySpending Select = false ->
  fault env DailySpending Insert = false ->
  fault env DailySpending Update = false ->
  let today := utc_date (now env) in
  exists db',
    updateDailySpending userId amount env db = (Ok tt, db') /\
    match spending_rows db userId today with
    | [] =>
        match DECIMAL_10_2 (JS.to_json (JS.parseFloat amount)) with
        | Data total =>
            daily_spending db'
            = daily_spending db ++ [mkSpending (next_id db) userId today total 1%Z]
        | Error _ => db' = db
        end
    | [e] =>
        match spending_columns
                (JS.to_json (JS.add (JS.parseFloat_nullable (total_spent e))
                                    (JS.parseFloat amount)))
                (transaction_count e + 1)%Z with
        | Data (total, count) =>
            daily_spending db'
            = map (fun r =>
                     if ds_id r =? ds_id e
                     then mkSpending (ds_id r) (ds_user_id r) (ds_date r) total count
                     else r)
                  (daily_spending db)
        | Error _ => db' = db
        end
    | _ => db' = db
    end.
Proof.
  intros Hsel Hins Hupd today.
  unfold updateDailySpending, readExisting, writeSpending; run_async.
  unfold insert_daily_spending, update_daily_spending, spending_rows.
  rewrite Hsel. fold today.
  destruct (filter _ (daily_spending db)) as [|e [|e' rest]] eqn:Hrows; cbn.
  - rewrite Hins. unfold spending_columns.
    destruct (DECIMAL_10_2 (JS.to_json (JS.parseFloat amount))) as [total|err]; cbn;
      [|eexists; split; reflexivity].
    rewrite (filter_nil_existsb _ _ Hrows). cbn. eexists. split; reflexivity.
  - rewrite Hupd.
    destruct (spending_columns _ (transaction_count e + 1)) as [[total count]|err];
      cbn; eexists; split; reflexivity.
  - rewrite Hins.
    destruct (spending_columns _ 1) as [[total count]|err]; cbn;
      [|eexists; split; reflexivity].
    rewrite (filter_cons_existsb _ _ _ _ Hrows). cbn. eexists. split; reflexivity.
Qed.

Lemma updateDailySpending_takes_any_amount_witness :
  exists db',
    updateDailySpending alice (-5)%float env_ok db_scenarioB = (Ok tt, db') /\
    daily_spending db' = [mkSpending 0 alice wednesday (Some 85%float) 4%Z].
Proof.
  destruct (updateDailySpending_takes_any_amount alice (-5)%float env_ok db_scenarioB)
    as [db' [Hrun Hrows]]; try reflexivity.
  exists db'. split; [exact Hrun|].
  exact Hrows.
Defined.

(** C4, counterexample. A negative amount and an amount that is not a
    number are accepted: the call returns normally, -5 lowers the day's
    total from 90 to 85, NaN leaves a null total, and each counts as a
    transaction. *)
Lemma negative_amount_is_recorded :
  JS.lt (-5)%float zero = true /\
  is_finite nan = false /\
  updateDailySpending alice (-5)%float env_ok db_scenarioB
  = (Ok tt,
     mkDb [default_policy alice] [mkTrusted alice bob (Some 20%float)]
          [mkSpending 0 alice wednesday (Some 85%float) 4%Z] [] 1) /\
  updateDailySpending alice nan env_ok db_scenarioB
  = (Ok tt,
     mkDb [default_policy alice] [mkTrusted alice bob (Some 20%float)]
          [mkSpending 0 alice wednesday None 4%Z] [] 1) /\
  ~ recordSpend_as_stated env_ok db_scenarioB alice (-5)%float /\
  ~ recordSpend_as_stated env_ok db_scenarioB alice nan.
Proof.
  repeat split; try (vm_compute; reflexivity).
  - intros H. destruct H as [e [db' H]]; [left; vm_compute; reflexivity|].
    vm_compute in H. discriminate H.
  - intros H. destruct H as [e [db' H]]; [right; vm_compute; reflexivity|].
    vm_compute in H. discriminate H.
Qed.

(** ** The trust registry *)

Lemma existsb_false_filter {A} (p : A -> bool) (l : list A) :
  existsb p l = false -> filter p l = [].
Proof.
  induction l as [|x l IH]; cbn; [reflexivity|].
  destruct (p x); cbn; [discriminate|exact IH].
Qed.

(** A successful add: the insert was not refused, and the entry returned
    and stored holds the override limit as its column stores it. *)
Lemma addTrustedContact_ok userId contactId limit env db t db1 :
  addTrustedContact userId contactId limit env db = (Ok t, db1) ->
  fault env TrustedContacts Insert = false /\
  existsb (fun t => (tc_user_id t =? userId) && (tc_contact_id t =? contactId))
          (trusted_contacts db) = false /\
  DECIMAL_10_2 limit = Data (tc_auto_approve_limit t) /\
  t = mkTrusted userId contactId (tc_auto_approve_limit t) /\
  db1 = set_trusted_contacts db (trusted_contacts db ++ [t]).
Proof.
  unfold addTrustedContact, insert_trusted_contact; run_async. cbn.
  destruct (fault env TrustedContacts Insert); [discriminate|].
  destruct (DECIMAL_10_2 limit) as [stored|err]; [|discriminate].
  destruct (existsb _ (trusted_contacts db)); [discriminate|].
  intros H. injection H as <- <-. auto.
Qed.

(** C6 (amended). Adding a counterparty that is already trusted is an
    error, not a replacement: after a first add that succeeded, a second
    add for the same pair throws, whatever its override limit, and
    changes nothing: the error is the unique-constraint violation, or
    the range error of the column when the new limit does not fit it.
    The registry holds exactly one entry for the pair, the one the first
    add returned, with the override limit of the first add as its column
    stores it. *)
Theorem second_add_is_refused env db userId contactId limit1 limit2 t1 db1 :
  addTrustedContact userId contactId limit1 env db = (Ok t1, db1) ->
  addTrustedContact userId contactId limit2 env db1
  = (Throw match DECIMAL_10_2 limit2 with
           | Data _ => UniqueViolation
           | Error e => e
           end, db1) /\
  filter (fun t => (tc_user_id t =? userId) && (tc_contact_id t =? contactId))
         (trusted_contacts db1)
  = [t1] /\
  t1 = mkTrusted userId contactId (tc_auto_approve_limit t1) /\
  DECIMAL_10_2 limit1 = Data (tc_auto_approve_limit t1).
Proof.
  intros Hadd.
  destruct (addTrustedContact_ok _ _ _ _ _ _ _ Hadd) as [Hfault [Hex [Hcol [Ht ->]]]].
  split; [|split; [|split; assumption]].
  - unfold addTrustedContact, insert_trusted_contact; run_async. cbn.
    rewrite Hfault.
    destruct (DECIMAL_10_2 limit2) as [stored|err]; [|reflexivity].
    rewrite existsb_app, Hex, Ht. cbn. rewrite !Nat.eqb_refl. reflexivity.
  - cbn. rewrite filter_app, (existsb_false_filter _ _ Hex), Ht. cbn.
    rewrite !Nat.eqb_refl. reflexivity.
Qed.

Lemma second_add_is_refused_witness :
  exists db1,
    addTrustedContact alice bob (Some 10%float) env_ok empty_db
    = (Ok (mkTrusted alice bob (Some 10%float)), db1) /\
    addTrustedContact alice bob (Some 10%float) env_ok db1
    = (Throw UniqueViolation, db1) /\
    trusted_contacts db1 = [mkTrusted alice bob (Some 10%float)].
Proof.
  eexists. split; [vm_compute; reflexivity|].
  split; [|reflexivity].
  apply (second_add_is_refused env_ok empty_db alice bob
           (Some 10%float) (Some 10%float) (mkTrusted alice bob (Some 10%float))).
  vm_compute. reflexivity.
Defined.

(** C6, counterexample. Bob is trusted with an override of 10; adding him
    again with an override of 20 throws and the override stays 10. *)
Lemma add_again_does_not_replace :
  let db1 := mkDb [] [mkTrusted alice bob (Some 10%float)] [] [] 0 in
  addTrustedContact alice bob (Some 10%float) env_ok empty_db
  = (Ok (mkTrusted alice bob (Some 10%float)), db1) /\
  addTrustedContact alice bob (Some 20%float) env_ok db1
  = (Throw UniqueViolation, db1) /\
  ~ add_as_stated env_ok empty_db alice bob (Some 10%float) (Some 20%float).
Proof.
  cbn zeta. split; [vm_compute; reflexivity|]. split; [vm_compute; reflexivity|].
  intros H.
  destruct (H (mkTrusted alice bob (Some 10%float))
              (mkDb [] [mkTrusted alice bob (Some 10%float)] [] [] 0))
    as [t2 [db2 [Hadd _]]]; [vm_compute; reflexivity|].
  vm_compute in Hadd. discriminate Hadd.
Qed.

(** ** The spending summary *)

(** C9 (the code does not have the property). With the daily and weekly
    limits configured as 0 the summary divides by zero: with 5 spent both
    [percentUsed] are Infinity, with nothing spent both are NaN, neither
    0 nor a flag; the share of a recipient, computed next to it, is 0 when
    its divisor is 0.  With a positive limit [percentUsed] is the rounded
    percentage. *)
Theorem percentUsed_divides_by_zero :
  (exists s,
     getSpendingSummary alice 7%Z env_ok db_zero_limits = (Ok s, db_zero_limits) /\
     percentUsed (budget_daily s) = infinity /\
     percentUsed (budget_weekly s) = infinity) /\
  (exists s,
     getSpendingSummary alice 7%Z env_ok db_zero_limits_unspent
     = (Ok s, db_zero_limits_unspent) /\
     is_nan (percentUsed (budget_daily s)) = true /\
     is_nan (percentUsed (budget_weekly s)) = true) /\
  percentage 5%float 0%float = 0%float /\
  (forall lim spent,
     percentUsed (budgetUse lim spent)
     = JS.Math_round (JS.mul (JS.div spent lim) 100%float)) /\
  (exists s,
     getSpendingSummary alice 7%Z env_ok db_scenarioB = (Ok s, db_scenarioB) /\
     percentUsed (budget_daily s) = 90%float /\
     percentUsed (budget_weekly s) = 18%float).
Proof.
  split; [|split; [|split; [|split]]].
  - eexists. split; [vm_compute; reflexivity|]. split; vm_compute; reflexivity.
  - eexists. split; [vm_compute; reflexivity|]. split; vm_compute; reflexivity.
  - vm_compute. reflexivity.
  - reflexivity.
  - eexists. split; [vm_compute; reflexivity|]. split; vm_compute; reflexivity.
Qed.

(** ** The week's spending *)

Lemma utc_date_add_days (t : timestamp) (k : Z) :
  utc_date (t + k * MS_PER_DAY)%Z = (utc_date t + k)%Z.
Proof. unfold utc_date, MS_PER_DAY. apply Z.div_add. discriminate. Qed.

(** On a server in UTC the date the code computes is the Monday on or
    before today. *)
Lemma weekStart_is_the_monday env monday :
  (forall t b, LocalTZA env t b = 0%Z) ->
  getDay monday = 1%Z ->
  (monday <= utc_date (now env) < monday + 7)%Z ->
  weekStart env = monday.
Proof.
  intros Hutc. unfold weekStart, LocalTime, UTC. rewrite !Hutc, Z.add_0_r, Z.sub_0_r.
  rewrite utc_date_add_days. unfold getDay.
  set (d := utc_date (now env)). intros Hm Hd.
  destruct ((d + 4) mod 7 =? 0)%Z eqn:E;
    [apply Z.eqb_eq in E | apply Z.eqb_neq in E];
    Z.div_mod_to_equations; lia.
Qed.

(** What [updateDailySpending] does to the table: nothing, or one row
    more for the user and day when there was none, or a new total and
    count in the rows that carry the id of the row it read. *)
Lemma updateDailySpending_writes env db userId amount :
  let l := daily_spending db in
  let l' := daily_spending (snd (updateDailySpending userId amount env db)) in
  l' = l \/
  (existsb (fun r => (ds_user_id r =? userId) && (ds_date r =? utc_date (now env))%Z) l
   = false /\
   exists total,
     l' = l ++ [mkSpending (next_id db) userId (utc_date (now env)) total 1%Z]) \/
  (exists e total count,
     In e l /\ ds_user_id e = userId /\ ds_date e = utc_date (now env) /\
     l' = map (fun r => if ds_id r =? ds_id e
                        then mkSpending (ds_id r) (ds_user_id r) (ds_date r) total count
                        else r) l).
Proof.
  cbn zeta.
  assert (Hinsert : forall total,
    let l' := daily_spending
                (snd (insert_daily_spending userId (utc_date (now env)) total 1%Z env db)) in
    l' = daily_spending db \/
    (existsb (fun r => (ds_user_id r =? userId) && (ds_date r =? utc_date (now env))%Z)
             (daily_spending db) = false /\
     exists total',
       l' = daily_spending db
            ++ [mkSpending (next_id db) userId (utc_date (now env)) total' 1%Z])).
  { intros total. cbn zeta. unfold insert_daily_spending, spending_columns.
    destruct (fault env DailySpending Insert); cbn; [auto|].
    destruct (DECIMAL_10_2 total) as [total'|err]; cbn; [|auto].
    destruct (existsb _ (daily_spending db)) eqn:Hex; cbn; [auto|].
    right. split; [reflexivity|]. eexists. reflexivity. }
  unfold updateDailySpending, readExisting, writeSpending; run_async.
  destruct (fault env DailySpending Select); cbn.
  - specialize (Hinsert (JS.to_json (JS.parseFloat amount))). cbn zeta in Hinsert.
    destruct (insert_daily_spending _ _ _ _ env db) as [[x|x] d]; cbn in *; tauto.
  - case_rows; cbn.
    + specialize (Hinsert (JS.to_json (JS.parseFloat amount))). cbn zeta in Hinsert.
      destruct (insert_daily_spending _ _ _ _ env db) as [[x|x] d]; cbn in *; tauto.
    + unfold update_daily_spending.
      destruct (fault env DailySpending Update); cbn; [auto|].
      destruct (spending_columns _ _) as [[total count]|err]; cbn; [|auto].
      right. right.
      assert (Hin : In r (filter (fun d => (ds_user_id d =? userId)
                                           && (ds_date d =? utc_date (now env))%Z)
                            (daily_spending db)))
        by (rewrite Erows; left; reflexivity).
      apply filter_In in Hin. destruct Hin as [Hin Hp].
      apply andb_true_iff in Hp. destruct Hp as [Hu Hd].
      apply Nat.eqb_eq in Hu. apply Z.eqb_eq in Hd.
      exists r. eexists. eexists. repeat split; eassumption.
    + specialize (Hinsert (JS.to_json (JS.parseFloat amount))). cbn zeta in Hinsert.
      destruct (insert_daily_spending _ _ _ _ env db) as [[x|x] d]; cbn in *; tauto.
Qed.

(** Rows are only written with the date of the day, so none is dated
    after today. *)
Lemma updateDailySpending_no_future_rows userId amount env db db' :
  (forall r, In r (daily_spending db) -> (ds_date r <= utc_date (now env))%Z) ->
  updateDailySpending userId amount env db = (Ok tt, db') ->
  forall r, In r (daily_spending db') -> (ds_date r <= utc_date (now env))%Z.
Proof.
  intros Hdb Hrun.
  pose proof (updateDailySpending_writes env db userId amount) as Hw.
  cbn zeta in Hw. rewrite Hrun in Hw. cbn [snd] in Hw.
  destruct Hw as [->|[[_ [total ->]]|[e [total [count [_ [_ [_ ->]]]]]]]].
  - exact Hdb.
  - intros r Hr. apply in_app_or in Hr.
    destruct Hr as [Hr|[<-|[]]]; [apply Hdb, Hr|cbn; lia].
  - intros r Hr. apply in_map_iff in Hr. destruct Hr as [x [<- Hx]].
    destruct (ds_id x =? ds_id e); cbn; apply Hdb, Hx.
Qed.

(** On a server in UTC, with the ledger readable and no row of the user
    dated after today (rows are written with the date of the day),
    [getWeekSpending] returns the sum of [total_spent] over the rows of
    the user dated from the Monday that starts the current week up to
    today, and 0 when there is no such row. *)
Theorem getWeekSpending_sums_the_week env db userId monday :
  (forall t b, LocalTZA env t b = 0%Z) ->
  fault env DailySpending Select = false ->
  (forall r, In r (daily_spending db) -> ds_user_id r = userId ->
             (ds_date r <= utc_date (now env))%Z) ->
  getDay monday = 1%Z ->
  (monday <= utc_date (now env) < monday + 7)%Z ->
  let in_week r :=
    (ds_user_id r =? userId)
    && ((monday <=? ds_date r)%Z && (ds_date r <=? utc_date (now env))%Z) in
  getWeekSpending userId env db
  = (Ok (sum_total_spent (filter in_week (daily_spending db))), db) /\
  (filter in_week (daily_spending db) = [] ->
   getWeekSpending userId env db = (Ok zero, db)).
Proof.
  intros Hutc Hsel Hdates Hmon Hweek in_week.
  assert (Hrun : getWeekSpending userId env db
                 = (Ok (sum_total_spent (filter in_week (daily_spending db))), db)).
  { unfold getWeekSpending; run_async. rewrite Hsel.
    rewrite (weekStart_is_the_monday env monday Hutc Hmon Hweek).
    do 3 f_equal. apply filter_ext_in. intros r Hr. unfold in_week.
    destruct (ds_user_id r =? userId) eqn:Huser; [|reflexivity].
    apply Nat.eqb_eq in Huser.
    assert (Hle : (ds_date r <=? utc_date (now env))%Z = true)
      by (apply Z.leb_le, Hdates; assumption).
    rewrite Hle, andb_true_r. reflexivity. }
  split; [exact Hrun|].
  intros Hnone. rewrite Hrun, Hnone. reflexivity.
Qed.

Lemma getWeekSpending_sums_the_week_witness :
  getWeekSpending alice env_ok db_two_weeks = (Ok 12.5%float, db_two_weeks).
Proof.
  destruct (getWeekSpending_sums_the_week env_ok db_two_weeks alice 20759%Z)
    as [Hsum _].
  - reflexivity.
  - reflexivity.
  - intros r [<-|[<-|[<-|[<-|[]]]]] _; vm_compute; discriminate.
  - reflexivity.
  - vm_compute. split; [discriminate|reflexivity].
  - rewrite Hsum. vm_compute. reflexivity.
Defined.

(** C8 (the code does not have the property). The week is counted from
    a date computed in local time and printed in UTC.  On a server one
    hour east of UTC, on Sunday 2026-11-08 at 23:30 UTC (Monday 00:30
    local time), the date computed is that Sunday, not Monday
    2026-11-02: of 40 spent on Tuesday and 10 spent this Sunday the
    week's spending is 10, where the sum over the week is 50, which is
    also what the same call returns on a server in UTC. *)
Theorem week_is_counted_from_a_local_date :
  utc_date (now env_east) = 20765%Z /\
  monday_of 20765%Z = 20759%Z /\
  weekStart env_east = 20765%Z /\
  getWeekSpending alice env_east db_one_week = (Ok 10%float, db_one_week) /\
  weekSpend_as_stated db_one_week alice (utc_date (now env_east)) = 50%float /\
  getWeekSpending alice (mkEnv sunday_night no_fault utc) db_one_week
  = (Ok 50%float, db_one_week).
Proof. repeat split; vm_compute; reflexivity. Qed.

(** ** The low-balance alert *)

(** With the policy table working, the user's policy is read, or created
    from the defaults; afterwards it is the one row of the user. *)
Lemma getUserPolicy_policy_of userId env db policy :
  fault env UserPolicies Select = false ->
  fault env UserPolicies Insert = false ->
  policy_of db userId policy ->
  exists db',
    getUserPolicy userId env db = (Ok policy, db') /\
    filter (fun p => up_user_id p =? userId) (user_policies db') = [policy] /\
    alerts db' = alerts db /\ next_id db' = next_id db.
Proof.
  intros Hsel Hins [Hone|[Hnone ->]];
    unfold getUserPolicy, insert_user_policy; run_async; rewrite Hsel.
  - rewrite Hone. cbn. exists db. auto.
  - rewrite Hnone. cbn. rewrite Hins, (filter_nil_existsb _ _ Hnone). cbn.
    eexists. split; [reflexivity|]. cbn.
    rewrite filter_app, Hnone. cbn. rewrite Nat.eqb_refl. auto.
Qed.

Lemma start_of_day_le t : (start_of_day (utc_date t) <= t)%Z.
Proof.
  unfold start_of_day, utc_date, MS_PER_DAY.
  Z.div_mod_to_equations. lia.
Qed.

Section LowBalance.

Variables (userId : uuid) (day : date) (policy : user_policy).
Variable tz : timestamp -> bool -> Z.

Lemma first_check_creates t balance db :
  policy_of db userId policy ->
  filter (low_balance_since userId day) (alerts db) = [] ->
  low_call day policy (t, balance) ->
  exists a db',
    checkLowBalanceAlert userId balance (mkEnv t no_fault tz) db = (Ok (Some a), db') /\
    alerts db' = alerts db ++ [a] /\
    filter (low_balance_since userId day) (alerts db') = [a] /\
    filter (fun p => up_user_id p =? userId) (user_policies db') = [policy].
Proof.
  intros Hpol Hnone [Hday Hlow]. cbn [fst snd] in Hday, Hlow.
  destruct (getUserPolicy_policy_of userId (mkEnv t no_fault tz) db policy
              eq_refl eq_refl Hpol) as [db1 [Hget [Hone [Halerts Hid]]]].
  unfold checkLowBalanceAlert, try_catch, bind. rewrite Hget, Hlow.
  unfold createAlert, insert_alert; run_async. cbn [now fault no_fault].
  rewrite Hday, Halerts, Hnone. cbn.
  eexists. eexists. split; [reflexivity|]. cbn.
  split; [rewrite Halerts; reflexivity|]. split; [|exact Hone].
  rewrite filter_app, Halerts, Hnone. cbn. unfold low_balance_since at 1. cbn.
  rewrite Nat.eqb_refl. cbn.
  assert (Hle : (start_of_day day <=? t)%Z = true)
    by (apply Z.leb_le; rewrite <- Hday; apply start_of_day_le).
  rewrite Hle. reflexivity.
Qed.

Lemma later_check_creates_none t balance db a :
  filter (fun p => up_user_id p =? userId) (user_policies db) = [policy] ->
  filter (low_balance_since userId day) (alerts db) = [a] ->
  low_call day policy (t, balance) ->
  checkLowBalanceAlert userId balance (mkEnv t no_fault tz) db = (Ok None, db).
Proof.
  intros Hone Hsent [Hday Hlow]. cbn [fst snd] in Hday, Hlow.
  assert (Hget : getUserPolicy userId (mkEnv t no_fault tz) db = (Ok policy, db))
    by (unfold getUserPolicy; run_async; cbn [fault no_fault];
        rewrite Hone; reflexivity).
  unfold checkLowBalanceAlert, try_catch, bind. rewrite Hget, Hlow.
  run_async. cbn [now fault no_fault]. rewrite Hday, Hsent. reflexivity.
Qed.

Lemma later_checks_create_none calls :
  forall db a,
    filter (fun p => up_user_id p =? userId) (user_policies db) = [policy] ->
    filter (low_balance_since userId day) (alerts db) = [a] ->
    Forall (low_call day policy) calls ->
    checkLowBalance_calls no_fault tz userId calls db
    = (repeat (Ok None) (List.length calls), db).
Proof.
  induction calls as [|[t balance] rest IH]; intros db a Hone Hsent Hcalls;
    [reflexivity|].
  inversion Hcalls as [|c l Hc Hrest]; subst.
  cbn [checkLowBalance_calls].
  rewrite (later_check_creates_none t balance db a Hone Hsent Hc).
  rewrite (IH db a Hone Hsent Hrest). reflexivity.
Qed.

(** Repeated checks on one day with the storage working, the balance at
    or below the threshold each time, starting without a low-balance
    alert of that day: the first call creates an alert and returns it,
    every later call returns none, and at the end the alerts table has
    one row more, which is the only low-balance alert of the user for
    the day. *)
Theorem low_balance_alert_once_a_day first rest db :
  policy_of db userId policy ->
  filter (low_balance_since userId day) (alerts db) = [] ->
  Forall (low_call day policy) (first :: rest) ->
  exists a db',
    checkLowBalance_calls no_fault tz userId (first :: rest) db
    = (Ok (Some a) :: repeat (Ok None) (List.length rest), db') /\
    alerts db' = alerts db ++ [a] /\
    filter (low_balance_since userId day) (alerts db') = [a].
Proof.
  intros Hpol Hnone Hcalls.
  inversion Hcalls as [|c l Hfirst Hrest]; subst.
  destruct first as [t balance].
  destruct (first_check_creates t balance db Hpol Hnone Hfirst)
    as [a [db1 [Hrun [Halerts [Hsent Hone]]]]].
  exists a, db1. cbn [checkLowBalance_calls]. rewrite Hrun.
  rewrite (later_checks_create_none rest db1 a Hone Hsent Hrest).
  auto.
Qed.

End LowBalance.

Lemma low_balance_alert_once_a_day_witness :
  exists a db',
    checkLowBalance_calls no_fault utc alice five_checks empty_db
    = ([Ok (Some a); Ok None; Ok None; Ok None; Ok None], db') /\
    alerts db' = [a].
Proof.
  destruct (low_balance_alert_once_a_day alice wednesday (default_policy alice) utc
              (wednesday_noon, JS.Num 8) (tl five_checks) empty_db)
    as [a [db' [Hrun [Halerts _]]]].
  - right. split; reflexivity.
  - reflexivity.
  - repeat constructor; vm_compute; reflexivity.
  - exists a, db'. split; [exact Hrun|exact Halerts].
Defined.

(** A call that runs its two steps without another call in between is the
    function itself. *)
Lemma check_steps_are_checkLowBalanceAlert env userId balance db :
  let '(c1, db1) := check_step env userId balance AtQuery db in
  let '(c2, db2) := check_step env userId balance c1 db1 in
  exists r,
    c2 = Answered r /\ checkLowBalanceAlert userId balance env db = (Ok r, db2).
Proof.
  unfold check_step, checkLowBalanceAlert, try_catch, bind, ask, ret.
  destruct (getUserPolicy userId env db) as [[policy|e] db1]; [|eauto].
  destruct (JS.le _ _); [|eauto].
  destruct (select Alerts alerts _ env db1) as [[r|e] db2]; [|eauto].
  destruct (data (single r)); [eauto|].
  destruct (createAlert _ _ _ _ env db2) as [[a|e] db3]; eauto.
Qed.

(** C7 (the code does not have the property). The check for an alert of
    the day does not look at the error of its query and takes the answer
    of [.single()], which is null when the query fails and when it finds
    two rows.  With the alerts unreadable, five checks on one day create
    five low-balance alerts.  With the storage working, two checks that
    overlap both find no alert and both create one, and from two alerts
    on every later check of the day creates another. *)
Theorem low_balance_alerts_are_repeated :
  let sent db := filter (low_balance_since alice wednesday) (alerts db) in
  (let '(answers, db') :=
     checkLowBalance_calls (fault_on Alerts Select) utc alice five_checks empty_db in
   map (fun r => match r with Ok (Some _) => true | _ => false end) answers
   = [true; true; true; true; true] /\
   List.length (sent db') = 5 /\
   ~ one_alert_a_day_as_stated db' alice wednesday) /\
  (let '(checks, db') :=
     run_checks env_ok alice (JS.Num 8) [0; 1; 0; 1] [AtQuery; AtQuery] empty_db in
   map (fun c => match c with Answered (Some _) => true | _ => false end) checks
   = [true; true] /\
   List.length (sent db') = 2 /\
   let '(answers, db'') :=
     checkLowBalance_calls no_fault utc alice (tl five_checks) db' in
   map (fun r => match r with Ok (Some _) => true | _ => false end) answers
   = [true; true; true; true] /\
   List.length (sent db'') = 6 /\
   ~ one_alert_a_day_as_stated db'' alice wednesday).
Proof.
  cbn zeta. split.
  - vm_compute. repeat split. intros H. lia.
  - vm_compute. repeat split. intros H. lia.
Qed.

(** ** The scenarios of the specification *)

(** A: not trusted, amount 3 under the default limit of 5: confirmation.
    B: trusted with override 20, 90 spent of 100, amount 15: blocked.
    C: trusted, no override, amount 5: auto-approved.
    D: as C with amount 5.01: confirmation, above the auto-approve limit. *)
Example specification_scenarios :
  option_map decision_of
    (match fst (checkAutoApproval alice bob 3%float env_ok empty_db) with
     | Ok r => Some r | Throw _ => None end) = Some RequiresConfirmation /\
  option_map decision_of
    (match fst (checkAutoApproval alice bob 15%float env_ok db_scenarioB) with
     | Ok r => Some r | Throw _ => None end) = Some Blocked /\
  option_map decision_of
    (match fst (checkAutoApproval alice bob 5%float env_ok db_scenarioC) with
     | Ok r => Some r | Throw _ => None end) = Some AutoApproved /\
  option_map reason
    (match fst (checkAutoApproval alice bob 5.01%float env_ok db_scenarioC) with
     | Ok r => Some r | Throw _ => None end)
  = Some (ExceedsAutoApprove 5.01%float 5%float).
Proof. repeat split; vm_compute; reflexivity. Qed.

(* ================================================================== *)
(** * Further properties of the service                                *)
(* ================================================================== *)

(** ** Trust registry: add, look up, remove, list *)

Lemma removeTrustedContact_ok userId contactId env db b db1 :
  removeTrustedContact userId contactId env db = (Ok b, db1) ->
  b = true /\
  db1 = set_trusted_contacts db
          (filter (fun t => negb ((tc_user_id t =? userId) && (tc_contact_id t =? contactId)))
                  (trusted_contacts db)).
Proof.
  unfold removeTrustedContact, delete_trusted_contact; run_async.
  destruct (fault env TrustedContacts Delete); [discriminate|].
  intros H. injection H as <- <-. auto.
Qed.

Lemma isTrustedContact_one userId contactId env db t :
  fault env TrustedContacts Select = false ->
  filter (fun t => (tc_user_id t =? userId) && (tc_contact_id t =? contactId))
         (trusted_contacts db) = [t] ->
  isTrustedContact userId contactId env db = (Ok (Some t), db).
Proof.
  intros Hsel Hone. unfold isTrustedContact; run_async.
  rewrite Hsel, Hone. reflexivity.
Qed.

Lemma isTrustedContact_none userId contactId env db :
  filter (fun t => (tc_user_id t =? userId) && (tc_contact_id t =? contactId))
         (trusted_contacts db) = [] ->
  isTrustedContact userId contactId env db = (Ok None, db).
Proof.
  intros Hnone. unfold isTrustedContact; run_async.
  destruct (fault env TrustedContacts Select); [reflexivity|].
  rewrite Hnone. reflexivity.
Qed.

(** What is read of the trust registry depends on its table only. *)
Lemma isTrustedContact_table userId contactId env db db' :
  trusted_contacts db = trusted_contacts db' ->
  fst (isTrustedContact userId contactId env db)
  = fst (isTrustedContact userId contactId env db').
Proof.
  intros Heq. unfold isTrustedContact; run_async. rewrite Heq.
  destruct (fault env TrustedContacts Select); [reflexivity|].
  case_rows; reflexivity.
Qed.

(** What is read for a pair depends on the rows of that pair only. *)
Lemma isTrustedContact_rows userId contactId env db db' :
  filter (fun t => (tc_user_id t =? userId) && (tc_contact_id t =? contactId))
         (trusted_contacts db)
  = filter (fun t => (tc_user_id t =? userId) && (tc_contact_id t =? contactId))
           (trusted_contacts db') ->
  fst (isTrustedContact userId contactId env db)
  = fst (isTrustedContact userId contactId env db').
Proof.
  intros Heq. unfold isTrustedContact; run_async. rewrite Heq.
  destruct (fault env TrustedContacts Select); [reflexivity|].
  case_rows; reflexivity.
Qed.

Lemma filter_filter_neg {A} (p : A -> bool) (l : list A) :
  filter p (filter (fun x => negb (p x)) l) = [].
Proof.
  induction l as [|x l IH]; cbn; [reflexivity|].
  destruct (p x) eqn:Hp; cbn; [exact IH|]. rewrite Hp. exact IH.
Qed.

Lemma filter_idempotent {A} (p : A -> bool) (l : list A) :
  filter p (filter p l) = filter p l.
Proof.
  induction l as [|x l IH]; cbn; [reflexivity|].
  destruct (p x) eqn:Hp; cbn; [rewrite Hp, IH; reflexivity|exact IH].
Qed.

Lemma filter_filter_other {A} (p q : A -> bool) (l : list A) :
  (forall x, In x l -> q x = true -> p x = true) ->
  filter q (filter p l) = filter q l.
Proof.
  induction l as [|x l IH]; intros H; cbn; [reflexivity|].
  assert (IH' : filter q (filter p l) = filter q l)
    by (apply IH; intros y Hy; apply H; right; exact Hy).
  destruct (p x) eqn:Hp; cbn.
  - rewrite IH'. reflexivity.
  - destruct (q x) eqn:Hq; [|exact IH'].
    rewrite (H x (or_introl eq_refl) Hq) in Hp. discriminate.
Qed.

(** What [getUserPolicy] may write: the default row of the user, nothing
    else. *)
Lemma getUserPolicy_frame userId env db x db' :
  getUserPolicy userId env db = (x, db') ->
  trusted_contacts db' = trusted_contacts db /\
  daily_spending db' = daily_spending db /\
  alerts db' = alerts db /\
  next_id db' = next_id db /\
  (user_policies db' = user_policies db \/
   user_policies db' = user_policies db ++ [default_policy userId]).
Proof.
  unfold getUserPolicy, insert_user_policy; run_async.
  destruct (fault env UserPolicies Select); cbn;
    [intros H; injection H as <- <-; auto 10|].
  case_rows; cbn.
  - destruct (fault env UserPolicies Insert); cbn;
      [intros H; injection H as <- <-; auto 10|].
    destruct (existsb _ (user_policies db)); cbn;
      intros H; injection H as <- <-; cbn; auto 10.
  - intros H; injection H as <- <-; auto 10.
  - destruct (fault env UserPolicies Insert); cbn;
      [intros H; injection H as <- <-; auto 10|].
    destruct (existsb _ (user_policies db)); cbn;
      intros H; injection H as <- <-; cbn; auto 10.
Qed.

Lemma isTrustedContact_after_add env env' db userId contactId limit t db1 :
  addTrustedContact userId contactId limit env db = (Ok t, db1) ->
  fault env' TrustedContacts Select = false ->
  isTrustedContact userId contactId env' db1 = (Ok (Some t), db1).
Proof.
  intros Hadd Hsel.
  destruct (addTrustedContact_ok _ _ _ _ _ _ _ Hadd) as [_ [Hex [_ [Ht ->]]]].
  apply isTrustedContact_one; [exact Hsel|]. cbn.
  rewrite filter_app, (existsb_false_filter _ _ Hex), Ht. cbn.
  rewrite !Nat.eqb_refl. reflexivity.
Qed.

(** X1. An entry that was added is found: after a successful add,
    [isTrustedContact] returns the entry the add returned, whenever the
    registry can be read, and the list of the user's trusted contacts
    has it.  The entry holds the override limit as its DECIMAL(10,2)
    column stores it: rounded to cents, and null for a limit that is null
    or not finite. *)
Theorem added_contact_is_trusted env env' db userId contactId limit t db1 :
  addTrustedContact userId contactId limit env db = (Ok t, db1) ->
  fault env' TrustedContacts Select = false ->
  isTrustedContact userId contactId env' db1 = (Ok (Some t), db1) /\
  t = mkTrusted userId contactId (tc_auto_approve_limit t) /\
  DECIMAL_10_2 limit = Data (tc_auto_approve_limit t) /\
  exists l,
    getTrustedContacts userId env' db1 = (Ok l, db1) /\ In t l.
Proof.
  intros Hadd Hsel.
  split; [exact (isTrustedContact_after_add _ _ _ _ _ _ _ _ Hadd Hsel)|].
  destruct (addTrustedContact_ok _ _ _ _ _ _ _ Hadd) as [_ [_ [Hcol [Ht ->]]]].
  split; [exact Ht|]. split; [exact Hcol|].
  unfold getTrustedContacts; run_async. rewrite Hsel. cbn.
  eexists. split; [reflexivity|].
  apply filter_In. split; [apply in_or_app; right; left; reflexivity|].
  rewrite Ht. cbn. apply Nat.eqb_refl.
Qed.

Lemma added_contact_is_trusted_witness :
  exists db1,
    addTrustedContact alice bob (Some 5.555%float) env_ok empty_db
    = (Ok (mkTrusted alice bob (Some 5.56%float)), db1) /\
    isTrustedContact alice bob env_ok db1
    = (Ok (Some (mkTrusted alice bob (Some 5.56%float))), db1).
Proof.
  eexists. split; [vm_compute; reflexivity|].
  apply (added_contact_is_trusted env_ok env_ok empty_db alice bob (Some 5.555%float)
           (mkTrusted alice bob (Some 5.56%float)));
    vm_compute; reflexivity.
Defined.

(** X2. A removed counterparty is not trusted any more: after a
    successful removal [isTrustedContact] returns null, and no amount is
    auto-approved for that counterparty, whatever the policy, the ledger
    and the state of the storage. *)
Theorem removed_contact_is_never_auto_approved
    env env' db userId contactId b db1 amount :
  removeTrustedContact userId contactId env db = (Ok b, db1) ->
  isTrustedContact userId contactId env' db1 = (Ok None, db1) /\
  exists r db2,
    checkAutoApproval userId contactId amount env' db1 = (Ok r, db2) /\
    canAutoApprove r = false /\
    decision_of r <> AutoApproved.
Proof.
  intros Hrm. destruct (removeTrustedContact_ok _ _ _ _ _ _ Hrm) as [-> ->].
  set (db1 := set_trusted_contacts db _).
  assert (Hnone : forall d, trusted_contacts d = trusted_contacts db1 ->
                            isTrustedContact userId contactId env' d = (Ok None, d)).
  { intros d Hd. apply isTrustedContact_none. rewrite Hd. unfold db1. cbn.
    apply (filter_filter_neg
             (fun t => (tc_user_id t =? userId) && (tc_contact_id t =? contactId))). }
  split; [apply Hnone; reflexivity|].
  destruct (getUserPolicy_cases userId env' db1) as [[policy [db2 Hp]]|[e [db2 Hp]]].
  - destruct (checkAutoApproval_policy_read userId contactId amount env' db1 policy db2 Hp)
      as [tc [today [week [Htc [_ [_ Hcheck]]]]]].
    destruct (getUserPolicy_frame _ _ _ _ _ Hp) as [Htable _].
    rewrite (Hnone db2 Htable) in Htc. injection Htc as <-.
    destruct (decisionLogic_untrusted policy today week (JS.parseFloat amount) amount)
      as [Hno Hdec].
    eexists. exists db2. split; [exact Hcheck|]. split; [exact Hno|].
    destruct Hdec as [Hd|[Hd _]]; rewrite Hd; discriminate.
  - exists failClosed, db2. split.
    + apply checkAutoApproval_policy_throws with (e := e). exact Hp.
    + split; [reflexivity|discriminate].
Qed.

Lemma removed_contact_is_never_auto_approved_witness :
  (exists r, checkAutoApproval alice bob 5%float env_ok db_scenarioC
             = (Ok r, db_scenarioC) /\ canAutoApprove r = true) /\
  exists db1,
    removeTrustedContact alice bob env_ok db_scenarioC = (Ok true, db1) /\
    exists r db2,
      checkAutoApproval alice bob 5%float env_ok db1 = (Ok r, db2) /\
      canAutoApprove r = false.
Proof.
  split; [eexists; split; vm_compute; reflexivity|].
  eexists. split; [vm_compute; reflexivity|].
  destruct (removed_contact_is_never_auto_approved env_ok env_ok db_scenarioC
              alice bob true
              (mkDb [default_policy alice] [] [] [] 0) 5%float)
    as [_ [r [db2 [Hr [Hno _]]]]]; [vm_compute; reflexivity|].
  exists r, db2. split; assumption.
Defined.

Lemma same_pair_key (t t' : trusted_contact) :
  (tc_user_id t' =? tc_user_id t) && (tc_contact_id t' =? tc_contact_id t) = true <->
  (tc_user_id t', tc_contact_id t') = (tc_user_id t, tc_contact_id t).
Proof.
  rewrite andb_true_iff, !Nat.eqb_eq. split.
  - intros [-> ->]. reflexivity.
  - intros H. injection H as -> ->. auto.
Qed.

(** Under the UNIQUE constraint the rows of a pair are that one row. *)
Lemma unique_pair_filter (l : list trusted_contact) (t : trusted_contact) :
  NoDup (map (fun t => (tc_user_id t, tc_contact_id t)) l) ->
  In t l ->
  filter (fun t' => (tc_user_id t' =? tc_user_id t)
                    && (tc_contact_id t' =? tc_contact_id t)) l = [t].
Proof.
  induction l as [|x l IH]; intros Hnd Hin; [destruct Hin|].
  cbn in Hnd. inversion Hnd as [|k ks Hfresh Hrest]; subst.
  cbn [filter].
  destruct ((tc_user_id x =? tc_user_id t) && (tc_contact_id x =? tc_contact_id t))
    eqn:Hx.
  - apply same_pair_key in Hx.
    destruct Hin as [->|Hin].
    + f_equal. apply existsb_false_filter.
      destruct (existsb _ l) eqn:Hex; [|reflexivity].
      apply existsb_exists in Hex. destruct Hex as [y [Hy Hyk]].
      apply same_pair_key in Hyk. exfalso. apply Hfresh.
      rewrite <- Hyk. apply (in_map (fun t => (tc_user_id t, tc_contact_id t))), Hy.
    + exfalso. apply Hfresh. rewrite Hx.
      apply (in_map (fun t => (tc_user_id t, tc_contact_id t))), Hin.
  - destruct Hin as [->|Hin].
    + rewrite !Nat.eqb_refl in Hx. discriminate.
    + apply IH; assumption.
Qed.

Lemma NoDup_map_filter {K R} (key : R -> K) (keep : R -> bool) (rows : list R)
    (Hrows : NoDup (map key rows)) :
  NoDup (map key (filter keep rows)).
Proof.
  revert Hrows. induction rows as [|row rows IH]; cbn; intros Hnd; [constructor|].
  inversion Hnd as [|k ks Hfresh Hrest]; subst.
  destruct (keep row); cbn; [|apply IH, Hrest].
  constructor; [|apply IH, Hrest].
  intros Hin. apply Hfresh. apply in_map_iff in Hin.
  destruct Hin as [y [Hy Hin]]. apply filter_In in Hin.
  rewrite <- Hy. apply in_map, Hin.
Qed.

Lemma NoDup_snoc {A} (l : list A) (a : A) :
  NoDup l -> ~ In a l -> NoDup (l ++ [a]).
Proof.
  induction l as [|x l IH]; intros Hnd Hnot; cbn.
  - constructor; [intros []|constructor].
  - inversion Hnd as [|y ys Hfresh Hrest]; subst. constructor.
    + intros Hin. apply in_app_or in Hin. destruct Hin as [Hin|[->|[]]].
      * apply Hfresh, Hin.
      * apply Hnot. left. reflexivity.
    + apply IH; [exact Hrest|]. intros Hin. apply Hnot. right. exact Hin.
Qed.

Lemma filter_none_keeps_all {A} (p : A -> bool) (l : list A) :
  filter p l = [] -> filter (fun x => negb (p x)) l = l.
Proof.
  induction l as [|x l IH]; cbn; [reflexivity|].
  destruct (p x); cbn; [discriminate|]. intros H. rewrite (IH H). reflexivity.
Qed.

(** X3. Removal is an idempotent delete: with the registry writable it
    answers [true] whether or not the pair is trusted, leaves the table as
    it is when the pair is not trusted, and a second removal changes
    nothing more. *)
Theorem removal_is_idempotent env db userId contactId :
  fault env TrustedContacts Delete = false ->
  exists db1,
    removeTrustedContact userId contactId env db = (Ok true, db1) /\
    removeTrustedContact userId contactId env db1 = (Ok true, db1) /\
    (filter (fun t => (tc_user_id t =? userId) && (tc_contact_id t =? contactId))
            (trusted_contacts db) = [] ->
     trusted_contacts db1 = trusted_contacts db).
Proof.
  intros Hdel. unfold removeTrustedContact, delete_trusted_contact; run_async.
  rewrite Hdel. eexists. split; [reflexivity|]. cbn.
  rewrite filter_idempotent. split; [reflexivity|].
  apply (filter_none_keeps_all
           (fun t => (tc_user_id t =? userId) && (tc_contact_id t =? contactId))).
Qed.

Lemma removal_is_idempotent_witness :
  exists db1,
    removeTrustedContact alice bob env_ok empty_db = (Ok true, db1) /\
    removeTrustedContact alice bob env_ok db1 = (Ok true, db1) /\
    trusted_contacts db1 = [].
Proof.
  destruct (removal_is_idempotent env_ok empty_db alice bob) as [db1 [H1 [H2 H3]]];
    [reflexivity|].
  exists db1. split; [exact H1|]. split; [exact H2|]. apply H3. reflexivity.
Defined.

(** X4. Removal touches one pair only: for every other pair of user and
    counterparty, [isTrustedContact] answers after the removal what it
    answered before. *)
Theorem removal_keeps_other_entries
    env env' db userId contactId b db1 userId' contactId' :
  removeTrustedContact userId contactId env db = (Ok b, db1) ->
  (userId', contactId') <> (userId, contactId) ->
  fst (isTrustedContact userId' contactId' env' db1)
  = fst (isTrustedContact userId' contactId' env' db).
Proof.
  intros Hrm Hother. destruct (removeTrustedContact_ok _ _ _ _ _ _ Hrm) as [-> ->].
  apply isTrustedContact_rows. cbn.
  apply filter_filter_other.
  intros t _ Ht. apply andb_true_iff in Ht. destruct Ht as [Hu Hc].
  apply Nat.eqb_eq in Hu, Hc.
  destruct ((tc_user_id t =? userId) && (tc_contact_id t =? contactId)) eqn:Hp;
    [|reflexivity].
  apply andb_true_iff in Hp. destruct Hp as [Hu' Hc'].
  apply Nat.eqb_eq in Hu', Hc'. exfalso. apply Hother. congruence.
Qed.

Lemma removal_keeps_other_entries_witness :
  let db := mkDb [] [mkTrusted alice bob None; mkTrusted alice 3 (Some 7%float)] [] [] 0 in
  exists db1,
    removeTrustedContact alice bob env_ok db = (Ok true, db1) /\
    fst (isTrustedContact alice 3 env_ok db1)
    = Ok (Some (mkTrusted alice 3 (Some 7%float))).
Proof.
  cbn zeta. eexists. split; [vm_compute; reflexivity|].
  rewrite (removal_keeps_other_entries env_ok env_ok
             (mkDb [] [mkTrusted alice bob None; mkTrusted alice 3 (Some 7%float)] [] [] 0)
             alice bob true _ alice 3).
  - vm_compute. reflexivity.
  - vm_compute. reflexivity.
  - discriminate.
Defined.

(** X5. An override limit is changed by removing and adding again: after
    a successful removal, with the registry writable and readable, an
    add for the same pair succeeds when the new limit fits its column,
    and the counterparty is then trusted with the new limit as the
    column stores it; when the limit does not fit, the add throws the
    range error and changes nothing. *)
Theorem remove_then_add_replaces
    env env' db userId contactId b db1 limit :
  removeTrustedContact userId contactId env db = (Ok b, db1) ->
  fault env' TrustedContacts Insert = false ->
  fault env' TrustedContacts Select = false ->
  match DECIMAL_10_2 limit with
  | Data stored =>
      exists db2,
        addTrustedContact userId contactId limit env' db1
        = (Ok (mkTrusted userId contactId stored), db2) /\
        isTrustedContact userId contactId env' db2
        = (Ok (Some (mkTrusted userId contactId stored)), db2)
  | Error e =>
      addTrustedContact userId contactId limit env' db1 = (Throw e, db1)
  end.
Proof.
  intros Hrm Hins Hsel. destruct (removeTrustedContact_ok _ _ _ _ _ _ Hrm) as [-> ->].
  destruct (DECIMAL_10_2 limit) as [stored|e] eqn:Hcol.
  - assert (Hadd : exists db2,
               addTrustedContact userId contactId limit env'
                 (set_trusted_contacts db
                    (filter (fun t => negb ((tc_user_id t =? userId)
                                            && (tc_contact_id t =? contactId)))
                            (trusted_contacts db)))
               = (Ok (mkTrusted userId contactId stored), db2)).
    { unfold addTrustedContact, insert_trusted_contact; run_async. cbn.
      rewrite Hins, Hcol.
      rewrite (filter_nil_existsb _ _
                 (filter_filter_neg
                    (fun t => (tc_user_id t =? userId) && (tc_contact_id t =? contactId))
                    (trusted_contacts db))).
      cbn. eexists. reflexivity. }
    destruct Hadd as [db2 Hadd]. exists db2. split; [exact Hadd|].
    apply (isTrustedContact_after_add env' env' _ userId contactId limit _ db2 Hadd Hsel).
  - unfold addTrustedContact, insert_trusted_contact; run_async. cbn.
    rewrite Hins, Hcol. reflexivity.
Qed.

Lemma remove_then_add_replaces_witness :
  exists db1 db2,
    removeTrustedContact alice bob env_ok db_scenarioB = (Ok true, db1) /\
    addTrustedContact alice bob (Some 50%float) env_ok db1
    = (Ok (mkTrusted alice bob (Some 50%float)), db2) /\
    isTrustedContact alice bob env_ok db2
    = (Ok (Some (mkTrusted alice bob (Some 50%float))), db2).
Proof.
  exists (mkDb [default_policy alice] []
               [mkSpending 0 alice wednesday (Some 90%float) 3%Z] [] 1).
  pose proof (remove_then_add_replaces env_ok env_ok db_scenarioB alice bob true
                (mkDb [default_policy alice] []
                      [mkSpending 0 alice wednesday (Some 90%float) 3%Z] [] 1)
                (Some 50%float)) as H.
  destruct H as [db2 [Hadd Htrust]];
    [vm_compute; reflexivity|reflexivity|reflexivity|].
  exists db2. split; [vm_compute; reflexivity|]. split; [exact Hadd|exact Htrust].
Defined.

(** X6. The registry never holds two entries for a pair: a table without
    duplicates stays without duplicates through any add and any removal,
    whether it succeeds or fails. *)
Theorem trust_registry_stays_unique env db userId contactId limit :
  trust_unique db ->
  trust_unique (snd (addTrustedContact userId contactId limit env db)) /\
  trust_unique (snd (removeTrustedContact userId contactId env db)).
Proof.
  unfold trust_unique. intros Hnd. split.
  - unfold addTrustedContact, insert_trusted_contact; run_async. cbn.
    destruct (fault env TrustedContacts Insert); [exact Hnd|].
    destruct (DECIMAL_10_2 limit) as [stored|err]; [|exact Hnd].
    destruct (existsb _ (trusted_contacts db)) eqn:Hex; [exact Hnd|].
    cbn. rewrite map_app. cbn. apply NoDup_snoc; [exact Hnd|].
    intros Hin. apply in_map_iff in Hin. destruct Hin as [t [Hk Ht]].
    injection Hk as Hu Hc.
    assert (Hsome : existsb (fun t => (tc_user_id t =? userId)
                                      && (tc_contact_id t =? contactId))
                      (trusted_contacts db) = true).
    { apply existsb_exists. exists t. split; [exact Ht|].
      rewrite Hu, Hc, !Nat.eqb_refl. reflexivity. }
    rewrite Hsome in Hex. discriminate.
  - unfold removeTrustedContact, delete_trusted_contact; run_async.
    destruct (fault env TrustedContacts Delete); [exact Hnd|].
    cbn. apply NoDup_map_filter, Hnd.
Qed.

Lemma trust_registry_stays_unique_witness :
  trust_unique (snd (addTrustedContact alice bob None env_ok db_scenarioB)) /\
  trust_unique (snd (removeTrustedContact alice bob env_ok db_scenarioB)).
Proof.
  apply trust_registry_stays_unique.
  unfold trust_unique. cbn. constructor; [intros []|constructor].
Defined.

(** X7. The list and the lookup agree: with the registry readable and no
    duplicate pairs, an entry is in the list of a user's trusted contacts
    exactly when [isTrustedContact] returns it for that user and the
    entry's counterparty. *)
Theorem trusted_list_agrees_with_lookup env db userId t :
  fault env TrustedContacts Select = false ->
  trust_unique db ->
  exists l,
    getTrustedContacts userId env db = (Ok l, db) /\
    (In t l <->
     isTrustedContact userId (tc_contact_id t) env db = (Ok (Some t), db)).
Proof.
  intros Hsel Hnd. unfold getTrustedContacts; run_async. rewrite Hsel. cbn.
  eexists. split; [reflexivity|]. split.
  - intros Hin. apply filter_In in Hin. destruct Hin as [Hin Hu].
    apply Nat.eqb_eq in Hu. subst userId.
    apply isTrustedContact_one; [exact Hsel|].
    apply unique_pair_filter; assumption.
  - intros Hlook. unfold isTrustedContact in Hlook; revert Hlook; run_async.
    rewrite Hsel. case_rows; cbn; try discriminate.
    intros H. injection H as ->.
    assert (Hin : In t (filter (fun t0 => (tc_user_id t0 =? userId)
                                          && (tc_contact_id t0 =? tc_contact_id t))
                           (trusted_contacts db)))
      by (rewrite Erows; left; reflexivity).
    apply filter_In in Hin. destruct Hin as [Hin Hp].
    apply andb_true_iff in Hp. destruct Hp as [Hu _].
    apply filter_In. split; assumption.
Qed.

Lemma trusted_list_agrees_with_lookup_witness :
  exists l,
    getTrustedContacts alice env_ok db_scenarioB = (Ok l, db_scenarioB) /\
    (In (mkTrusted alice bob (Some 20%float)) l <->
     isTrustedContact alice bob env_ok db_scenarioB
     = (Ok (Some (mkTrusted alice bob (Some 20%float))), db_scenarioB)).
Proof.
  apply (trusted_list_agrees_with_lookup env_ok db_scenarioB alice
           (mkTrusted alice bob (Some 20%float))).
  - reflexivity.
  - unfold trust_unique. cbn. constructor; [intros []|constructor].
Defined.

(** ** The policy row and what the decision engine writes *)

Lemma getUserPolicy_ok userId env db policy db1 :
  getUserPolicy userId env db = (Ok policy, db1) ->
  filter (fun p => up_user_id p =? userId) (user_policies db1) = [policy].
Proof.
  unfold getUserPolicy, insert_user_policy; run_async.
  destruct (fault env UserPolicies Select); cbn; [discriminate|].
  case_rows; cbn.
  - destruct (fault env UserPolicies Insert); cbn; [discriminate|].
    rewrite (filter_nil_existsb _ _ Erows). cbn.
    intros H. injection H as <- <-. cbn.
    rewrite filter_app, Erows. cbn. rewrite Nat.eqb_refl. reflexivity.
  - intros H. injection H as <- <-. exact Erows.
  - destruct (fault env UserPolicies Insert); cbn; [discriminate|].
    destruct (existsb _ (user_policies db)) eqn:Hex; cbn; [discriminate|].
    rewrite (existsb_false_filter _ _ Hex) in Erows. discriminate.
Qed.

(** X8. The policy is created once: after [getUserPolicy] has returned a
    policy the user has exactly one policy row, holding that policy; a
    later call returns the same policy without writing; and the rows of
    other users are as before. *)
Theorem getUserPolicy_creates_once env env' db userId policy db1 :
  getUserPolicy userId env db = (Ok policy, db1) ->
  fault env' UserPolicies Select = false ->
  filter (fun p => up_user_id p =? userId) (user_policies db1) = [policy] /\
  getUserPolicy userId env' db1 = (Ok policy, db1) /\
  forall userId',
    userId' <> userId ->
    filter (fun p => up_user_id p =? userId') (user_policies db1)
    = filter (fun p => up_user_id p =? userId') (user_policies db).
Proof.
  intros Hget Hsel.
  assert (Hone := getUserPolicy_ok _ _ _ _ _ Hget).
  split; [exact Hone|]. split.
  - unfold getUserPolicy; run_async. rewrite Hsel, Hone. reflexivity.
  - intros userId' Hother.
    destruct (getUserPolicy_frame _ _ _ _ _ Hget) as [_ [_ [_ [_ [->| ->]]]]];
      [reflexivity|].
    rewrite filter_app. cbn.
    destruct (userId =? userId') eqn:Heq;
      [apply Nat.eqb_eq in Heq; congruence|].
    apply app_nil_r.
Qed.

Lemma getUserPolicy_creates_once_witness :
  exists db1,
    getUserPolicy alice env_ok empty_db = (Ok (default_policy alice), db1) /\
    user_policies db1 = [default_policy alice] /\
    getUserPolicy alice env_ok db1 = (Ok (default_policy alice), db1).
Proof.
  exists (mkDb [default_policy alice] [] [] [] 0).
  destruct (getUserPolicy_creates_once env_ok env_ok empty_db alice
              (default_policy alice) (mkDb [default_policy alice] [] [] [] 0))
    as [_ [Hagain _]]; try (vm_compute; reflexivity).
  split; [vm_compute; reflexivity|]. split; [reflexivity|exact Hagain].
Defined.

Lemma checkAutoApproval_frame
    env db userId contactId amount :
  let db' := snd (checkAutoApproval userId contactId amount env db) in
  trusted_contacts db' = trusted_contacts db /\
  daily_spending db' = daily_spending db /\
  alerts db' = alerts db /\
  next_id db' = next_id db /\
  (user_policies db' = user_policies db \/
   user_policies db' = user_policies db ++ [default_policy userId]).
Proof.
  cbn zeta.
  destruct (getUserPolicy_cases userId env db) as [[policy [db1 Hp]]|[e [db1 Hp]]].
  - destruct (checkAutoApproval_policy_read userId contactId amount env db policy db1 Hp)
      as [tc [today [week [_ [_ [_ ->]]]]]].
    cbn [snd]. exact (getUserPolicy_frame _ _ _ _ _ Hp).
  - rewrite (checkAutoApproval_policy_throws userId contactId amount env db e db1 Hp).
    cbn [snd]. exact (getUserPolicy_frame _ _ _ _ _ Hp).
Qed.

(** X9. The decision engine records nothing: whatever it answers,
    [checkAutoApproval] leaves the trust registry, the spending ledger and
    the alerts as they were, and writes to the policy table at most the
    default row of the user. *)
Theorem checkAutoApproval_only_creates_the_policy
    env db userId contactId amount :
  let db' := snd (checkAutoApproval userId contactId amount env db) in
  trusted_contacts db' = trusted_contacts db /\
  daily_spending db' = daily_spending db /\
  alerts db' = alerts db /\
  next_id db' = next_id db /\
  (user_policies db' = user_policies db \/
   user_policies db' = user_policies db ++ [default_policy userId]).
Proof. apply checkAutoApproval_frame. Qed.

(** X10. What an auto-approval implies: [checkAutoApproval] answers
    [canAutoApprove] only when the policy was read, the counterparty has a
    trust entry, the amount is at most the effective limit of that entry,
    and neither today's nor the week's spending plus the amount is above
    its limit; the answer then asks for no confirmation and reports no
    exceeded budget. *)
Theorem auto_approval_implies env db userId contactId amount r db' :
  checkAutoApproval userId contactId amount env db = (Ok r, db') ->
  canAutoApprove r = true ->
  exists policy tc today week,
    getUserPolicy userId env db = (Ok policy, db') /\
    isTrustedContact userId contactId env db' = (Ok (Some tc), db') /\
    getTodaySpending userId env db' = (Ok today, db') /\
    getWeekSpending userId env db' = (Ok week, db') /\
    JS.gt (JS.add today (JS.parseFloat amount)) (daily_spending_limit policy) = false /\
    JS.gt (JS.add week (JS.parseFloat amount)) (weekly_spending_limit policy) = false /\
    JS.le (JS.parseFloat amount) (effectiveLimit tc policy) = true /\
    requiresConfirmation r = false /\
    budgetExceeded r = None.
Proof.
  intros Hcheck Hauto.
  destruct (getUserPolicy_cases userId env db) as [[policy [db1 Hp]]|[e [db1 Hp]]].
  - destruct (checkAutoApproval_policy_read userId contactId amount env db policy db1 Hp)
      as [tc [today [week [Htc [Htoday [Hweek Hrun]]]]]].
    rewrite Hrun in Hcheck. injection Hcheck as <- <-.
    revert Hauto. unfold decisionLogic.
    destruct (JS.gt (JS.add today (JS.parseFloat amount)) (daily_spending_limit policy))
      eqn:Hd; [cbn; discriminate|].
    destruct (JS.gt (JS.add week (JS.parseFloat amount)) (weekly_spending_limit policy))
      eqn:Hw; [cbn; discriminate|].
    destruct tc as [t|]; [|cbn; discriminate].
    cbn zeta.
    destruct (JS.le (JS.parseFloat amount) (effectiveLimit t policy)) eqn:Hle;
      [|cbn; discriminate].
    intros _. exists policy, t, today, week. cbn. auto 10.
  - rewrite (checkAutoApproval_policy_throws userId contactId amount env db e db1 Hp)
      in Hcheck.
    injection Hcheck as <- <-. discriminate Hauto.
Qed.

Lemma auto_approval_implies_witness :
  exists policy tc,
    getUserPolicy alice env_ok db_scenarioC = (Ok policy, db_scenarioC) /\
    isTrustedContact alice bob env_ok db_scenarioC = (Ok (Some tc), db_scenarioC) /\
    JS.le (JS.parseFloat 5%float) (effectiveLimit tc policy) = true.
Proof.
  destruct (auto_approval_implies env_ok db_scenarioC alice bob 5%float
              (mkApproval true false (WithinLimit 5%float 5%float)
                 (Some (mkBudgetStatus 0%float 0%float 100%float 500%float
                          100%float 500%float)) None)
              db_scenarioC)
    as [policy [tc [today [week [Hp [Htc [_ [_ [_ [_ [Hle _]]]]]]]]]]];
    try (vm_compute; reflexivity).
  exists policy, tc. auto.
Defined.

(** ** Numbers that are not numbers, and zero *)

Lemma SFcompare_refl (x : spec_float) :
  x <> S754_nan -> SFcompare x x = Some Eq.
Proof.
  destruct x as [s|s| |s m e]; intros Hx; cbn; try reflexivity.
  - destruct s; reflexivity.
  - congruence.
  - rewrite Z.compare_refl.
    change (Pos.compare_cont Eq m m) with (Pos.compare m m).
    rewrite Pos.compare_refl. destruct s; reflexivity.
Qed.

Lemma is_nan_Prim2SF (x : number) : is_nan x = true -> Prim2SF x = S754_nan.
Proof.
  unfold is_nan. rewrite eqb_spec. unfold SFeqb. intros H.
  destruct (Prim2SF x) as [s|s| |s m e] eqn:Hx; try reflexivity;
    rewrite SFcompare_refl in H by discriminate; discriminate H.
Qed.

Lemma Prim2SF_is_nan (x : number) : Prim2SF x = S754_nan -> is_nan x = true.
Proof.
  intros H. unfold is_nan. rewrite eqb_spec, H. reflexivity.
Qed.

Lemma is_zero_Prim2SF (x : number) :
  is_zero x = true <-> exists s, Prim2SF x = S754_zero s.
Proof.
  unfold is_zero. rewrite eqb_spec. unfold SFeqb.
  change (Prim2SF zero) with (S754_zero false).
  destruct (Prim2SF x) as [s|s| |s m e]; cbn; split;
    try discriminate; try (intros [s' H]; discriminate H); eauto.
  - destruct s; discriminate.
  - destruct s; discriminate.
Qed.

Lemma Prim2SF_inj (x y : number) : Prim2SF x = Prim2SF y -> x = y.
Proof.
  intros H. rewrite <- (SF2Prim_Prim2SF x), <- (SF2Prim_Prim2SF y), H. reflexivity.
Qed.

(** A comparison with NaN is false, and a sum with NaN is NaN. *)
Lemma nan_not_gt_l (x y : number) : is_nan x = true -> JS.gt x y = false.
Proof.
  intros H. unfold JS.gt. rewrite ltb_spec, (is_nan_Prim2SF x H).
  unfold SFltb. destruct (Prim2SF y); reflexivity.
Qed.

Lemma nan_not_le_l (x y : number) : is_nan x = true -> JS.le x y = false.
Proof.
  intros H. unfold JS.le. rewrite leb_spec, (is_nan_Prim2SF x H). reflexivity.
Qed.

Lemma add_nan_r (x y : number) : is_nan y = true -> is_nan (JS.add x y) = true.
Proof.
  intros H. apply Prim2SF_is_nan. unfold JS.add.
  rewrite add_spec, (is_nan_Prim2SF y H). unfold SF64add, SFadd.
  destruct (Prim2SF x); reflexivity.
Qed.

Lemma parseFloat_nan (x : number) : is_nan x = true -> JS.parseFloat x = x.
Proof.
  intros H. unfold JS.parseFloat.
  destruct (is_zero x) eqn:Hz; [|reflexivity].
  apply is_zero_Prim2SF in Hz. destruct Hz as [s Hs].
  rewrite (is_nan_Prim2SF x H) in Hs. discriminate.
Qed.

(** [parseFloat] never gives [-0], and adding it to [0] gives it back. *)
Lemma add_zero_parseFloat (x : number) :
  JS.add zero (JS.parseFloat x) = JS.parseFloat x.
Proof.
  apply Prim2SF_inj. unfold JS.add. rewrite add_spec.
  change (Prim2SF zero) with (S754_zero false).
  unfold JS.parseFloat. destruct (is_zero x) eqn:Hz; [reflexivity|].
  destruct (Prim2SF x) as [s|s| |s m e] eqn:Hx; try reflexivity.
  assert (Hz' : is_zero x = true) by (apply is_zero_Prim2SF; eauto).
  congruence.
Qed.

(** X11. An amount that is not a number is neither blocked nor
    auto-approved: for a NaN amount [checkAutoApproval] always asks for
    confirmation, whatever the policy, the trust entry, the spending and
    the state of the storage. *)
Theorem nan_amount_requires_confirmation env db userId contactId amount :
  is_nan amount = true ->
  exists r db',
    checkAutoApproval userId contactId amount env db = (Ok r, db') /\
    decision_of r = RequiresConfirmation /\
    canAutoApprove r = false /\
    budgetExceeded r = None.
Proof.
  intros Hnan.
  destruct (getUserPolicy_cases userId env db) as [[policy [db1 Hp]]|[e [db1 Hp]]].
  - destruct (checkAutoApproval_policy_read userId contactId amount env db policy db1 Hp)
      as [tc [today [week [_ [_ [_ Hrun]]]]]].
    eexists. exists db1. split; [exact Hrun|].
    unfold decisionLogic. rewrite (parseFloat_nan amount Hnan).
    rewrite (nan_not_gt_l _ _ (add_nan_r today amount Hnan)).
    rewrite (nan_not_gt_l _ _ (add_nan_r week amount Hnan)).
    destruct tc as [t|]; [|repeat split].
    cbn zeta. rewrite (nan_not_le_l amount _ Hnan). repeat split.
  - exists failClosed, db1. split.
    + apply checkAutoApproval_policy_throws with (e := e). exact Hp.
    + repeat split.
Qed.

Lemma nan_amount_requires_confirmation_witness :
  exists r db',
    checkAutoApproval alice bob nan env_ok db_scenarioC = (Ok r, db') /\
    decision_of r = RequiresConfirmation.
Proof.
  destruct (nan_amount_requires_confirmation env_ok db_scenarioC alice bob nan)
    as [r [db' [Hr [Hd _]]]]; [reflexivity|].
  exists r, db'. split; assumption.
Defined.

(** ** The ledger: recording and reading *)

Lemma filter_map_same {A} (p : A -> bool) (f : A -> A) (l : list A) :
  (forall x, p (f x) = p x) ->
  filter p (map f l) = map f (filter p l).
Proof.
  intros Hp. induction l as [|x l IH]; cbn; [reflexivity|].
  rewrite Hp. destruct (p x); cbn; rewrite IH; reflexivity.
Qed.

(** Reading back a total that was written. *)
Lemma read_back (s : number) :
  JS.parseFloat (JS.or (JS.to_json s) zero)
  = if is_finite s then JS.parseFloat s else zero.
Proof.
  unfold JS.to_json. destruct (is_finite s) eqn:Hfin; [|reflexivity].
  unfold is_finite in Hfin. apply negb_true_iff, orb_false_iff in Hfin.
  destruct Hfin as [Hnan _]. unfold JS.or, JS.falsy. rewrite Hnan, orb_false_r.
  unfold JS.parseFloat. destruct (is_zero s) eqn:Hz; [reflexivity|].
  rewrite Hz. reflexivity.
Qed.

Lemma or_zero_parseFloat (x : number) :
  is_nan x = false ->
  JS.parseFloat (JS.or (Some x) zero) = JS.parseFloat x.
Proof.
  intros Hnan. unfold JS.or, JS.falsy. rewrite Hnan, orb_false_r.
  unfold JS.parseFloat. destruct (is_zero x) eqn:Hz; [reflexivity|].
  rewrite Hz. reflexivity.
Qed.

Lemma getTodaySpending_rows userId env db :
  fault env DailySpending Select = false ->
  getTodaySpending userId env db
  = (Ok match spending_rows db userId (utc_date (now env)) with
        | [] => zero
        | [d] => JS.parseFloat (JS.or (total_spent d) zero)
        | _ => zero
        end, db).
Proof.
  intros Hsel. unfold getTodaySpending, spending_rows; run_async. rewrite Hsel.
  case_rows; reflexivity.
Qed.

(** Adding to 0 changes only [-0], which the column stores as 0. *)
Lemma DECIMAL_add_zero (y : number) :
  DECIMAL_10_2 (JS.to_json (JS.add zero y)) = DECIMAL_10_2 (JS.to_json y).
Proof.
  destruct (Prim2SF y) as [s|s| |s m e] eqn:Hy.
  - assert (Hy' : y = SF2Prim (S754_zero s))
      by (rewrite <- Hy; symmetry; apply SF2Prim_Prim2SF).
    rewrite Hy'. destruct s; vm_compute; reflexivity.
  - replace (JS.add zero y) with y; [reflexivity|].
    apply Prim2SF_inj. unfold JS.add. rewrite add_spec, Hy. reflexivity.
  - replace (JS.add zero y) with y; [reflexivity|].
    apply Prim2SF_inj. unfold JS.add. rewrite add_spec, Hy. reflexivity.
  - replace (JS.add zero y) with y; [reflexivity|].
    apply Prim2SF_inj. unfold JS.add. rewrite add_spec, Hy. reflexivity.
Qed.

(** The columns of a first row of the day. *)
Lemma spending_columns_first (total : option number) :
  spending_columns total 1%Z
  = match DECIMAL_10_2 total with
    | Data t => Data (t, 1%Z)
    | Error e => Error e
    end.
Proof. unfold spending_columns. destruct (DECIMAL_10_2 total); reflexivity. Qed.

Lemma spending_columns_in_range (total : option number) (count : Z) :
  (- 2 ^ 31 <= count <= 2 ^ 31 - 1)%Z ->
  spending_columns total count
  = match DECIMAL_10_2 total with
    | Data t => Data (t, count)
    | Error e => Error e
    end.
Proof.
  intros [Hlo Hhi]. unfold spending_columns, INTEGER.
  apply Z.leb_le in Hlo, Hhi. rewrite Hlo, Hhi. cbn.
  destruct (DECIMAL_10_2 total); reflexivity.
Qed.

Lemma getTodaySpending_after_update env db userId amount before :
  fault env DailySpending Select = false ->
  fault env DailySpending Insert = false ->
  fault env DailySpending Update = false ->
  List.length (spending_rows db userId (utc_date (now env))) <= 1 ->
  (forall e, In e (spending_rows db userId (utc_date (now env))) ->
             (exists x, total_spent e = Some x /\ is_nan x = false) /\
             (- 2 ^ 31 <= transaction_count e + 1 <= 2 ^ 31 - 1)%Z) ->
  getTodaySpending userId env db = (Ok before, db) ->
  exists db',
    updateDailySpending userId amount env db = (Ok tt, db') /\
    match DECIMAL_10_2 (JS.to_json (JS.add before (JS.parseFloat amount))) with
    | Data total =>
        getTodaySpending userId env db' = (Ok (JS.parseFloat (JS.or total zero)), db')
    | Error _ => db' = db
    end.
Proof.
  intros Hsel Hins Hupd Hlen Htotal Hbefore.
  rewrite (getTodaySpending_rows userId env db Hsel) in Hbefore.
  injection Hbefore as Hbefore.
  unfold updateDailySpending, readExisting, writeSpending; run_async.
  unfold insert_daily_spending, update_daily_spending.
  rewrite Hsel. unfold spending_rows in *.
  destruct (filter _ (daily_spending db)) as [|e [|e' rest]] eqn:Hrows; cbn.
  - rewrite Hins, spending_columns_first. subst before.
    rewrite DECIMAL_add_zero.
    destruct (DECIMAL_10_2 (JS.to_json (JS.parseFloat amount))) as [total|err];
      [|eexists; split; reflexivity].
    rewrite (filter_nil_existsb _ _ Hrows). cbn.
    eexists. split; [reflexivity|].
    rewrite getTodaySpending_rows by exact Hsel. unfold spending_rows. cbn.
    rewrite filter_app, Hrows. cbn. rewrite Nat.eqb_refl, Z.eqb_refl. reflexivity.
  - rewrite Hupd.
    destruct (Htotal e (or_introl eq_refl)) as [[x [Hx Hnan]] Hcount].
    rewrite (spending_columns_in_range _ _ Hcount).
    rewrite Hx in Hbefore |- *. cbn [JS.parseFloat_nullable].
    change (JS.parseFloat (JS.or (Some x) zero) = before) in Hbefore.
    rewrite (or_zero_parseFloat x Hnan) in Hbefore. subst before.
    destruct (DECIMAL_10_2 _) as [total|err]; [|eexists; split; reflexivity].
    cbn. eexists. split; [reflexivity|].
    rewrite getTodaySpending_rows by exact Hsel. unfold spending_rows. cbn.
    rewrite filter_map_same
      by (intros r; destruct (ds_id r =? ds_id e); reflexivity).
    rewrite Hrows. cbn. rewrite Nat.eqb_refl. reflexivity.
  - cbn in Hlen. lia.
Qed.

(** X12. A recorded spend is read back as its column stores it: with the
    ledger working and at most one row for the user and day, holding a
    total that is not null and a count below the largest INTEGER,
    [getTodaySpending] returns after [updateDailySpending] what the
    DECIMAL(10,2) column makes of what it returned before plus the
    amount: the sum rounded to cents, 0 when the sum is not finite (it is
    stored as null); when the rounded sum does not fit the column the
    write is refused and the ledger is as before. *)
Theorem recorded_spend_is_read env db userId amount before :
  fault env DailySpending Select = false ->
  fault env DailySpending Insert = false ->
  fault env DailySpending Update = false ->
  List.length (spending_rows db userId (utc_date (now env))) <= 1 ->
  (forall e, In e (spending_rows db userId (utc_date (now env))) ->
             (exists x, total_spent e = Some x /\ is_nan x = false) /\
             (- 2 ^ 31 <= transaction_count e + 1 <= 2 ^ 31 - 1)%Z) ->
  getTodaySpending userId env db = (Ok before, db) ->
  exists db',
    updateDailySpending userId amount env db = (Ok tt, db') /\
    match DECIMAL_10_2 (JS.to_json (JS.add before (JS.parseFloat amount))) with
    | Data total =>
        getTodaySpending userId env db' = (Ok (JS.parseFloat (JS.or total zero)), db')
    | Error _ => db' = db
    end.
Proof. apply getTodaySpending_after_update. Qed.

Lemma recorded_spend_is_read_witness :
  let db := mkDb [] [] [mkSpending 0 alice wednesday (Some 0.1%float) 1%Z] [] 1 in
  JS.add 0.1%float 0.2%float = 0.30000000000000004%float /\
  exists db',
    updateDailySpending alice 0.2%float env_ok db = (Ok tt, db') /\
    getTodaySpending alice env_ok db' = (Ok 0.3%float, db').
Proof.
  cbn zeta. split; [vm_compute; reflexivity|].
  destruct (recorded_spend_is_read env_ok
              (mkDb [] [] [mkSpending 0 alice wednesday (Some 0.1%float) 1%Z] [] 1)
              alice 0.2%float 0.1%float)
    as [db' [Hrec Hread]].
  - reflexivity.
  - reflexivity.
  - reflexivity.
  - cbn. lia.
  - intros e He. vm_compute in He. destruct He as [<-|[]].
    split; [exists 0.1%float; split; reflexivity|cbn; lia].
  - reflexivity.
  - exists db'. split; [exact Hrec|]. exact Hread.
Defined.

(** An update by id reaches one row when ids are unique. *)
Lemma update_by_id_one (l : list daily_spending_row) (e : daily_spending_row)
    (f : daily_spending_row -> daily_spending_row) (q : daily_spending_row -> bool) :
  NoDup (map ds_id l) ->
  In e l ->
  q e = false -> q (f e) = false ->
  filter q (map (fun r => if ds_id r =? ds_id e then f r else r) l) = filter q l.
Proof.
  induction l as [|r l IH]; intros Hnd Hin Hqe Hqf; [reflexivity|].
  cbn in Hnd. inversion Hnd as [|k ks Hfresh Hrest]; subst.
  cbn [map filter].
  destruct (ds_id r =? ds_id e) eqn:Hid.
  - apply Nat.eqb_eq in Hid.
    assert (Hre : r = e).
    { destruct Hin as [Hre|Hin]; [exact Hre|].
      exfalso. apply Hfresh. rewrite Hid. apply in_map, Hin. }
    subst r. rewrite Hqe, Hqf.
    clear IH Hin Hid Hnd.
    induction l as [|r l IH]; [reflexivity|].
    cbn [map filter].
    destruct (ds_id r =? ds_id e) eqn:Hid'.
    { apply Nat.eqb_eq in Hid'. exfalso. apply Hfresh. rewrite <- Hid'.
      left. reflexivity. }
    cbn in Hrest. inversion Hrest; subst.
    rewrite IH; [reflexivity| |assumption].
    intros Hin. apply Hfresh. right. exact Hin.
  - destruct Hin as [->|Hin]; [rewrite Nat.eqb_refl in Hid; discriminate|].
    rewrite (IH Hrest Hin Hqe Hqf). reflexivity.
Qed.

(** The rows that [updateDailySpending] leaves alone: every row of another
    user or of another day. *)
Lemma updateDailySpending_other_rows env db userId amount (q : daily_spending_row -> bool) :
  spending_ids_unique db ->
  (forall r, ds_user_id r = userId -> ds_date r = utc_date (now env) -> q r = false) ->
  filter q (daily_spending (snd (updateDailySpending userId amount env db)))
  = filter q (daily_spending db).
Proof.
  intros Hids Hq.
  destruct (updateDailySpending_writes env db userId amount)
    as [->|[[_ [total ->]]|[e [total [count [Hin [Hu [Hd ->]]]]]]]].
  - reflexivity.
  - rewrite filter_app. cbn.
    rewrite (Hq (mkSpending (next_id db) userId (utc_date (now env)) total 1%Z)
               eq_refl eq_refl).
    apply app_nil_r.
  - apply (update_by_id_one (daily_spending db) e
             (fun r => mkSpending (ds_id r) (ds_user_id r) (ds_date r) total count) q);
      auto.
Qed.

Lemma getTodaySpending_table userId env db db' (today := utc_date (now env)) :
  filter (fun d => (ds_user_id d =? userId) && (ds_date d =? today)%Z) (daily_spending db)
  = filter (fun d => (ds_user_id d =? userId) && (ds_date d =? today)%Z) (daily_spending db') ->
  fst (getTodaySpending userId env db) = fst (getTodaySpending userId env db').
Proof.
  intros Heq. unfold getTodaySpending; run_async. fold today. rewrite Heq.
  destruct (fault env DailySpending Select); [reflexivity|].
  case_rows; reflexivity.
Qed.

Lemma getWeekSpending_table userId env db db' (ws := weekStart env) :
  filter (fun d => (ds_user_id d =? userId) && (ws <=? ds_date d)%Z) (daily_spending db)
  = filter (fun d => (ds_user_id d =? userId) && (ws <=? ds_date d)%Z) (daily_spending db') ->
  fst (getWeekSpending userId env db) = fst (getWeekSpending userId env db').
Proof.
  intros Heq. unfold getWeekSpending; run_async. fold ws. rewrite Heq.
  destruct (fault env DailySpending Select); reflexivity.
Qed.

(** X13. Recording a spend touches one user and one day: with unique row
    ids, the rows of every other user or other day are as before, and so
    is what [getTodaySpending] and [getWeekSpending] return for every
    other user. *)
Theorem recording_keeps_other_ledgers env env' db userId amount userId' date' :
  spending_ids_unique db ->
  (userId', date') <> (userId, utc_date (now env)) ->
  let db' := snd (updateDailySpending userId amount env db) in
  spending_rows db' userId' date' = spending_rows db userId' date' /\
  (userId' <> userId ->
   fst (getTodaySpending userId' env' db') = fst (getTodaySpending userId' env' db) /\
   fst (getWeekSpending userId' env' db') = fst (getWeekSpending userId' env' db)).
Proof.
  intros Hids Hother db'. split.
  - apply updateDailySpending_other_rows; [exact Hids|].
    intros r Hu Hd.
    destruct ((ds_user_id r =? userId') && (ds_date r =? date')%Z) eqn:Hp;
      [|reflexivity].
    apply andb_true_iff in Hp. destruct Hp as [Hu' Hd'].
    apply Nat.eqb_eq in Hu'. apply Z.eqb_eq in Hd'.
    exfalso. apply Hother. congruence.
  - intros Huser.
    assert (Hq : forall (p : daily_spending_row -> bool) r,
               ds_user_id r = userId -> (ds_user_id r =? userId') && p r = false).
    { intros p r Hu. destruct (ds_user_id r =? userId') eqn:Hu'; [|reflexivity].
      apply Nat.eqb_eq in Hu'. congruence. }
    split.
    + apply getTodaySpending_table.
      apply updateDailySpending_other_rows; [exact Hids|].
      intros r Hu _. apply (Hq (fun d => (ds_date d =? utc_date (now env'))%Z) r Hu).
    + apply getWeekSpending_table.
      apply updateDailySpending_other_rows; [exact Hids|].
      intros r Hu _. apply (Hq (fun d => (weekStart env' <=? ds_date d)%Z) r Hu).
Qed.

Lemma recording_keeps_other_ledgers_witness :
  let db' := snd (updateDailySpending alice 10%float env_ok db_two_weeks) in
  spending_rows db' bob wednesday = spending_rows db_two_weeks bob wednesday /\
  fst (getTodaySpending bob env_ok db') = Ok 7%float /\
  fst (getTodaySpending alice env_ok db') = Ok 12.5%float.
Proof.
  cbn zeta.
  destruct (recording_keeps_other_ledgers env_ok env_ok db_two_weeks alice 10%float
              bob wednesday) as [Hrows Hreads].
  - unfold spending_ids_unique. cbn.
    repeat (constructor; [cbn; intuition discriminate|]). constructor.
  - discriminate.
  - split; [exact Hrows|]. split; [|vm_compute; reflexivity].
    destruct Hreads as [Htoday _]; [discriminate|].
    rewrite Htoday. vm_compute. reflexivity.
Defined.

(** X14. The ledger never holds two rows for one user and day: a table
    without such duplicates stays without them through every call of
    [updateDailySpending], whatever the amount and the storage faults. *)
Theorem ledger_stays_unique env db userId amount :
  ledger_unique db ->
  ledger_unique (snd (updateDailySpending userId amount env db)).
Proof.
  unfold ledger_unique. intros Hnd.
  destruct (updateDailySpending_writes env db userId amount)
    as [->|[[Hex [total ->]]|[e [total [count [_ [_ [_ ->]]]]]]]].
  - exact Hnd.
  - rewrite map_app. cbn. apply NoDup_snoc; [exact Hnd|].
    intros Hin. apply in_map_iff in Hin. destruct Hin as [r [Hk Hr]].
    injection Hk as Hu Hd.
    assert (Hsome : existsb (fun r => (ds_user_id r =? userId)
                                      && (ds_date r =? utc_date (now env))%Z)
                      (daily_spending db) = true).
    { apply existsb_exists. exists r. split; [exact Hr|].
      rewrite Hu, Hd, Nat.eqb_refl, Z.eqb_refl. reflexivity. }
    rewrite Hsome in Hex. discriminate.
  - rewrite map_map.
    erewrite map_ext; [exact Hnd|].
    intros r. cbn. destruct (ds_id r =? ds_id e); reflexivity.
Qed.

Lemma ledger_stays_unique_witness :
  ledger_unique (snd (updateDailySpending alice 10%float env_ok db_two_weeks)).
Proof.
  apply ledger_stays_unique. unfold ledger_unique. cbn.
  repeat (constructor; [cbn; intuition discriminate|]). constructor.
Defined.

(** ** Alerts: raising, reading, marking *)

Lemma insert_newest_first_perm a l :
  Permutation (insert_newest_first a l) (a :: l).
Proof.
  induction l as [|b t IH]; cbn; [reflexivity|].
  destruct (created_at b <? created_at a)%Z; [reflexivity|].
  rewrite IH. apply perm_swap.
Qed.

Lemma order_newest_first_perm l : Permutation (order_newest_first l) l.
Proof.
  induction l as [|a l IH]; cbn; [reflexivity|].
  rewrite insert_newest_first_perm. constructor. exact IH.
Qed.

Lemma insert_newest_first_sorted a l :
  newest_first l -> newest_first (insert_newest_first a l).
Proof.
  unfold newest_first. induction l as [|b t IH]; intros Hs; cbn.
  - constructor; constructor.
  - inversion Hs as [|x xs Hrest Hall]; subst.
    destruct (created_at b <? created_at a)%Z eqn:Hlt.
    + apply Z.ltb_lt in Hlt. constructor; [exact Hs|].
      constructor; [lia|].
      rewrite Forall_forall in Hall |- *. intros y Hy.
      specialize (Hall y Hy). cbn in Hall. lia.
    + apply Z.ltb_ge in Hlt. constructor; [apply IH, Hrest|].
      rewrite Forall_forall in Hall |- *. intros y Hy.
      apply (Permutation_in _ (insert_newest_first_perm a t)) in Hy.
      destruct Hy as [<-|Hy]; [exact Hlt|apply Hall, Hy].
Qed.

Lemma order_newest_first_sorted l : newest_first (order_newest_first l).
Proof.
  induction l as [|a l IH]; cbn; [constructor|].
  apply insert_newest_first_sorted, IH.
Qed.

Lemma getUnreadAlerts_rows userId env db :
  fault env Alerts Select = false ->
  getUnreadAlerts userId env db
  = (Ok (order_newest_first (filter (unread_of userId) (alerts db))), db).
Proof.
  intros Hsel. unfold getUnreadAlerts; run_async. rewrite Hsel. reflexivity.
Qed.

Lemma getUnreadAlerts_table userId env db db' :
  filter (unread_of userId) (alerts db) = filter (unread_of userId) (alerts db') ->
  fst (getUnreadAlerts userId env db) = fst (getUnreadAlerts userId env db').
Proof.
  intros Heq. unfold getUnreadAlerts; run_async.
  change (fun a => (al_user_id a =? userId) && negb (is_read a)) with (unread_of userId).
  rewrite Heq. destruct (fault env Alerts Select); reflexivity.
Qed.

(** X15. [getUnreadAlerts] returns the unread alerts of the user, all of
    them and nothing else, newest first; when the alerts cannot be read it
    returns the empty list. *)
Theorem unread_alerts_newest_first env db userId :
  exists l,
    getUnreadAlerts userId env db = (Ok l, db) /\
    newest_first l /\
    (fault env Alerts Select = true -> l = []) /\
    (fault env Alerts Select = false ->
     Permutation l (filter (unread_of userId) (alerts db)) /\
     forall a,
       In a l <->
       In a (alerts db) /\ al_user_id a = userId /\ is_read a = false).
Proof.
  destruct (fault env Alerts Select) eqn:Hsel.
  - exists []. split.
    + unfold getUnreadAlerts; run_async. rewrite Hsel. reflexivity.
    + split; [constructor|]. split; [reflexivity|discriminate].
  - eexists. split; [apply getUnreadAlerts_rows, Hsel|].
    split; [apply order_newest_first_sorted|]. split; [discriminate|].
    intros _. split; [apply order_newest_first_perm|].
    intros a. split.
    + intros Hin. apply (Permutation_in _ (order_newest_first_perm _)) in Hin.
      apply filter_In in Hin. destruct Hin as [Hin Hp].
      apply andb_true_iff in Hp. destruct Hp as [Hu Hr].
      apply Nat.eqb_eq in Hu. apply negb_true_iff in Hr. auto.
    + intros [Hin [Hu Hr]].
      apply (Permutation_in _ (Permutation_sym (order_newest_first_perm _))).
      apply filter_In. split; [exact Hin|].
      unfold unread_of. rewrite Hu, Hr, Nat.eqb_refl. reflexivity.
Qed.

Lemma filter_map_frame {A} (q : A -> bool) (f : A -> A) (l : list A) :
  (forall x, f x = x \/ (q x = false /\ q (f x) = false)) ->
  filter q (map f l) = filter q l.
Proof.
  intros Hf. induction l as [|x l IH]; cbn; [reflexivity|].
  rewrite IH. destruct (Hf x) as [->|[-> ->]]; reflexivity.
Qed.

Lemma filter_map_pointwise {A} (q q' : A -> bool) (f : A -> A) (l : list A) :
  (forall x, q (f x) = q' x /\ (q' x = true -> f x = x)) ->
  filter q (map f l) = filter q' l.
Proof.
  intros Hf. induction l as [|x l IH]; cbn; [reflexivity|].
  destruct (Hf x) as [Hq Hx]. rewrite Hq, IH.
  destruct (q' x); [rewrite Hx; reflexivity|reflexivity].
Qed.

Lemma markAlertsAsRead_writes userId alertIds env db :
  exists db',
    markAlertsAsRead userId alertIds env db = (Ok tt, db') /\
    (alerts db' = alerts db \/
     alerts db'
     = map (fun a =>
              if reached userId
                   match alertIds with Some (_ :: _) => alertIds | _ => None end a
              then mark_read a else a)
           (alerts db)).
Proof.
  unfold markAlertsAsRead, update_alerts_read; run_async.
  destruct (fault env Alerts Update); cbn; eexists; split; try reflexivity; auto.
Qed.

Lemma marked_all_none_unread userId (l : list alert) :
  filter (unread_of userId)
         (map (fun a => if reached userId None a then mark_read a else a) l) = [].
Proof.
  induction l as [|a l IH]; cbn; [reflexivity|].
  unfold reached at 1, unread_of at 1. rewrite andb_true_r.
  destruct (al_user_id a =? userId) eqn:Hu; cbn.
  - rewrite Hu. cbn. exact IH.
  - rewrite Hu. cbn. exact IH.
Qed.

(** X16. Marking without ids marks everything of the user: after
    [markAlertsAsRead] with [null] or with an empty list of ids, and the
    alerts writable, the user has no unread alert left. *)
Theorem mark_all_leaves_none_unread env env' db userId alertIds :
  fault env Alerts Update = false ->
  alertIds = None \/ alertIds = Some [] ->
  exists db',
    markAlertsAsRead userId alertIds env db = (Ok tt, db') /\
    getUnreadAlerts userId env' db' = (Ok [], db').
Proof.
  intros Hupd Hids.
  assert (Hrun : markAlertsAsRead userId alertIds env db
                 = (Ok tt, set_alerts db
                             (map (fun a => if reached userId None a then mark_read a else a)
                                  (alerts db))
                             (next_id db))).
  { unfold markAlertsAsRead, update_alerts_read; run_async. rewrite Hupd.
    destruct Hids as [-> | ->]; reflexivity. }
  eexists. split; [exact Hrun|].
  unfold getUnreadAlerts; run_async.
  destruct (fault env' Alerts Select); [reflexivity|]. cbn.
  assert (Hnone := marked_all_none_unread userId (alerts db)).
  unfold unread_of in Hnone.
  rewrite Hnone. reflexivity.
Qed.

Lemma mark_all_leaves_none_unread_witness :
  let db := mkDb [] [] []
              [mkAlert 0 alice "low_balance" "Low Balance Alert"
                 (LowBalanceMessage 8%float 10%float) false wednesday_noon;
               mkAlert 1 alice "deposit_received" "Funds Received!"
                 (Text "You received 5 USDC.") false (wednesday_noon + 5)%Z] 2 in
  fst (getUnreadAlerts alice env_ok db)
  = Ok [mkAlert 1 alice "deposit_received" "Funds Received!"
          (Text "You received 5 USDC.") false (wednesday_noon + 5)%Z;
        mkAlert 0 alice "low_balance" "Low Balance Alert"
          (LowBalanceMessage 8%float 10%float) false wednesday_noon] /\
  exists db',
    markAlertsAsRead alice (Some []) env_ok db = (Ok tt, db') /\
    getUnreadAlerts alice env_ok db' = (Ok [], db').
Proof.
  cbn zeta. split; [vm_compute; reflexivity|].
  apply mark_all_leaves_none_unread; [reflexivity|right; reflexivity].
Defined.

(** X17. Marking reaches only the user's own alerts, and with ids only
    the listed ones: whatever ids are given, every other user has the same
    unread alerts afterwards; with a non-empty list and the alerts
    writable, the user's unread alerts afterwards are the unread ones
    of before whose id is not in the list. *)
Theorem marking_reaches_listed_alerts_of_the_user
    env env' db userId alertIds :
  let db' := snd (markAlertsAsRead userId alertIds env db) in
  (forall userId',
     userId' <> userId ->
     fst (getUnreadAlerts userId' env' db') = fst (getUnreadAlerts userId' env' db)) /\
  (forall i ids,
     alertIds = Some (i :: ids) ->
     fault env Alerts Update = false ->
     filter (unread_of userId) (alerts db')
     = filter (fun a => unread_of userId a
                        && negb (existsb (Nat.eqb (al_id a)) (i :: ids)))
              (alerts db)).
Proof.
  cbn zeta. split.
  - intros userId' Hother. apply getUnreadAlerts_table.
    destruct (markAlertsAsRead_writes userId alertIds env db) as [db' [Hrun Hw]].
    rewrite Hrun. cbn [snd]. destruct Hw as [->| ->]; [reflexivity|].
    apply filter_map_frame. intros a.
    unfold reached. destruct (al_user_id a =? userId) eqn:Hu; [|left; reflexivity].
    cbn [andb]. destruct (match _ with Some l => _ | None => true end);
      [|left; reflexivity].
    right. apply Nat.eqb_eq in Hu. unfold unread_of, mark_read. cbn.
    destruct (al_user_id a =? userId') eqn:Hu';
      [apply Nat.eqb_eq in Hu'; congruence|]. auto.
  - intros i ids -> Hupd.
    unfold markAlertsAsRead, update_alerts_read; run_async. rewrite Hupd. cbn [snd].
    cbn [alerts set_alerts].
    apply filter_map_pointwise. intros a.
    unfold reached, unread_of.
    destruct (al_user_id a =? userId) eqn:Hu; cbn [andb].
    + destruct (existsb (Nat.eqb (al_id a)) (i :: ids)) eqn:Hin.
      * cbn. rewrite Hu. cbn. rewrite andb_false_r. split; [reflexivity|discriminate].
      * rewrite Hu. cbn [negb]. rewrite andb_true_r. split; reflexivity.
    + rewrite Hu. split; reflexivity.
Qed.

Lemma unread_alerts_newest_first_witness :
  getUnreadAlerts alice env_ok db_three_alerts
  = (Ok [mkAlert 1 alice "deposit_received" "Funds Received!"
           (Text "You received 5 USDC.") false (wednesday_noon + 5)%Z;
         mkAlert 0 alice "low_balance" "Low Balance Alert"
           (LowBalanceMessage 8%float 10%float) false wednesday_noon],
     db_three_alerts).
Proof.
  destruct (unread_alerts_newest_first env_ok db_three_alerts alice)
    as [l [Hrun _]].
  rewrite Hrun. vm_compute in Hrun. injection Hrun as <-. vm_compute. reflexivity.
Defined.

Lemma marking_reaches_listed_alerts_of_the_user_witness :
  let db' := snd (markAlertsAsRead alice (Some [1; 2]) env_ok db_three_alerts) in
  fst (getUnreadAlerts bob env_ok db')
  = Ok [mkAlert 2 bob "deposit_received" "Funds Received!"
          (Text "You received 9 USDC.") false (wednesday_noon + 7)%Z] /\
  filter (unread_of alice) (alerts db')
  = [mkAlert 0 alice "low_balance" "Low Balance Alert"
       (LowBalanceMessage 8%float 10%float) false wednesday_noon].
Proof.
  cbn zeta.
  destruct (marking_reaches_listed_alerts_of_the_user env_ok env_ok db_three_alerts
              alice (Some [1; 2])) as [Hothers Hlisted].
  split.
  - rewrite (Hothers bob) by discriminate. vm_compute. reflexivity.
  - rewrite (Hlisted 1 [2] eq_refl eq_refl). vm_compute. reflexivity.
Defined.

Lemma createAlert_ok userId type ttl msg env db a db1 :
  createAlert userId type ttl msg env db = (Ok a, db1) ->
  fault env Alerts Insert = false /\
  a = mkAlert (next_id db) userId type ttl msg false (now env) /\
  db1 = set_alerts db (alerts db ++ [a]) (S (next_id db)).
Proof.
  unfold createAlert, insert_alert; run_async.
  destruct (fault env Alerts Insert); cbn; [discriminate|].
  intros H. injection H as <- <-. auto.
Qed.

(** X18. Raising an alert never deduplicates: when [createAlert] has
    succeeded, the same call made again succeeds again and adds a second
    row with another id; both rows are unread, and the first is among the
    unread alerts of the user. *)
Theorem createAlert_always_adds_a_row env env' db userId type ttl msg a db1 :
  createAlert userId type ttl msg env db = (Ok a, db1) ->
  fault env' Alerts Select = false ->
  (exists a2 db2,
     createAlert userId type ttl msg env db1 = (Ok a2, db2) /\
     al_id a2 <> al_id a /\
     alerts db2 = alerts db ++ [a; a2] /\
     is_read a = false /\ is_read a2 = false) /\
  exists l,
    getUnreadAlerts userId env' db1 = (Ok l, db1) /\ In a l.
Proof.
  intros Hcreate Hsel.
  destruct (createAlert_ok _ _ _ _ _ _ _ _ Hcreate) as [Hins [-> ->]].
  split.
  - unfold createAlert, insert_alert; run_async. rewrite Hins. cbn.
    eexists. eexists. split; [reflexivity|]. cbn.
    split; [lia|]. split; [|split; reflexivity].
    rewrite <- app_assoc. reflexivity.
  - eexists. split; [apply getUnreadAlerts_rows, Hsel|].
    apply (Permutation_in _ (Permutation_sym (order_newest_first_perm _))).
    apply filter_In. cbn. split; [apply in_or_app; right; left; reflexivity|].
    unfold unread_of. cbn. rewrite Nat.eqb_refl. reflexivity.
Qed.

Lemma createAlert_always_adds_a_row_witness :
  exists a a2 db1 db2,
    createAlert alice "deposit_received" "Funds Received!" (Text "5 USDC") env_ok empty_db
    = (Ok a, db1) /\
    createAlert alice "deposit_received" "Funds Received!" (Text "5 USDC") env_ok db1
    = (Ok a2, db2) /\
    alerts db2 = [a; a2] /\ al_id a2 <> al_id a.
Proof.
  eexists. eexists. eexists.
  destruct (createAlert_always_adds_a_row env_ok env_ok empty_db alice
              "deposit_received" "Funds Received!" (Text "5 USDC")
              (mkAlert 0 alice "deposit_received" "Funds Received!" (Text "5 USDC")
                 false wednesday_noon)
              (mkDb [] [] []
                 [mkAlert 0 alice "deposit_received" "Funds Received!" (Text "5 USDC")
                    false wednesday_noon] 1))
    as [[a2 [db2 [Hagain [Hid [Halerts _]]]]] _]; try reflexivity.
  exists db2. split; [reflexivity|].
  vm_compute in Hagain. injection Hagain as <- <-.
  split; [reflexivity|]. split; [reflexivity|discriminate].
Defined.

(** X19. Reading an alert does not send it again: when today's
    low-balance alert exists and the storage works, marking alerts as read
    (all, or any list of ids) leaves the check deduplicated; a later
    [checkLowBalanceAlert] that day, the balance still at or below the
    threshold, returns none and adds no alert. *)
Theorem marking_read_does_not_realert
    t t' tz balance db userId policy sent alertIds :
  policy_of db userId policy ->
  filter (low_balance_since userId (utc_date t')) (alerts db) = [sent] ->
  low_call (utc_date t') policy (t', balance) ->
  exists db1 db2,
    markAlertsAsRead userId alertIds (mkEnv t no_fault tz) db = (Ok tt, db1) /\
    checkLowBalanceAlert userId balance (mkEnv t' no_fault tz) db1 = (Ok None, db2) /\
    alerts db2 = alerts db1.
Proof.
  intros Hpol Hsent [_ Hlow]. cbn [fst snd] in Hlow.
  set (ids := match alertIds with Some (_ :: _) => alertIds | _ => None end).
  set (db1 := set_alerts db
                (map (fun a => if reached userId ids a then mark_read a else a) (alerts db))
                (next_id db)).
  assert (Hmark : markAlertsAsRead userId alertIds (mkEnv t no_fault tz) db = (Ok tt, db1))
    by reflexivity.
  assert (Hpol1 : policy_of db1 userId policy) by exact Hpol.
  destruct (getUserPolicy_policy_of userId (mkEnv t' no_fault tz) db1 policy
              eq_refl eq_refl Hpol1) as [db2 [Hget [_ [Halerts _]]]].
  exists db1, db2. split; [exact Hmark|].
  assert (Hfound : filter (low_balance_since userId (utc_date t')) (alerts db2)
                   = [if reached userId ids sent then mark_read sent else sent]).
  { rewrite Halerts. unfold db1. cbn [alerts set_alerts].
    rewrite filter_map_same.
    - rewrite Hsent. reflexivity.
    - intros a. destruct (reached userId ids a); reflexivity. }
  split; [|exact Halerts].
  unfold checkLowBalanceAlert, try_catch, bind. rewrite Hget, Hlow.
  run_async. cbn [now fault no_fault]. rewrite Hfound. reflexivity.
Qed.

Lemma marking_read_does_not_realert_witness :
  exists db1 db2,
    markAlertsAsRead alice None env_ok db_three_alerts = (Ok tt, db1) /\
    checkLowBalanceAlert alice 8%float (mkEnv (wednesday_noon + 60000)%Z no_fault utc) db1
    = (Ok None, db2) /\
    alerts db2 = alerts db1.
Proof.
  apply (marking_read_does_not_realert wednesday_noon (wednesday_noon + 60000)%Z
           utc 8%float db_three_alerts alice (default_policy alice)
           (mkAlert 0 alice "low_balance" "Low Balance Alert"
              (LowBalanceMessage 8%float 10%float) false wednesday_noon) None).
  - left. reflexivity.
  - vm_compute. reflexivity.
  - split; vm_compute; reflexivity.
Defined.

Lemma checkLowBalanceAlert_effects env db userId balance :
  exists r db',
    checkLowBalanceAlert userId balance env db = (Ok r, db') /\
    trusted_contacts db' = trusted_contacts db /\
    daily_spending db' = daily_spending db /\
    match r with
    | None => alerts db' = alerts db
    | Some a =>
        alerts db' = alerts db ++ [a] /\
        al_user_id a = userId /\ alert_type a = "low_balance"%string /\
        is_read a = false /\ created_at a = now env /\
        exists policy,
          In policy (user_policies db') /\ up_user_id policy = userId /\
          JS.le (JS.parseFloat balance)
                (JS.parseFloat (low_balance_alert_threshold policy)) = true
    end.
Proof.
  unfold checkLowBalanceAlert, try_catch, bind.
  destruct (getUserPolicy userId env db) as [[policy|e] db1] eqn:Hget.
  - destruct (getUserPolicy_frame _ _ _ _ _ Hget) as [Htc [Hds [Hal [Hid _]]]].
    assert (Hone := getUserPolicy_ok _ _ _ _ _ Hget).
    assert (Hin : In policy (user_policies db1) /\ up_user_id policy = userId).
    { assert (H : In policy (filter (fun p => up_user_id p =? userId) (user_policies db1)))
        by (rewrite Hone; left; reflexivity).
      apply filter_In in H. destruct H as [H Hu]. apply Nat.eqb_eq in Hu. auto. }
    destruct (JS.le (JS.parseFloat balance)
                    (JS.parseFloat (low_balance_alert_threshold policy))) eqn:Hle.
    + unfold createAlert, insert_alert; run_async.
      destruct (fault env Alerts Select); cbn.
      * destruct (fault env Alerts Insert); cbn.
        -- exists None, db1. auto.
        -- eexists (Some _), _. split; [reflexivity|]. cbn.
           rewrite Hal. repeat split; auto. exists policy. tauto.
      * case_rows; cbn; try (exists None, db1; auto; fail);
          destruct (fault env Alerts Insert); cbn;
          try (exists None, db1; auto; fail);
          (eexists (Some _), _; split; [reflexivity|]; cbn;
           rewrite Hal; repeat split; auto; exists policy; tauto).
    + exists None, db1. auto.
  - destruct (getUserPolicy_frame _ _ _ _ _ Hget) as [Htc [Hds [Hal _]]].
    exists None, db1. auto.
Qed.

(** X20. What a low-balance check can do: [checkLowBalanceAlert] never
    throws; it leaves the trust registry and the ledger alone; when it
    returns none the alerts are as before; when it returns an alert, that
    alert is the one row added, an unread low-balance alert of the user
    created now, and the balance is at or below the threshold of the
    user's policy. *)
Theorem low_balance_check_effects env db userId balance :
  exists r db',
    checkLowBalanceAlert userId balance env db = (Ok r, db') /\
    trusted_contacts db' = trusted_contacts db /\
    daily_spending db' = daily_spending db /\
    match r with
    | None => alerts db' = alerts db
    | Some a =>
        alerts db' = alerts db ++ [a] /\
        al_user_id a = userId /\ alert_type a = "low_balance"%string /\
        is_read a = false /\ created_at a = now env /\
        exists policy,
          In policy (user_policies db') /\ up_user_id policy = userId /\
          JS.le (JS.parseFloat balance)
                (JS.parseFloat (low_balance_alert_threshold policy)) = true
    end.
Proof. apply checkLowBalanceAlert_effects. Qed.

(** ** The spending summary *)

Lemma lt_asym (a b : number) : JS.lt a b = true -> JS.lt b a = false.
Proof.
  unfold JS.lt. rewrite !ltb_spec. unfold SFltb.
  rewrite (SFcompare_antisym (Prim2SF a) (Prim2SF b)).
  destruct (SFcompare (Prim2SF a) (Prim2SF b)) as [[ | | ]|]; cbn; congruence.
Qed.

Lemma Math_max_zero_not_negative (x : number) :
  JS.lt (JS.Math_max zero x) zero = false.
Proof.
  unfold JS.Math_max. change (is_nan zero) with false. cbn [orb].
  destruct (is_nan x); [vm_compute; reflexivity|].
  destruct (PrimFloat.ltb zero x) eqn:Hpos; [apply lt_asym, Hpos|].
  destruct (PrimFloat.ltb x zero); vm_compute; reflexivity.
Qed.

(** X21. The summary never reports a negative remaining budget: in every
    summary [getSpendingSummary] returns, the daily and the weekly
    [remaining] are not below 0, also when more than the limit has been
    spent. *)
Theorem summary_remaining_is_not_negative env db userId days s db' :
  getSpendingSummary userId days env db = (Ok s, db') ->
  JS.lt (remaining (budget_daily s)) zero = false /\
  JS.lt (remaining (budget_weekly s)) zero = false.
Proof.
  unfold getSpendingSummary; run_async.
  destruct (fault env DailySpending Select); [discriminate|].
  destruct (fault env Transactions Select); [discriminate|].
  destruct (getUserPolicy userId env db) as [[policy|e] db1]; [|discriminate].
  destruct (getTodaySpending userId env db1) as [[today|e] db2]; [|discriminate].
  destruct (getWeekSpending userId env db2) as [[week|e] db3]; [|discriminate].
  intros H. injection H as <- _. cbn.
  split; apply Math_max_zero_not_negative.
Qed.

Lemma summary_remaining_is_not_negative_witness :
  let db := mkDb [mkPolicy alice 5%float 50%float 80%float 10%float 0%float] []
              [mkSpending 0 alice wednesday (Some 90%float) 3%Z] [] 1 in
  exists s,
    getSpendingSummary alice 7%Z env_ok db = (Ok s, db) /\
    spent (budget_daily s) = 90%float /\ limit (budget_daily s) = 50%float /\
    remaining (budget_daily s) = 0%float /\
    JS.lt (remaining (budget_weekly s)) zero = false.
Proof.
  cbn zeta. eexists. split; [vm_compute; reflexivity|].
  split; [reflexivity|]. split; [reflexivity|]. split; [vm_compute; reflexivity|].
  eapply (summary_remaining_is_not_negative env_ok
            (mkDb [mkPolicy alice 5%float 50%float 80%float 10%float 0%float] []
               [mkSpending 0 alice wednesday (Some 90%float) 3%Z] [] 1)
            alice 7%Z).
  vm_compute. reflexivity.
Defined.



(* ================================================================== *)
(** * Properties of the middleware                                     *)
(* ================================================================== *)

Lemma fold_left_shift {A} (f : A -> nat -> A) (l : list nat) (acc : A) :
  fold_left f (map S l) acc = fold_left (fun r i => f r (S i)) l acc.
Proof.
  revert acc. induction l as [|i l IH]; intros acc; cbn; [reflexivity|apply IH].
Qed.

Lemma char_code_inj (c d : ascii) :
  Z.of_N (N_of_ascii c) = Z.of_N (N_of_ascii d) -> c = d.
Proof.
  intros H. apply N2Z.inj in H.
  rewrite <- (ascii_N_embedding c), <- (ascii_N_embedding d), H. reflexivity.
Qed.

(** The loop of [secureCompare] ends at 0 exactly when it started at 0 and
    the strings are the same. *)
Lemma secureCompare_loop (a : string) :
  forall (b : string) (acc : Z),
    String.length a = String.length b ->
    fold_left (fun result i => Z.lor result (Z.lxor (charCodeAt a i) (charCodeAt b i)))
              (seq 0 (String.length a)) acc = 0%Z
    <-> acc = 0%Z /\ a = b.
Proof.
  induction a as [|c a IH]; intros b acc Hlen; destruct b as [|d b]; try discriminate.
  - cbn. split; [auto|tauto].
  - cbn [String.length seq fold_left]. rewrite <- seq_shift, fold_left_shift.
    injection Hlen as Hlen.
    change (fold_left
              (fun result i =>
                 Z.lor result (Z.lxor (charCodeAt a i) (charCodeAt b i)))
              (seq 0 (String.length a))
              (Z.lor acc (Z.lxor (Z.of_N (N_of_ascii c)) (Z.of_N (N_of_ascii d)))) = 0%Z
            <-> acc = 0%Z /\ String c a = String d b).
    rewrite (IH b _ Hlen), Z.lor_eq_0_iff, Z.lxor_eq_0_iff. split.
    + intros [[Hacc Hcd] ->]. apply char_code_inj in Hcd. subst d. auto.
    + intros [Hacc Heq]. injection Heq as -> ->. auto.
Qed.

(** The comparison of two strings: the lengths first, then the loop. *)
Lemma secureCompare_true (a b : string) :
  secureCompare a b = true <-> a = b.
Proof.
  unfold secureCompare.
  destruct (String.length a =? String.length b) eqn:Hlen; cbn [negb].
  - apply Nat.eqb_eq in Hlen. rewrite Z.eqb_eq, (secureCompare_loop a b 0%Z Hlen).
    tauto.
  - split; [discriminate|]. intros ->. rewrite Nat.eqb_refl in Hlen. discriminate.
Qed.

(** X23. [secureCompare] is string equality: it answers [true] exactly
    when the two strings are the same. *)
Theorem secureCompare_is_equality (a b : string) :
  secureCompare a b = true <-> a = b.
Proof.
  exact (secureCompare_true a b).
Qed.

Lemma substring_all (s : string) : String.substring 0 (String.length s) s = s.
Proof.
  induction s as [|c s IH]; cbn; [reflexivity|]. rewrite IH. reflexivity.
Qed.

(** A string with a prefix is the prefix followed by the rest. *)
Lemma prefix_rest (p : string) :
  forall s,
    String.prefix p s = true ->
    s = (p ++ String.substring (String.length p)
                               (String.length s - String.length p) s)%string.
Proof.
  induction p as [|c p IH]; intros s Hp.
  - cbn. rewrite Nat.sub_0_r, substring_all. reflexivity.
  - destruct s as [|d s]; [discriminate|]. cbn in Hp.
    destruct (ascii_dec c d) as [->|]; [|discriminate].
    cbn. f_equal. apply IH, Hp.
Qed.

Lemma prefix_append (p k : string) : String.prefix p (p ++ k) = true.
Proof.
  induction p as [|c p IH]; cbn; [destruct k; reflexivity|].
  destruct (ascii_dec c c); [exact IH|congruence].
Qed.

Lemma substring_append (p k : string) :
  String.substring (String.length p)
                   (String.length (p ++ k) - String.length p) (p ++ k) = k.
Proof.
  induction p as [|c p IH]; cbn.
  - rewrite Nat.sub_0_r. apply substring_all.
  - exact IH.
Qed.

(** X24. With an API key configured, a request is let through exactly
    when its Authorization header is "Bearer " followed by the key; a
    request without the header is never let through, configured key or
    not. *)
Theorem authentication_accepts_the_key (authHeader : option string) (key : string) :
  key <> EmptyString ->
  (authenticateToolRequest authHeader (Some key) = AuthNext
   <-> authHeader = Some ("Bearer " ++ key)%string) /\
  forall configured, authenticateToolRequest None configured = MissingAuthorization.
Proof.
  intros Hkey. split; [|reflexivity].
  unfold authenticateToolRequest. split.
  - destruct authHeader as [[|c header]|]; try discriminate.
    destruct (String.prefix "Bearer " (String c header)) eqn:Hp; [|discriminate].
    cbn [negb]. destruct key as [|k key]; [congruence|].
    destruct (secureCompare _ (String k key)) eqn:Hcmp; [|discriminate].
    intros _. apply secureCompare_true in Hcmp.
    rewrite (prefix_rest _ _ Hp) at 1. cbn [String.length].
    f_equal. f_equal. exact Hcmp.
  - intros ->. destruct key as [|k key]; [congruence|].
    change ("Bearer " ++ String k key)%string
      with (String "B" ("earer " ++ String k key)%string) at 1.
    cbv iota beta.
    rewrite (prefix_append "Bearer " (String k key)). cbn [negb].
    change 7 with (String.length "Bearer ").
    rewrite (substring_append "Bearer " (String k key)).
    assert (Hsame : secureCompare (String k key) (String k key) = true)
      by (apply secureCompare_true; reflexivity).
    rewrite Hsame. reflexivity.
Qed.

Lemma authentication_accepts_the_key_witness :
  authenticateToolRequest (Some "Bearer s3cret"%string) (Some "s3cret"%string) = AuthNext /\
  authenticateToolRequest (Some "Bearer s3cres"%string) (Some "s3cret"%string)
  = InvalidApiKey.
Proof.
  split; [|vm_compute; reflexivity].
  apply (authentication_accepts_the_key (Some "Bearer s3cret"%string) "s3cret");
    [discriminate|reflexivity].
Defined.

Lemma counts_set_same key r m : counts_set key r m key = Some r.
Proof. unfold counts_set. rewrite String.eqb_refl. reflexivity. Qed.

(** A request inside the current window passes while the count is below
    the maximum, and is counted when it passes. *)
Lemma rate_within_window key c w t m :
  key <> EmptyString ->
  m key = Some (mkRate c w) ->
  (t - w <= RATE_LIMIT_WINDOW)%Z ->
  exists m',
    rateLimitByPhone (Some key) t m = ((c <? MAX_REQUESTS_PER_WINDOW)%Z, m') /\
    m' key = Some (mkRate (if (c <? MAX_REQUESTS_PER_WINDOW)%Z then c + 1 else c)%Z w).
Proof.
  intros Hkey Hm Ht. unfold rateLimitByPhone.
  destruct key as [|k key]; [congruence|]. rewrite Hm. cbn [windowStart rate_count].
  assert (Hin : (t - w >? RATE_LIMIT_WINDOW)%Z = false)
    by (rewrite Z.gtb_ltb; apply Z.ltb_ge; exact Ht).
  rewrite Hin. rewrite Z.geb_leb.
  destruct (c <? MAX_REQUESTS_PER_WINDOW)%Z eqn:Hc.
  - apply Z.ltb_lt in Hc.
    assert (Hle : (MAX_REQUESTS_PER_WINDOW <=? c)%Z = false) by (apply Z.leb_gt; exact Hc).
    rewrite Hle. eexists. split; [reflexivity|]. apply counts_set_same.
  - apply Z.ltb_ge in Hc.
    assert (Hle : (MAX_REQUESTS_PER_WINDOW <=? c)%Z = true) by (apply Z.leb_le; exact Hc).
    rewrite Hle. eexists. split; [reflexivity|]. exact Hm.
Qed.

Lemma rate_requests_within_window key w :
  key <> EmptyString ->
  forall times c m,
    m key = Some (mkRate c w) ->
    Forall (fun t => (t - w <= RATE_LIMIT_WINDOW)%Z) times ->
    fst (rate_requests (Some key) times m)
    = map (fun i => (c + Z.of_nat i <? MAX_REQUESTS_PER_WINDOW)%Z)
          (seq 0 (List.length times)).
Proof.
  intros Hkey. induction times as [|t rest IH]; intros c m Hm Hall; [reflexivity|].
  inversion Hall as [|x xs Ht Hrest]; subst.
  destruct (rate_within_window key c w t m Hkey Hm Ht) as [m' [Hstep Hm']].
  cbn [rate_requests List.length seq map]. rewrite Hstep.
  specialize (IH _ m' Hm' Hrest).
  destruct (rate_requests (Some key) rest m') as [results m''].
  cbn [fst] in IH |- *. rewrite IH, Z.add_0_r. f_equal.
  rewrite <- seq_shift, map_map. apply map_ext. intros i.
  unfold MAX_REQUESTS_PER_WINDOW.
  destruct (c <? 30)%Z eqn:Hc.
  - f_equal. lia.
  - apply Z.ltb_ge in Hc.
    transitivity false; [apply Z.ltb_ge; lia|symmetry; apply Z.ltb_ge; lia].
Qed.

(** X25. Thirty requests a minute per phone: of the requests of one phone
    that arrive within 60 seconds of its first one, exactly the first 30
    are let through and every later one is answered 429. *)
Theorem rate_limit_passes_the_first_thirty key first rest m :
  key <> EmptyString ->
  m key = None ->
  Forall (fun t => (t - first <= RATE_LIMIT_WINDOW)%Z) rest ->
  fst (rate_requests (Some key) (first :: rest) m)
  = map (fun i => i <? 30) (seq 0 (List.length (first :: rest))).
Proof.
  intros Hkey Hm Hrest.
  cbn [rate_requests List.length seq map].
  assert (Hfirst : rateLimitByPhone (Some key) first m
                   = (true, counts_set key (mkRate 1 first) m)).
  { unfold rateLimitByPhone. destruct key as [|k key]; [congruence|].
    rewrite Hm. reflexivity. }
  rewrite Hfirst.
  assert (Hseq := rate_requests_within_window key first Hkey rest 1%Z
                    (counts_set key (mkRate 1 first) m)
                    (counts_set_same key _ m) Hrest).
  destruct (rate_requests (Some key) rest _) as [results m''].
  cbn [fst] in Hseq |- *. rewrite Hseq. f_equal.
  rewrite <- seq_shift, map_map. apply map_ext. intros i.
  unfold MAX_REQUESTS_PER_WINDOW.
  destruct (S i <? 30) eqn:Hi.
  - apply Nat.ltb_lt in Hi. apply Z.ltb_lt. lia.
  - apply Nat.ltb_ge in Hi. apply Z.ltb_ge. lia.
Qed.

Lemma rate_limit_passes_the_first_thirty_witness :
  fst (rate_requests (Some "+2348104916815"%string)
         (map (fun i => 1000 * Z.of_nat i)%Z (seq 0 32)) no_requests)
  = repeat true 30 ++ [false; false].
Proof.
  change (map (fun i => 1000 * Z.of_nat i)%Z (seq 0 32))
    with (0%Z :: map (fun i => 1000 * Z.of_nat i)%Z (seq 1 31)).
  rewrite (rate_limit_passes_the_first_thirty "+2348104916815" 0%Z
             (map (fun i => 1000 * Z.of_nat i)%Z (seq 1 31)) no_requests).
  - vm_compute. reflexivity.
  - discriminate.
  - reflexivity.
  - apply Forall_forall. intros t Ht. apply in_map_iff in Ht.
    destruct Ht as [i [<- Hi]]. apply in_seq in Hi.
    unfold RATE_LIMIT_WINDOW. lia.
Defined.

(* ================================================================== *)
(** * Properties of the send route                                     *)
(* ================================================================== *)

(** The three required fields of a body that passes the validation. *)
Lemma required_fields_present req :
  fst (validateRequiredFields (send_body req) ["phone"; "recipientName"; "amount"]%string)
  = true ->
  truthy_string (req_phone req) = true /\
  truthy_string (req_recipientName req) = true /\
  exists amount, req_amount req = Some amount /\ JS.falsy_value amount = false.
Proof.
  unfold validateRequiredFields. cbn [filter fst].
  change (send_body req "phone") with (truthy_string (req_phone req)).
  change (send_body req "recipientName")
    with (truthy_string (req_recipientName req)).
  change (send_body req "amount")
    with (match req_amount req with
          | Some a => negb (JS.falsy_value a)
          | None => false
          end).
  destruct (truthy_string (req_phone req));
    destruct (truthy_string (req_recipientName req));
    destruct (req_amount req) as [amount|];
    try destruct (JS.falsy_value amount) eqn:Htruthy;
    cbn [negb]; try discriminate.
  intros _. repeat split. exists amount. split; [reflexivity|exact Htruthy].
Qed.

(** The steps that lie before the transfer. *)
Lemma sendRoute_requested req ext env db resp db' :
  sendRoute req ext env db = (resp, true, db') ->
  exists amount sender contact balance r db1,
    req_amount req = Some amount /\
    truthy_string (req_phone req) = true /\
    truthy_string (req_recipientName req) = true /\
    JS.falsy_value amount = false /\
    validateTransactionLimits (Some amount) = true /\
    is_nan (JS.parseFloat amount) = false /\
    JS.le (JS.parseFloat amount) zero = false /\
    getUserByPhone ext = Some (Some sender) /\
    truthy_string (wallet_id sender) = true /\
    getContactByName ext = Some (Some contact) /\
    getBalance ext = Some balance /\
    JS.lt (JS.parseFloat balance) (JS.parseFloat amount) = false /\
    checkAutoApproval (user_id sender) (contact_id contact) amount env db = (Ok r, db1) /\
    budgetExceeded r = None /\
    (requiresConfirmation r = false \/ req_confirmed req = true) /\
    (db' = db1 \/
     exists tx,
       sendUSDCWithConfirmation ext = Some tx /\ tx_success tx = true /\
       let db2 := snd (updateDailySpending (user_id sender) (JS.parseFloat amount) env db1) in
       db' = db2 \/
       exists newBalance, getBalance_after ext = Some newBalance /\
         db' = snd (checkLowBalanceAlert (user_id sender) newBalance env db2)).
Proof.
  unfold sendRoute. cbv zeta. intros H.
  destruct (validateTransactionLimits (req_amount req)) eqn:Hlimit;
    cbn [negb] in H; [|discriminate H].
  destruct (fst (validateRequiredFields _ _)) eqn:Hvalid; cbn [negb] in H;
    [|discriminate H].
  destruct (required_fields_present req Hvalid)
    as [Hphone [Hname [amount [Hamount Htruthy]]]].
  rewrite Hamount in H, Hlimit.
  destruct (is_nan (JS.parseFloat amount)) eqn:Hnan; [discriminate H|].
  destruct (JS.le (JS.parseFloat amount) zero) eqn:Hpos; [discriminate H|].
  cbn [orb] in H.
  destruct (getUserByPhone ext) as [[sender|]|] eqn:Hsender; try discriminate H.
  destruct (truthy_string (wallet_id sender)) eqn:Hwallet; cbn [negb] in H;
    [|discriminate H].
  destruct (getContactByName ext) as [[contact|]|] eqn:Hcontact; try discriminate H.
  destruct (getBalance ext) as [balance|] eqn:Hbalance; [|discriminate H].
  destruct (JS.lt (JS.parseFloat balance) (JS.parseFloat amount)) eqn:Hfunds;
    [discriminate H|].
  destruct (checkAutoApproval (user_id sender) (contact_id contact) amount env db)
    as [[r|e] db1] eqn:Hcheck; [|discriminate H].
  destruct (budgetExceeded r) eqn:Hbudget; [discriminate H|].
  destruct (requiresConfirmation r && negb (req_confirmed req)) eqn:Hconfirm;
    [discriminate H|].
  exists amount, sender, contact, balance, r, db1.
  repeat (split; [reflexivity || assumption|]).
  split.
  { destruct (requiresConfirmation r); [|auto].
    destruct (req_confirmed req); [auto|discriminate Hconfirm]. }
  destruct (sendUSDCWithConfirmation ext) as [tx|] eqn:Htx;
    [|injection H as _ <-; auto].
  destruct (tx_success tx) eqn:Hok; cbn [negb] in H.
  - right. exists tx. split; [reflexivity|]. split; [exact Hok|]. cbv zeta.
    destruct (logTransactionWithDetails ext); [|injection H as _ <-; auto].
    destruct (getBalance_after ext) as [newBalance|]; [|injection H as _ <-; auto].
    right. exists newBalance. split; [reflexivity|].
    destruct (checkLowBalanceAlert (user_id sender) newBalance env _)
      as [[alert|e] db3]; cbn [snd].
    + destruct (budgetStatus r); injection H as _ <-; reflexivity.
    + injection H as _ <-. reflexivity.
  - left. destruct (logTransactionWithDetails ext); injection H as _ <-; reflexivity.
Qed.

(** An amount that is truthy and passes the limit of the middleware
    parses to at most 1000, or to NaN. *)
Lemma validateTransactionLimits_bound (amount : JS.value) :
  validateTransactionLimits (Some amount) = true ->
  JS.falsy_value amount = false ->
  JS.gt (JS.parseFloat amount) DAILY_LIMIT_DEFAULT = false.
Proof.
  unfold validateTransactionLimits. intros Hlimit Htruthy.
  rewrite Htruthy in Hlimit. apply negb_true_iff in Hlimit. exact Hlimit.
Qed.

(** X26. What a transfer takes.  The route reads the amount of the body
    with [parseFloat] and asks the wallet service to transfer only when
    that is a number above 0 and not above 1000, sender and contact are
    known and the sender has a wallet, the balance is not below the
    parsed amount, the decision engine reports no exceeded budget, and
    the payment was auto-approved or the request is confirmed.  A
    confirmation does not get past an exceeded budget.  The tests are on
    the parsed amount, not on the amount as the body has it. *)
Theorem transfer_takes_approval req ext env db resp db' :
  sendRoute req ext env db = (resp, true, db') ->
  exists amount sender contact balance r db1,
    req_amount req = Some amount /\
    JS.falsy_value amount = false /\
    JS.gt (JS.parseFloat amount) DAILY_LIMIT_DEFAULT = false /\
    is_nan (JS.parseFloat amount) = false /\
    JS.le (JS.parseFloat amount) zero = false /\
    getUserByPhone ext = Some (Some sender) /\
    wallet_id sender <> None /\
    getContactByName ext = Some (Some contact) /\
    getBalance ext = Some balance /\
    JS.lt (JS.parseFloat balance) (JS.parseFloat amount) = false /\
    checkAutoApproval (user_id sender) (contact_id contact) amount env db = (Ok r, db1) /\
    budgetExceeded r = None /\
    (canAutoApprove r = true \/ req_confirmed req = true).
Proof.
  intros H.
  destruct (sendRoute_requested _ _ _ _ _ _ H)
    as (amount & sender & contact & balance & r & db1 & Ha & _ & _ & Htruthy
        & Hlimit & Hnan & Hpos & Hs & Hw & Hc & Hb & Hf & Hcheck & Hbud
        & Hconf & _).
  exists amount, sender, contact, balance, r, db1.
  repeat (split; [reflexivity || assumption|]). split.
  { apply validateTransactionLimits_bound; assumption. }
  repeat (split; [reflexivity || assumption|]). split.
  { destruct (wallet_id sender); [discriminate|discriminate Hw]. }
  repeat (split; [reflexivity || assumption|]).
  destruct Hconf as [Hno|Hyes]; [|auto]. left.
  destruct (getUserPolicy_cases (user_id sender) env db) as [[p [d Hp]]|[e [d Hp]]].
  - destruct (checkAutoApproval_policy_read (user_id sender) (contact_id contact)
                amount env db p d Hp) as [tc [today [week [_ [_ [_ Hrun]]]]]].
    rewrite Hrun in Hcheck. injection Hcheck as <- _.
    revert Hno. unfold decisionLogic.
    destruct (JS.gt _ (daily_spending_limit p)); [cbn; discriminate|].
    destruct (JS.gt _ (weekly_spending_limit p)); [cbn; discriminate|].
    destruct tc as [t|]; [|cbn; discriminate]. cbn zeta.
    destruct (JS.le _ (effectiveLimit t p)); cbn; [reflexivity|discriminate].
  - rewrite (checkAutoApproval_policy_throws _ _ _ _ _ _ _ Hp) in Hcheck.
    injection Hcheck as <- _. discriminate Hno.
Qed.

Lemma transfer_takes_approval_witness :
  JS.parseFloat (JS.Str "1,500") = 1%float /\
  exists r db1,
    checkAutoApproval alice bob (JS.Str "1,500") env_ok db_scenarioC = (Ok r, db1) /\
    budgetExceeded r = None /\ canAutoApprove r = true.
Proof.
  split; [vm_compute; reflexivity|].
  destruct (transfer_takes_approval (send_request (JS.Str "1,500") false)
              (all_answer (JS.Str "44")) env_ok db_scenarioC
              (Sent true 99%float 499%float None)
              (snd (sendRoute (send_request (JS.Str "1,500") false)
                      (all_answer (JS.Str "44")) env_ok db_scenarioC)))
    as (amount & sender & contact & balance & r & db1 & Ha & _ & _ & _ & _
        & Hs & _ & Hc & _ & _ & Hcheck & Hbud & Hauto).
  - vm_compute. reflexivity.
  - injection Ha as <-. injection Hs as <-. injection Hc as <-.
    exists r, db1. split; [exact Hcheck|]. split; [exact Hbud|].
    destruct Hauto as [Hauto|Hconf]; [exact Hauto|discriminate Hconf].
Defined.

(** The store after the route is the store after the decision, after the
    recording of the spend, or after the low-balance check. *)
Lemma sendRoute_store req ext env db resp requested db' :
  sendRoute req ext env db = (resp, requested, db') ->
  db' = db \/
  exists amount sender contact,
    let db1 := snd (checkAutoApproval (user_id sender) (contact_id contact) amount env db) in
    db' = db1 \/
    requested = true /\
    exists tx,
      sendUSDCWithConfirmation ext = Some tx /\ tx_success tx = true /\
      let db2 := snd (updateDailySpending (user_id sender) (JS.parseFloat amount) env db1) in
      db' = db2 \/
      exists newBalance,
        db' = snd (checkLowBalanceAlert (user_id sender) newBalance env db2).
Proof.
  unfold sendRoute. cbv zeta. intros H.
  destruct (negb (validateTransactionLimits (req_amount req)));
    [injection H as _ _ <-; auto|].
  destruct (negb (fst (validateRequiredFields _ _))); [injection H as _ _ <-; auto|].
  destruct (req_amount req) as [amount|]; [|injection H as _ _ <-; auto].
  destruct (is_nan (JS.parseFloat amount) || JS.le (JS.parseFloat amount) zero);
    [injection H as _ _ <-; auto|].
  destruct (getUserByPhone ext) as [[sender|]|]; try (injection H as _ _ <-; auto; fail).
  destruct (negb (truthy_string (wallet_id sender))); [injection H as _ _ <-; auto|].
  destruct (getContactByName ext) as [[contact|]|];
    try (injection H as _ _ <-; auto; fail).
  destruct (getBalance ext) as [balance|]; [|injection H as _ _ <-; auto].
  destruct (JS.lt (JS.parseFloat balance) (JS.parseFloat amount));
    [injection H as _ _ <-; auto|].
  right. exists amount, sender, contact. cbv zeta.
  destruct (checkAutoApproval (user_id sender) (contact_id contact) amount env db)
    as [[r|e] db1]; cbn [snd]; [|injection H as _ _ <-; auto].
  destruct (budgetExceeded r); [injection H as _ _ <-; auto|].
  destruct (requiresConfirmation r && negb (req_confirmed req));
    [injection H as _ _ <-; auto|].
  destruct (sendUSDCWithConfirmation ext) as [tx|]; [|injection H as _ _ <-; auto].
  destruct (tx_success tx) eqn:Hok; cbn [negb] in H.
  - destruct (logTransactionWithDetails ext).
    + destruct (getBalance_after ext) as [newBalance|].
      * right. assert (requested = true /\
                       db' = snd (checkLowBalanceAlert (user_id sender) newBalance env
                                    (snd (updateDailySpending (user_id sender)
                                            (JS.parseFloat amount) env db1))))
          as [Hreq Hdb].
        { destruct (checkLowBalanceAlert (user_id sender) newBalance env _)
            as [[alert|e] db3]; cbn [snd].
          - destruct (budgetStatus r); injection H as _ <- <-; auto.
          - injection H as _ <- <-. auto. }
        split; [exact Hreq|]. exists tx. split; [reflexivity|]. split; [exact Hok|].
        right. exists newBalance. exact Hdb.
      * injection H as _ <- <-. right. split; [reflexivity|]. exists tx. auto.
    + injection H as _ <- <-. right. split; [reflexivity|]. exists tx. auto.
  - left. destruct (logTransactionWithDetails ext); injection H as _ _ <-; reflexivity.
Qed.

(** X27. A request that is turned down leaves the books alone: unless the
    wallet service was asked to transfer and reported success, the route
    leaves the spending ledger, the alerts and the trust registry as they
    were, whatever the response. *)
Theorem books_change_only_after_a_transfer req ext env db resp requested db' :
  sendRoute req ext env db = (resp, requested, db') ->
  (requested = false \/
   forall tx, sendUSDCWithConfirmation ext = Some tx -> tx_success tx = false) ->
  daily_spending db' = daily_spending db /\
  alerts db' = alerts db /\
  trusted_contacts db' = trusted_contacts db.
Proof.
  intros H Hno.
  destruct (sendRoute_store _ _ _ _ _ _ _ H) as [->|[amount [sender [contact Hdb]]]];
    [auto|].
  cbv zeta in Hdb.
  destruct Hdb as [->|[Hreq [tx [Htx [Hok _]]]]].
  - destruct (checkAutoApproval_frame env db (user_id sender) (contact_id contact) amount)
      as [Ht [Hd [Ha _]]].
    auto.
  - destruct Hno as [Hno|Hno].
    + congruence.
    + rewrite (Hno tx Htx) in Hok. discriminate Hok.
Qed.

Lemma books_change_only_after_a_transfer_witness :
  let out := sendRoute (send_request 3%float false) (all_answer 40%float) env_ok empty_db in
  fst (fst out) = ConfirmationNeeded NotTrusted
                    (Some (mkBudgetStatus 0%float 0%float 100%float 500%float
                            100%float 500%float)) /\
  daily_spending (snd out) = [] /\ alerts (snd out) = [] /\
  trusted_contacts (snd out) = [].
Proof.
  cbv zeta. split; [vm_compute; reflexivity|].
  apply (books_change_only_after_a_transfer (send_request 3%float false)
           (all_answer 40%float) env_ok empty_db
           (fst (fst (sendRoute (send_request 3%float false) (all_answer 40%float)
                        env_ok empty_db))) false).
  - vm_compute. reflexivity.
  - left. reflexivity.
Defined.

(** X28. An unreadable policy fails the request after the money moved.
    When the policy table cannot be read, the decision engine answers
    'confirm manually' without a budget status; a confirmed request then
    passes both gates, the transfer is made and the spend recorded, and
    the building of the response, which reads the budget status, throws:
    the caller gets status 500 'Failed to send USDC' for a payment that
    went through. *)
Theorem unreadable_policy_fails_after_the_transfer
    req ext env db amount sender contact balance tx newBalance :
  fault env UserPolicies Select = true ->
  truthy_string (req_phone req) = true ->
  truthy_string (req_recipientName req) = true ->
  req_amount req = Some amount ->
  JS.falsy_value amount = false ->
  is_nan (JS.parseFloat amount) = false ->
  JS.le (JS.parseFloat amount) zero = false ->
  JS.gt (JS.parseFloat amount) DAILY_LIMIT_DEFAULT = false ->
  req_confirmed req = true ->
  getUserByPhone ext = Some (Some sender) ->
  truthy_string (wallet_id sender) = true ->
  getContactByName ext = Some (Some contact) ->
  getBalance ext = Some balance ->
  JS.lt (JS.parseFloat balance) (JS.parseFloat amount) = false ->
  sendUSDCWithConfirmation ext = Some tx ->
  tx_success tx = true ->
  logTransactionWithDetails ext = Some tt ->
  getBalance_after ext = Some newBalance ->
  exists db',
    sendRoute req ext env db = (FailedToSend, true, db') /\
    http_status FailedToSend = 500%Z /\
    db' = snd (checkLowBalanceAlert (user_id sender) newBalance env
                 (snd (updateDailySpending (user_id sender) (JS.parseFloat amount)
                         env db))).
Proof.
  intros Hfault Hphone Hname Hamount Htruthy Hnan Hpos Hlimit Hconf
         Hs Hw Hc Hb Hfunds Htx Hok Hlog Hnew.
  unfold sendRoute. cbv zeta.
  rewrite Hamount. unfold validateTransactionLimits.
  rewrite Htruthy, Hlimit. cbn [negb].
  unfold validateRequiredFields, send_body. cbn [filter String.eqb Ascii.eqb Bool.eqb].
  rewrite Hphone, Hname, Hamount, Htruthy.
  cbn [orb negb fst snd]. rewrite Hnan, Hpos. cbn [orb].
  rewrite Hs, Hw, Hc, Hb, Hfunds. cbn [negb].
  rewrite (checkAutoApproval_policy_throws _ _ _ _ _ _ _
             (getUserPolicy_fault (user_id sender) env db Hfault)).
  cbn [failClosed budgetExceeded requiresConfirmation budgetStatus].
  rewrite Hconf, Htx, Hok, Hlog, Hnew. cbn [negb andb].
  destruct (checkLowBalanceAlert (user_id sender) newBalance env _)
    as [[alert|e] db3]; cbn [snd]; eexists; split; try reflexivity; split; reflexivity.
Qed.

Lemma unreadable_policy_fails_after_the_transfer_witness :
  exists db',
    sendRoute (send_request (JS.Str "40") true) (all_answer (JS.Str "5"))
      env_policy_down db_scenarioC
    = (FailedToSend, true, db') /\
    fst (getTodaySpending alice env_policy_down db') = Ok 40%float.
Proof.
  destruct (unreadable_policy_fails_after_the_transfer
              (send_request (JS.Str "40") true) (all_answer (JS.Str "5"))
              env_policy_down
              db_scenarioC (JS.Str "40") (mkUser alice (Some "wallet-1"%string))
              (mkContact bob "0xb0b"%string) (JS.Str "45") (mkTxResult true)
              (JS.Str "5"))
    as [db' [Hrun [_ Hdb]]]; try reflexivity.
  exists db'. split; [exact Hrun|]. rewrite Hdb. vm_compute. reflexivity.
Defined.

(** A number that is not at or below 0 is not a zero, and printing and
    reading it gives it back. *)
Lemma parseFloat_of_positive (y : number) :
  JS.le y zero = false -> JS.parseFloat (JS.Num y) = y.
Proof.
  intros Hpos. unfold JS.parseFloat.
  destruct (is_zero y) eqn:Hz; [|reflexivity].
  apply is_zero_Prim2SF in Hz. destruct Hz as [s Hs].
  unfold JS.le in Hpos. rewrite leb_spec, Hs in Hpos.
  destruct s; discriminate Hpos.
Qed.

(** The steps behind the answer 'sent'. *)
Lemma sendRoute_sent req ext env db auto dr wr warn requested db' :
  sendRoute req ext env db = (Sent auto dr wr warn, requested, db') ->
  exists amount sender contact r db1 status newBalance alert,
    req_amount req = Some amount /\
    getUserByPhone ext = Some (Some sender) /\
    getContactByName ext = Some (Some contact) /\
    checkAutoApproval (user_id sender) (contact_id contact) amount env db = (Ok r, db1) /\
    budgetExceeded r = None /\
    budgetStatus r = Some status /\
    auto = canAutoApprove r /\
    dr = JS.sub (remainingToday status) (JS.parseFloat amount) /\
    wr = JS.sub (remainingWeek status) (JS.parseFloat amount) /\
    checkLowBalanceAlert (user_id sender) newBalance env
      (snd (updateDailySpending (user_id sender) (JS.parseFloat amount) env db1))
    = (Ok alert, db') /\
    warn = option_map message alert /\
    requested = true.
Proof.
  unfold sendRoute. cbv zeta. intros H.
  repeat route_step H.
  injection H as <- <- <- <- <- <-.
  repeat eexists; try eassumption; reflexivity.
Qed.

(** X29. A payment answered with 'sent' is in the day's total, as the
    ledger stores it.  When the ledger can be read and written and holds
    at most one row for the sender and the day, with a number as total
    and a count below the largest INTEGER, then after a 'sent' response
    the earlier spending plus the parsed amount was within the sender's
    daily limit, the reported daily remainder is the limit less the
    earlier spending less the parsed amount, and the spending of the day
    reads as what the DECIMAL(10,2) column makes of that sum, rounded to
    cents; when the sum does not fit the column the ledger is as
    before. *)
Theorem sent_payment_is_counted
    req ext env db sender amount auto dr wr warn requested db' :
  sendRoute req ext env db = (Sent auto dr wr warn, requested, db') ->
  getUserByPhone ext = Some (Some sender) ->
  req_amount req = Some amount ->
  fault env DailySpending Select = false ->
  fault env DailySpending Insert = false ->
  fault env DailySpending Update = false ->
  List.length (spending_rows db (user_id sender) (utc_date (now env))) <= 1 ->
  (forall e, In e (spending_rows db (user_id sender) (utc_date (now env))) ->
             (exists x, total_spent e = Some x /\ is_nan x = false) /\
             (- 2 ^ 31 <= transaction_count e + 1 <= 2 ^ 31 - 1)%Z) ->
  exists policy before,
    fst (getUserPolicy (user_id sender) env db) = Ok policy /\
    fst (getTodaySpending (user_id sender) env db) = Ok before /\
    JS.gt (JS.add before (JS.parseFloat amount)) (daily_spending_limit policy) = false /\
    dr = JS.sub (JS.sub (daily_spending_limit policy) before) (JS.parseFloat amount) /\
    match DECIMAL_10_2 (JS.to_json (JS.add before (JS.parseFloat amount))) with
    | Data total =>
        fst (getTodaySpending (user_id sender) env db')
        = Ok (JS.parseFloat (JS.or total zero))
    | Error _ => daily_spending db' = daily_spending db
    end.
Proof.
  intros H Hsender Hamount Hsel Hins Hupd Hone Htotals.
  destruct (sendRoute_sent _ _ _ _ _ _ _ _ _ _ H)
    as [amount' [sender' [contact [r [db1 [status [newBalance [alert
        [Ha [Hs [_ [Hcheck [Hbud [Hstatus [_ [Hdr [_ [Hlow [_ ->]]]]]]]]]]]]]]]]]]].
  rewrite Hamount in Ha. injection Ha as <-.
  rewrite Hsender in Hs. injection Hs as <-.
  destruct (sendRoute_requested _ _ _ _ _ _ H)
    as (amount' & _ & _ & _ & _ & _ & Ha & _ & _ & _ & _ & _ & Hpos & _).
  rewrite Hamount in Ha. injection Ha as <-.
  pose proof (checkAutoApproval_frame env db (user_id sender) (contact_id contact) amount)
    as Hframe.
  cbv zeta in Hframe. rewrite Hcheck in Hframe. cbn [snd] in Hframe.
  destruct Hframe as [_ [Hledger _]].
  destruct (getUserPolicy_cases (user_id sender) env db) as [[p [d Hp]]|[e [d Hp]]].
  2:{ rewrite (checkAutoApproval_policy_throws _ _ _ _ _ _ _ Hp) in Hcheck.
      injection Hcheck as <- _. discriminate Hstatus. }
  destruct (checkAutoApproval_policy_read (user_id sender) (contact_id contact)
              amount env db p d Hp) as [tc [today [week [_ [Htoday [_ Hrun]]]]]].
  rewrite Hrun in Hcheck. injection Hcheck as <- <-.
  assert (Hrows : forall date,
             spending_rows d (user_id sender) date = spending_rows db (user_id sender) date).
  { intros date. unfold spending_rows. rewrite Hledger. reflexivity. }
  exists p, today. split; [rewrite Hp; reflexivity|]. split.
  { rewrite <- (getTodaySpending_table (user_id sender) env d db),
      Htoday; [reflexivity|].
    rewrite Hledger. reflexivity. }
  assert (Hwithin : JS.gt (JS.add today (JS.parseFloat amount)) (daily_spending_limit p)
                    = false).
  { revert Hbud. unfold decisionLogic.
    destruct (JS.gt (JS.add today _) (daily_spending_limit p)); [cbn; discriminate|].
    reflexivity. }
  split; [exact Hwithin|]. split.
  { rewrite Hdr. revert Hstatus. unfold decisionLogic. rewrite Hwithin.
    destruct (JS.gt _ (weekly_spending_limit p)).
    - cbn. intros Hst. injection Hst as <-. reflexivity.
    - destruct tc as [t|]; cbn zeta.
      + destruct (JS.le _ (effectiveLimit t p)); cbn; intros Hst;
          injection Hst as <-; reflexivity.
      + cbn. intros Hst. injection Hst as <-. reflexivity. }
  destruct (getTodaySpending_after_update env d (user_id sender)
              (JS.Num (JS.parseFloat amount)) today Hsel Hins Hupd)
    as [db2 [Hrec Hread]].
  { rewrite Hrows. exact Hone. }
  { rewrite Hrows. exact Htotals. }
  { exact Htoday. }
  rewrite (parseFloat_of_positive _ Hpos) in Hread.
  rewrite Hrec in Hlow. cbn [snd] in Hlow.
  destruct (checkLowBalanceAlert_effects env db2 (user_id sender) newBalance)
    as [r' [db3 [Hlow' [_ [Hsame _]]]]].
  rewrite Hlow in Hlow'. injection Hlow' as <- <-.
  destruct (DECIMAL_10_2 _) as [total|err].
  - rewrite (getTodaySpending_table (user_id sender) env db' db2), Hread;
      [reflexivity|].
    rewrite Hsame. reflexivity.
  - rewrite Hsame, Hread. exact Hledger.
Qed.

Lemma sent_payment_is_counted_witness :
  let db := mkDb [default_policy alice] [mkTrusted alice bob None]
                 [mkSpending 0 alice wednesday (Some 0.1%float) 1%Z] [] 1 in
  let db' := snd (sendRoute (send_request (JS.Str "0.2") false) (all_answer (JS.Str "44.8"))
                    env_ok db) in
  JS.add 0.1%float (JS.parseFloat (JS.Str "0.2")) = 0.30000000000000004%float /\
  fst (getTodaySpending alice env_ok db') = Ok 0.3%float.
Proof.
  cbv zeta. split; [vm_compute; reflexivity|].
  destruct (sent_payment_is_counted (send_request (JS.Str "0.2") false)
              (all_answer (JS.Str "44.8")) env_ok
              (mkDb [default_policy alice] [mkTrusted alice bob None]
                    [mkSpending 0 alice wednesday (Some 0.1%float) 1%Z] [] 1)
              (mkUser alice (Some "wallet-1"%string)) (JS.Str "0.2")
              true (JS.sub 99.9%float 0.2%float) (JS.sub 499.9%float 0.2%float) None true
              (snd (sendRoute (send_request (JS.Str "0.2") false)
                      (all_answer (JS.Str "44.8")) env_ok
                      (mkDb [default_policy alice] [mkTrusted alice bob None]
                            [mkSpending 0 alice wednesday (Some 0.1%float) 1%Z] [] 1))))
    as [policy [before [Hp [Hb [_ [Hdr Hread]]]]]].
  - vm_compute. reflexivity.
  - reflexivity.
  - reflexivity.
  - reflexivity.
  - reflexivity.
  - reflexivity.
  - cbn. lia.
  - intros e He. vm_compute in He. destruct He as [<-|[]].
    split; [exists 0.1%float; split; reflexivity|cbn; lia].
  - vm_compute in Hb. injection Hb as <-.
    exact Hread.
Defined.
